(** * AI attendance web app: the capture workflow and its classifier call

    A shallow embedding of [src/api/geminiApi.jsx] (function
    [processImageWithAI]) and of [src/components/WebcamCapture.jsx] (the
    component's state cells, its handlers, the continuations of its
    asynchronous functions and its two effects), with the properties the
    specification states about them; then of the rest of
    [src/api/geminiApi.jsx], of [src/firebase/firebaseConfig.jsx] and of
    [src/App.jsx], with properties read off the code.

    Layout:
    - [JS]: the fragment of JavaScript values the sources manipulate
      (values read from a JSON body, truthiness, property reads that may
      throw, the comparison [x > 0], strict equality with a string);
    - [Gemini]: [processImageWithAI];
    - [WebcamCapture]: the component as a transition system over the
      events the browser can deliver to it;
    - [WorkflowRuns]: what a run of the component has been given (user
      ids, frames, camera grants);
    - [GeminiText]: the key written to the console,
      [generateAttendanceSummary] and [generateWelcomeMessage];
    - [FirebaseConfig]: the body of the module, [initializeFirebase] and
      [signInUser];
    - [App]: the two effects of [App], as a transition system over the
      reports of the authentication listener, the settling of sign-in
      calls, the messages of the children and the passing of time;
    - the modules named [...Facts]: the properties. *)

From Stdlib Require Import String Ascii List Bool Arith ZArith Lia.
From Stdlib Require Import Floats.SpecFloat Numbers.DecimalString.
Import ListNotations.
Open Scope string_scope.
Set Warnings "-register-all,-notation-for-abbreviation".

(* ================================================================== *)
(** ** JavaScript values                                               *)
(* ================================================================== *)

Module JS.

(** What [response.json()] or [JSON.parse] can produce, plus [undefined]
    (the result of reading a property that is not there).  Numbers are
    IEEE doubles, by their specification type. *)
Inductive value : Type :=
| VUndefined
| VNull
| VBool (b : bool)
| VNum (n : spec_float)
| VStr (s : string)
| VArr (items : list value)
| VObj (fields : list (string * value)).

(** An [Error] object; the sources only ever read its [.message]. *)
Record error : Type := Error { err_message : string }.

(** Outcome of evaluating an expression, or of awaiting a promise:
    a value, or a thrown exception (a rejected promise). *)
Inductive completion (A : Type) : Type :=
| Normal (a : A)
| Throw (e : error).
Arguments Normal {A} a.
Arguments Throw {A} e.

Definition bind {A B : Type} (c : completion A) (k : A -> completion B)
  : completion B :=
  match c with
  | Normal a => k a
  | Throw e => Throw e
  end.

(** [try { body } catch (error) { handler }] *)
Definition try_catch {A : Type} (body : completion A)
  (handler : error -> completion A) : completion A :=
  match body with
  | Normal a => Normal a
  | Throw e => handler e
  end.

Declare Scope js_scope.
Delimit Scope js_scope with js.
Notation "x <- c ;; k" := (bind c (fun x => k))
  (at level 61, c at next level, right associativity) : js_scope.

(** The parts of the language runtime the sources call and this
    development does not define: they are taken as an interface, and every
    theorem below holds for each implementation of it. *)
Class Engine : Type := {
  (** [JSON.parse(text)]: the value, or a [SyntaxError] *)
  JSON_parse : string -> completion value;
  (** [JSON.stringify(v)] for a value read from a JSON body *)
  JSON_stringify : value -> string;
  (** [String(n)] for a number *)
  NumberToString : spec_float -> string;
  (** [String(v)] for an array or an object *)
  ObjectToString : value -> string;
  (** [Number(s)] for a string *)
  StringToNumber : string -> spec_float;
  (** [Number(v)] for an array or an object *)
  ObjectToNumber : value -> spec_float;
  (** message of the [TypeError] raised by reading property [p] of
      [null] or [undefined] *)
  TypeError_message : value -> string -> string
}.

(** [!!v] *)
Definition truthy (v : value) : bool :=
  match v with
  | VUndefined | VNull => false
  | VBool b => b
  | VNum (S754_zero _) | VNum S754_nan => false
  | VNum _ => true
  | VStr s => negb (s =? "")
  | VArr _ | VObj _ => true
  end.

(** [!s] for a string *)
Definition falsy_string (s : string) : bool := s =? "".

(** A length, as a number. *)
Definition number_of_nat (n : nat) : spec_float :=
  match n with
  | O => S754_zero false
  | S _ => S754_finite false (Pos.of_nat n) 0
  end.

Fixpoint lookup (k : string) (fields : list (string * value)) : value :=
  match fields with
  | [] => VUndefined
  | (k', v) :: rest => if k =? k' then v else lookup k rest
  end.

Definition string_of_nat (n : nat) : string :=
  NilZero.string_of_uint (Nat.to_uint n).

Section WithEngine.
Context {engine : Engine}.

(** [v.p] for an identifier [p]: own properties only (none of the names
    the sources read is inherited from a prototype). *)
Definition get (v : value) (p : string) : completion value :=
  match v with
  | VUndefined | VNull => Throw (Error (TypeError_message v p))
  | VObj fields => Normal (lookup p fields)
  | VArr items =>
      if p =? "length" then Normal (VNum (number_of_nat (List.length items)))
      else Normal VUndefined
  | VStr s =>
      if p =? "length" then Normal (VNum (number_of_nat (String.length s)))
      else Normal VUndefined
  | VBool _ | VNum _ => Normal VUndefined
  end.

(** [v[i]] for a number literal [i] *)
Definition get_index (v : value) (i : nat) : completion value :=
  match v with
  | VUndefined | VNull =>
      Throw (Error (TypeError_message v (string_of_nat i)))
  | VObj fields => Normal (lookup (string_of_nat i) fields)
  | VArr items => Normal (nth i items VUndefined)
  | VStr s =>
      Normal (match String.get i s with
              | Some c => VStr (String c EmptyString)
              | None => VUndefined
              end)
  | VBool _ | VNum _ => Normal VUndefined
  end.

(** [v?.p] *)
Definition get_optional (v : value) (p : string) : completion value :=
  match v with
  | VUndefined | VNull => Normal VUndefined
  | _ => get v p
  end.

Definition ToNumber (v : value) : spec_float :=
  match v with
  | VUndefined => S754_nan
  | VNull => S754_zero false
  | VBool true => S754_finite false 1 0
  | VBool false => S754_zero false
  | VNum n => n
  | VStr s => StringToNumber s
  | VArr _ | VObj _ => ObjectToNumber v
  end.

(** [v > 0] *)
Definition gt_zero (v : value) : bool :=
  match ToNumber v with
  | S754_infinity false | S754_finite false _ _ => true
  | _ => false
  end.

(** [String(v)], as a template literal and [JSON.parse] apply it *)
Definition ToString (v : value) : string :=
  match v with
  | VUndefined => "undefined"
  | VNull => "null"
  | VBool true => "true"
  | VBool false => "false"
  | VNum n => NumberToString n
  | VStr s => s
  | VArr _ | VObj _ => ObjectToString v
  end.

(** [v === s] for a string literal [s] *)
Definition strict_eq_string (v : value) (s : string) : bool :=
  match v with
  | VStr s' => s' =? s
  | _ => false
  end.

(** [a || b] *)
Definition or_else (a b : value) : value := if truthy a then a else b.

End WithEngine.

(** [s.split(',')] *)
Fixpoint split_comma_aux (acc : string -> string) (s : string) : list string :=
  match s with
  | EmptyString => [acc EmptyString]
  | String c rest =>
      if Ascii.eqb c ","%char
      then acc EmptyString :: split_comma_aux (fun t => t) rest
      else split_comma_aux (fun t => acc (String c t)) rest
  end.

Definition split_comma (s : string) : list string :=
  split_comma_aux (fun t => t) s.

End JS.

(* ================================================================== *)
(** ** src/api/geminiApi.jsx                                           *)
(* ================================================================== *)

Module Gemini.
Import JS.
Local Open Scope js_scope.

(** The request [fetch] is given: the endpoint with the key, and the
    image data placed in the payload ([undefined] when the data URL has
    no comma). *)
Record request : Type := {
  req_url : string;
  req_inlineData : option string
}.

(** What the function reads of a [Response]: [ok], [status],
    [statusText] and the outcome of [response.json()]. *)
Record response : Type := {
  resp_ok : bool;
  resp_status : nat;
  resp_statusText : string;
  resp_json : completion value
}.

(** The object the function resolves to.  [status] and [message] are
    copied from the parsed reply unchecked, so they are arbitrary values. *)
Record result : Type := {
  status : value;
  faceDetected : bool;
  message : value
}.

Definition error_result (msg : string) : result :=
  {| status := VStr "error"; faceDetected := false; message := VStr msg |}.

Section WithEngine.
Context {engine : Engine}.

(** [import.meta.env.VITE_GEMINI_API_KEY || ""] *)
Variable API_KEY : string.

Definition API_URL_FLASH : string :=
  "https://generativelanguage.googleapis.com/v1beta/models/gemini-2.0-flash:generateContent?key="
  ++ API_KEY.

(** The condition of the [if] that validates the reply (lines 98-100):
    a chain of [&&], each operand read only when the ones before it are
    truthy; a read may throw. *)
Definition structure_valid (result : value) : completion bool :=
  candidates <- get result "candidates" ;;
  if negb (truthy candidates) then Normal false else
  len <- get candidates "length" ;;
  if negb (gt_zero len) then Normal false else
  first <- get_index candidates 0 ;;
  content <- get first "content" ;;
  if negb (truthy content) then Normal false else
  parts <- get content "parts" ;;
  if negb (truthy parts) then Normal false else
  plen <- get parts "length" ;;
  Normal (gt_zero plen).

(** [result.candidates[0].content.parts[0].text] (line 101) *)
Definition candidate_text (result : value) : completion value :=
  candidates <- get result "candidates" ;;
  first <- get_index candidates 0 ;;
  content <- get first "content" ;;
  parts <- get content "parts" ;;
  part <- get_index parts 0 ;;
  get part "text".

(** Lines 102-106: parse the text, compare the message, build the result. *)
Definition interpret_text (jsonResponse : value) : completion result :=
  parsedResponse <- JSON_parse (ToString jsonResponse) ;;
  msg <- get parsedResponse "message" ;;
  let faceDetected := strict_eq_string msg "Face detected" in
  st <- get parsedResponse "status" ;;
  msg' <- get parsedResponse "message" ;;
  Normal {| status := st; faceDetected := faceDetected; message := msg' |}.

(** Lines 88-93: the reply to a response that is not [ok]. *)
Definition http_error_result (r : response) : completion result :=
  errorData <- resp_json r ;;
  err <- get errorData "error" ;;
  detail <- get_optional err "message" ;;
  let details := or_else detail (VStr (JSON_stringify errorData)) in
  Normal (error_result
            ("Gemini API Error: " ++ string_of_nat (resp_status r) ++ " "
             ++ resp_statusText r ++ ". Details: " ++ ToString details)).

(** The body of the [try] block (lines 80-111). *)
Definition try_body (fetch : request -> completion response) (req : request)
  : completion result :=
  response <- fetch req ;;
  if negb (resp_ok response) then http_error_result response else
  result <- resp_json response ;;
  valid <- structure_valid result ;;
  if valid then
    jsonResponse <- candidate_text result ;;
    interpret_text jsonResponse
  else
    Normal (error_result "AI processing failed: Invalid response structure.").

(** [processImageWithAI(capturedImageBase64)], with the network as the
    function [fetch].  [Throw] would be a rejected promise. *)
(** Lines 41 and 51-85: the request made for an image;
    [base64ImageData] is [capturedImageBase64.split(',')[1]]. *)
Definition request_for (capturedImageBase64 : string) : request :=
  let base64ImageData := nth_error (split_comma capturedImageBase64) 1 in
  {| req_url := API_URL_FLASH; req_inlineData := base64ImageData |}.

(** [processImageWithAI(capturedImageBase64)], with the network as the
    function [fetch].  [Throw] would be a rejected promise. *)
Definition processImageWithAI (fetch : request -> completion response)
  (capturedImageBase64 : string) : completion result :=
  if falsy_string API_KEY then
    Normal (error_result "Gemini API Key is not configured.")
  else
    try_catch (try_body fetch (request_for capturedImageBase64))
      (fun error =>
         Normal (error_result
                   ("AI processing failed: " ++ err_message error ++ "."))).

(** *** Vocabulary of the properties *)

(** The text the function goes on to parse, when the response carries
    one: the body is JSON, passes the validation and the text can be
    read. *)
Definition reply_text (r : response) : option value :=
  match resp_json r with
  | Normal body =>
      match structure_valid body with
      | Normal true =>
          match candidate_text body with
          | Normal text => Some text
          | Throw _ => None
          end
      | _ => None
      end
  | Throw _ => None
  end.

(** A result that reports a failure: [status] is ['error'], no face, and
    the message is one of the function's own English sentences. *)
Definition reports_failure (r : result) : Prop :=
  status r = VStr "error" /\ faceDetected r = false /\
  exists text, message r = VStr text /\
    (prefix "Gemini API " text || prefix "AI processing failed: " text) = true.

(** The failures the function looks for: no key, a request that fails, a
    status that is not [ok], a body that is not JSON, a body that does not
    pass the validation or has no readable text, a text that does not
    parse, and a text that parses to [null], whose [message] cannot be
    read. *)
Inductive failure (fetch : request -> completion response) (img : string)
  : Prop :=
| missing_key :
    API_KEY = "" -> failure fetch img
| network_failure (e : error) :
    fetch (request_for img) = Throw e -> failure fetch img
| http_status_not_ok (r : response) :
    fetch (request_for img) = Normal r -> resp_ok r = false ->
    failure fetch img
| malformed_body (r : response) (e : error) :
    fetch (request_for img) = Normal r -> resp_json r = Throw e ->
    failure fetch img
| unexpected_structure (r : response) :
    fetch (request_for img) = Normal r -> resp_ok r = true ->
    reply_text r = None -> failure fetch img
| malformed_text (r : response) (text : value) (e : error) :
    fetch (request_for img) = Normal r -> resp_ok r = true ->
    reply_text r = Some text -> JSON_parse (ToString text) = Throw e ->
    failure fetch img
| reply_unreadable (r : response) (text parsedResponse : value) (e : error) :
    fetch (request_for img) = Normal r -> resp_ok r = true ->
    reply_text r = Some text ->
    JSON_parse (ToString text) = Normal parsedResponse ->
    get parsedResponse "message" = Throw e ->
    failure fetch img.

End WithEngine.
End Gemini.

(* ================================================================== *)
(** ** src/components/WebcamCapture.jsx                                *)
(* ================================================================== *)

Module WebcamCapture.
Import JS.

(** *** Data *)

(** The document [logAttendance] hands to [addDoc]; its [timestamp] is
    the sentinel [serverTimestamp()], resolved by the store. *)
Record AttendanceRecord : Type := {
  personName : string;
  image : string;
  loggedByUserId : string
}.

(** A document as the store holds it, with the time the server gave it. *)
Record StoredRecord : Type := {
  document : AttendanceRecord;
  timestamp : nat
}.

(** What a [logAttendance] callback closed over when [useCallback] built
    it: the [userId] and the [capturedImage] of that render. *)
Record LogClosure : Type := {
  closed_userId : option string;
  closed_capturedImage : option string
}.

(** One [SpeechRecognition] object made by the first effect; its
    [onresult] handler calls the [logAttendance] of the render that made
    it. *)
Record Recognizer : Type := {
  rec_id : nat;
  rec_logAttendance : LogClosure
}.

(** The [useState] cells of the component, and the [message] cell of
    [App] it writes through [setMessage]. *)
Record Cells : Type := {
  stream : option nat;
  isCameraActive : bool;
  capturedImage : option string;
  isProcessing : bool;
  faceDetectedByAI : bool;
  isListeningForName : bool;
  recognizedName : string;
  message : string
}.

(** The [userId] prop, the refs ([true]: [.current] is not null), and
    whether the component is still mounted. *)
Record Host : Type := {
  userId : option string;
  videoRef : bool;
  canvasRef : bool;
  speechRecognition : option Recognizer;
  mounted : bool
}.

(** Everything outside the component that its calls act on. *)
Record World : Type := {
  (** media streams whose tracks have not been stopped *)
  liveStreams : list nat;
  (** handle of the next stream the browser hands out *)
  nextStream : nat;
  nextRecognizer : nat;
  (** [getUserMedia] calls not yet settled *)
  cameraRequests : nat;
  (** [processImageWithAI] calls not yet settled, with their argument *)
  aiCalls : list string;
  (** recognizers started and not yet ended; [true] once the result or
      the error event has been delivered *)
  sessions : list (Recognizer * bool);
  (** [addDoc] calls not yet settled *)
  writes : list AttendanceRecord;
  (** the attendance collection *)
  store : list StoredRecord;
  (** history: the images for which a classification call came back
      positive (not a variable of the program) *)
  classified : list string
}.

Record Config : Type := {
  cells : Cells;
  host : Host;
  world : World
}.

Definition option_eqb {A : Type} (eqb : A -> A -> bool) (x y : option A) : bool :=
  match x, y with
  | Some a, Some b => eqb a b
  | None, None => true
  | _, _ => false
  end.

(** [!!x] for a cell that holds [null] or a string *)
Definition present (x : option string) : bool :=
  match x with
  | Some s => negb (falsy_string s)
  | None => false
  end.

Declare Scope pipe_scope.
Notation "s |> f" := (f s) (at level 71, left associativity, only parsing)
  : pipe_scope.
Local Open Scope pipe_scope.

(** *** State setters *)

Definition with_cells (f : Cells -> Cells) (s : Config) : Config :=
  {| cells := f (cells s); host := host s; world := world s |}.
Definition with_host (f : Host -> Host) (s : Config) : Config :=
  {| cells := cells s; host := f (host s); world := world s |}.
Definition with_world (f : World -> World) (s : Config) : Config :=
  {| cells := cells s; host := host s; world := f (world s) |}.

Definition setStream (v : option nat) : Config -> Config :=
  with_cells (fun c =>
    {| stream := v; isCameraActive := isCameraActive c;
       capturedImage := capturedImage c; isProcessing := isProcessing c;
       faceDetectedByAI := faceDetectedByAI c;
       isListeningForName := isListeningForName c;
       recognizedName := recognizedName c; message := message c |}).
Definition setIsCameraActive (v : bool) : Config -> Config :=
  with_cells (fun c =>
    {| stream := stream c; isCameraActive := v;
       capturedImage := capturedImage c; isProcessing := isProcessing c;
       faceDetectedByAI := faceDetectedByAI c;
       isListeningForName := isListeningForName c;
       recognizedName := recognizedName c; message := message c |}).
Definition setCapturedImage (v : option string) : Config -> Config :=
  with_cells (fun c =>
    {| stream := stream c; isCameraActive := isCameraActive c;
       capturedImage := v; isProcessing := isProcessing c;
       faceDetectedByAI := faceDetectedByAI c;
       isListeningForName := isListeningForName c;
       recognizedName := recognizedName c; message := message c |}).
Definition setIsProcessing (v : bool) : Config -> Config :=
  with_cells (fun c =>
    {| stream := stream c; isCameraActive := isCameraActive c;
       capturedImage := capturedImage c; isProcessing := v;
       faceDetectedByAI := faceDetectedByAI c;
       isListeningForName := isListeningForName c;
       recognizedName := recognizedName c; message := message c |}).
Definition setFaceDetectedByAI (v : bool) : Config -> Config :=
  with_cells (fun c =>
    {| stream := stream c; isCameraActive := isCameraActive c;
       capturedImage := capturedImage c; isProcessing := isProcessing c;
       faceDetectedByAI := v;
       isListeningForName := isListeningForName c;
       recognizedName := recognizedName c; message := message c |}).
Definition setIsListeningForName (v : bool) : Config -> Config :=
  with_cells (fun c =>
    {| stream := stream c; isCameraActive := isCameraActive c;
       capturedImage := capturedImage c; isProcessing := isProcessing c;
       faceDetectedByAI := faceDetectedByAI c;
       isListeningForName := v;
       recognizedName := recognizedName c; message := message c |}).
Definition setRecognizedName (v : string) : Config -> Config :=
  with_cells (fun c =>
    {| stream := stream c; isCameraActive := isCameraActive c;
       capturedImage := capturedImage c; isProcessing := isProcessing c;
       faceDetectedByAI := faceDetectedByAI c;
       isListeningForName := isListeningForName c;
       recognizedName := v; message := message c |}).
Definition setMessage (v : string) : Config -> Config :=
  with_cells (fun c =>
    {| stream := stream c; isCameraActive := isCameraActive c;
       capturedImage := capturedImage c; isProcessing := isProcessing c;
       faceDetectedByAI := faceDetectedByAI c;
       isListeningForName := isListeningForName c;
       recognizedName := recognizedName c; message := v |}).

Definition set_userId (v : option string) : Config -> Config :=
  with_host (fun h =>
    {| userId := v; videoRef := videoRef h; canvasRef := canvasRef h;
       speechRecognition := speechRecognition h; mounted := mounted h |}).
Definition set_speechRecognition (v : option Recognizer) : Config -> Config :=
  with_host (fun h =>
    {| userId := userId h; videoRef := videoRef h; canvasRef := canvasRef h;
       speechRecognition := v; mounted := mounted h |}).
(** React clears the refs of a component it removes. *)
Definition detach : Config -> Config :=
  with_host (fun h =>
    {| userId := userId h; videoRef := false; canvasRef := false;
       speechRecognition := speechRecognition h; mounted := false |}).

Definition set_liveStreams (v : list nat) : Config -> Config :=
  with_world (fun w =>
    {| liveStreams := v; nextStream := nextStream w;
       nextRecognizer := nextRecognizer w; cameraRequests := cameraRequests w;
       aiCalls := aiCalls w; sessions := sessions w; writes := writes w;
       store := store w; classified := classified w |}).
Definition set_nextStream (v : nat) : Config -> Config :=
  with_world (fun w =>
    {| liveStreams := liveStreams w; nextStream := v;
       nextRecognizer := nextRecognizer w; cameraRequests := cameraRequests w;
       aiCalls := aiCalls w; sessions := sessions w; writes := writes w;
       store := store w; classified := classified w |}).
Definition set_nextRecognizer (v : nat) : Config -> Config :=
  with_world (fun w =>
    {| liveStreams := liveStreams w; nextStream := nextStream w;
       nextRecognizer := v; cameraRequests := cameraRequests w;
       aiCalls := aiCalls w; sessions := sessions w; writes := writes w;
       store := store w; classified := classified w |}).
Definition set_cameraRequests (v : nat) : Config -> Config :=
  with_world (fun w =>
    {| liveStreams := liveStreams w; nextStream := nextStream w;
       nextRecognizer := nextRecognizer w; cameraRequests := v;
       aiCalls := aiCalls w; sessions := sessions w; writes := writes w;
       store := store w; classified := classified w |}).
Definition set_aiCalls (v : list string) : Config -> Config :=
  with_world (fun w =>
    {| liveStreams := liveStreams w; nextStream := nextStream w;
       nextRecognizer := nextRecognizer w; cameraRequests := cameraRequests w;
       aiCalls := v; sessions := sessions w; writes := writes w;
       store := store w; classified := classified w |}).
Definition set_sessions (v : list (Recognizer * bool)) : Config -> Config :=
  with_world (fun w =>
    {| liveStreams := liveStreams w; nextStream := nextStream w;
       nextRecognizer := nextRecognizer w; cameraRequests := cameraRequests w;
       aiCalls := aiCalls w; sessions := v; writes := writes w;
       store := store w; classified := classified w |}).
Definition set_writes (v : list AttendanceRecord) : Config -> Config :=
  with_world (fun w =>
    {| liveStreams := liveStreams w; nextStream := nextStream w;
       nextRecognizer := nextRecognizer w; cameraRequests := cameraRequests w;
       aiCalls := aiCalls w; sessions := sessions w; writes := v;
       store := store w; classified := classified w |}).
Definition set_store (v : list StoredRecord) : Config -> Config :=
  with_world (fun w =>
    {| liveStreams := liveStreams w; nextStream := nextStream w;
       nextRecognizer := nextRecognizer w; cameraRequests := cameraRequests w;
       aiCalls := aiCalls w; sessions := sessions w; writes := writes w;
       store := v; classified := classified w |}).
Definition set_classified (v : list string) : Config -> Config :=
  with_world (fun w =>
    {| liveStreams := liveStreams w; nextStream := nextStream w;
       nextRecognizer := nextRecognizer w; cameraRequests := cameraRequests w;
       aiCalls := aiCalls w; sessions := sessions w; writes := writes w;
       store := store w; classified := v |}).

(** *** The component *)

Section Component.
Context {engine : Engine}.

(** [VITE_GEMINI_API_KEY], read by [geminiApi.jsx] *)
Variable API_KEY : string.
(** the [db] prop is truthy *)
Variable db : bool.
(** ['webkitSpeechRecognition' in window] *)
Variable webkitSpeechRecognition : bool.
(** [navigator.mediaDevices] is defined *)
Variable mediaDevices : bool.

(** **** Calls into the browser *)

(** [stream.getTracks().forEach(track => track.stop())] *)
Definition stop_tracks (sid : nat) (s : Config) : Config :=
  s |> set_liveStreams
         (filter (fun x => negb (Nat.eqb x sid)) (liveStreams (world s))).

(** The browser opens the camera for one pending [getUserMedia] call and
    resolves its promise with a new stream. *)
Definition open_stream (s : Config) : nat * Config :=
  let sid := nextStream (world s) in
  (sid,
   s |> set_liveStreams (sid :: liveStreams (world s))
     |> set_nextStream (S sid)
     |> set_cameraRequests (pred (cameraRequests (world s)))).

(** [recognition.start()]; on an object already started it throws
    [InvalidStateError] and starts nothing. *)
Definition recognition_start (r : Recognizer) (s : Config) : Config :=
  if existsb (fun x => Nat.eqb (rec_id (fst x)) (rec_id r)) (sessions (world s))
  then s
  else s |> set_sessions (sessions (world s) ++ [(r, false)]).

(** **** [startCamera] (lines 106-126) *)

Definition startCamera_catch (s : Config) : Config :=
  s |> setMessage "Error: Could not access webcam. Please ensure it's connected and permissions are granted."
    |> setIsCameraActive false.

(** Up to the [await]: the five resets, then the call.  Without
    [navigator.mediaDevices] the call itself throws, inside the [try]. *)
Definition startCamera (s : Config) : Config :=
  let s := s |> setMessage ""
             |> setRecognizedName ""
             |> setCapturedImage None
             |> setIsListeningForName false
             |> setFaceDetectedByAI false in
  if mediaDevices
  then s |> set_cameraRequests (S (cameraRequests (world s)))
  else startCamera_catch s.

(** After the [await], with the stream the promise resolved to. *)
Definition startCamera_resume (videoStream : nat) (s : Config) : Config :=
  if videoRef (host s)
  then s |> setStream (Some videoStream) |> setIsCameraActive true
  else s.

(** **** [stopCamera] (lines 129-136); [stream] is the one of the render
    that built the callback. *)
Definition stopCamera (render : Cells) (s : Config) : Config :=
  (match stream render with
   | Some sid => s |> stop_tracks sid |> setStream None
   | None => s
   end) |> setIsCameraActive false.

(** **** [captureImage] (lines 139-157); [frame] is what
    [canvas.toDataURL('image/png')] returns. *)
Definition captureImage (render : Cells) (frame : string) (s : Config) : Config :=
  if videoRef (host s) && canvasRef (host s)
  then s |> setCapturedImage (Some frame) |> stopCamera render
  else s |> setMessage "Camera or capture area not ready. Please try again.".

(** **** [handleProcessImage] (lines 160-189) *)

(** Up to the [await]. *)
Definition handleProcessImage (render : Cells) (s : Config) : Config :=
  match capturedImage render with
  | Some img =>
      if falsy_string img
      then s |> setMessage "No image captured to process."
      else s |> setIsProcessing true
             |> setMessage "Processing image with AI for face detection..."
             |> setFaceDetectedByAI false
             |> set_aiCalls (aiCalls (world s) ++ [img])
  | None => s |> setMessage "No image captured to process."
  end.

(** [aiResponse.status === 'success' && aiResponse.faceDetected] *)
Definition face_confirmed (aiResponse : Gemini.result) : bool :=
  strict_eq_string (Gemini.status aiResponse) "success"
  && Gemini.faceDetected aiResponse.

(** After the [await], with the outcome of [processImageWithAI(img)]. *)
Definition handleProcessImage_resume (img : string)
  (outcome : completion Gemini.result) (s : Config) : Config :=
  (match outcome with
   | Normal aiResponse =>
       if face_confirmed aiResponse
       then s |> setFaceDetectedByAI true
              |> setMessage "Face detected! Please click 'Say My Name' to provide your name."
              |> setRecognizedName ""
              |> set_classified (img :: classified (world s))
       else s |> setFaceDetectedByAI false
              |> setMessage
                   ("AI response: "
                    ++ ToString (or_else (Gemini.message aiResponse)
                                         (VStr "No face detected"))
                    ++ ". Please retake image.")
              |> setRecognizedName ""
   | Throw error =>
       s |> setMessage ("Error during AI processing: " ++ err_message error ++ ".")
         |> setFaceDetectedByAI false
   end) |> setIsProcessing false.

(** **** [logAttendance] (lines 27-62); [closure] holds the [userId] and
    [capturedImage] of the render that built the callback. *)

(** Up to the [await addDoc(...)], or to the end when no call is made. *)
Definition logAttendance (closure : LogClosure) (nameToLog : string)
  (s : Config) : Config :=
  if falsy_string nameToLog
  then s |> setMessage "No name provided for attendance logging."
  else
    match closed_capturedImage closure with
    | Some img =>
        if falsy_string img
        then s |> setMessage "No image captured to log attendance against. Please retake."
        else
          let s := s |> setMessage ("Logging attendance for " ++ nameToLog ++ "...")
                     |> setIsProcessing true in
          match closed_userId closure with
          | Some uid =>
              if db && negb (falsy_string uid)
              then s |> set_writes
                          (writes (world s)
                           ++ [{| personName := nameToLog; image := img;
                                  loggedByUserId := uid |}])
              else s |> setMessage "Attendance logging not enabled (Firebase not ready or user not authenticated)."
                     |> setIsProcessing false
          | None =>
              s |> setMessage "Attendance logging not enabled (Firebase not ready or user not authenticated)."
                |> setIsProcessing false
          end
    | None => s |> setMessage "No image captured to log attendance against. Please retake."
    end.

(** After the [await], when [addDoc] resolved: the store holds the
    document, stamped by the server. *)
Definition logAttendance_resolved (doc : AttendanceRecord) (s : Config) : Config :=
  s |> set_store (store (world s)
                  ++ [{| document := doc;
                         timestamp := List.length (store (world s)) |}])
    |> setMessage ("Attendance logged successfully for " ++ personName doc ++ "!")
    |> setRecognizedName ""
    |> setFaceDetectedByAI false
    |> setIsProcessing false.

(** After the [await], when [addDoc] rejected with [error]. *)
Definition logAttendance_rejected (error : JS.error) (s : Config) : Config :=
  s |> setMessage ("Error logging attendance: " ++ err_message error ++ ".")
    |> setIsProcessing false.

(** **** The recognizer's handlers (lines 77-96) *)

Definition onresult (r : Recognizer) (transcript : string) (s : Config) : Config :=
  s |> setRecognizedName transcript
    |> setMessage ("Name recognized: " ++ transcript ++ ". Logging attendance...")
    |> setIsListeningForName false
    |> logAttendance (rec_logAttendance r) transcript.

Definition onerror (code : string) (s : Config) : Config :=
  s |> setMessage ("Voice input error: " ++ code ++ ". Please try again.")
    |> setIsListeningForName false
    |> setRecognizedName "".

Definition onend (s : Config) : Config :=
  s |> setIsListeningForName false.

(** **** [startVoiceInput] (lines 192-201) *)
Definition startVoiceInput (s : Config) : Config :=
  match speechRecognition (host s) with
  | Some r =>
      s |> setIsListeningForName true
        |> setRecognizedName ""
        |> setMessage "Listening for your name... Please speak clearly."
        |> recognition_start r
  | None =>
      s |> setMessage "Speech recognition not available. Please ensure your browser supports it (e.g., Chrome)."
  end.

(** **** [retakeImage] (lines 204-212) *)
Definition retakeImage (render : Cells) (s : Config) : Config :=
  s |> setCapturedImage None
    |> setRecognizedName ""
    |> setIsListeningForName false
    |> setFaceDetectedByAI false
    |> stopCamera render
    |> startCamera
    |> setMessage "Ready for new attendance capture.".

(** **** The effects *)

(** The [logAttendance] a render builds. *)
Definition logAttendance_of (s : Config) : LogClosure :=
  {| closed_userId := userId (host s);
     closed_capturedImage := capturedImage (cells s) |}.

Definition LogClosure_eqb (a b : LogClosure) : bool :=
  option_eqb String.eqb (closed_userId a) (closed_userId b)
  && option_eqb String.eqb (closed_capturedImage a) (closed_capturedImage b).

(** Body of the first effect (lines 67-103): a new recognizer whose
    handlers call this render's [logAttendance], or the message. *)
Definition speech_effect (s : Config) : Config :=
  if webkitSpeechRecognition
  then s |> set_speechRecognition
              (Some {| rec_id := nextRecognizer (world s);
                       rec_logAttendance := logAttendance_of s |})
         |> set_nextRecognizer (S (nextRecognizer (world s)))
  else s |> setMessage "Speech recognition not supported in this browser. Please use Chrome or similar.".

(** Cleanup of the second effect (lines 215-224), with the [stream] of
    the render that registered it.  Its [speechRecognition.current.stop()]
    changes nothing this model tracks: the session still ends by its own
    events. *)
Definition cleanup (render : Cells) (s : Config) : Config :=
  match stream render with
  | Some sid => stop_tracks sid s
  | None => s
  end.

(** What React does once a handler or a continuation has run and the
    component has rendered again: the cleanup of the second effect when
    [stream] or [isListeningForName] changed, then the first effect when
    [logAttendance] changed (its dependencies are [db], [userId],
    [capturedImage] and [setMessage]). *)
Definition commit (old : Config) (s : Config) : Config :=
  let s :=
    if option_eqb Nat.eqb (stream (cells old)) (stream (cells s))
       && Bool.eqb (isListeningForName (cells old)) (isListeningForName (cells s))
    then s
    else cleanup (cells old) s in
  if LogClosure_eqb (logAttendance_of old) (logAttendance_of s)
  then s
  else speech_effect s.

(** The component before its first render's effects. *)
Definition initial : Config :=
  {| cells := {| stream := None; isCameraActive := false;
                 capturedImage := None; isProcessing := false;
                 faceDetectedByAI := false; isListeningForName := false;
                 recognizedName := ""; message := "" |};
     host := {| userId := None; videoRef := true; canvasRef := true;
                speechRecognition := None; mounted := true |};
     world := {| liveStreams := []; nextStream := 0; nextRecognizer := 0;
                 cameraRequests := 0; aiCalls := []; sessions := [];
                 writes := []; store := []; classified := [] |} |}.

(** The mounted component: the first effect has run once. *)
Definition mount : Config := speech_effect initial.

(** **** What is on screen (lines 244-306) *)

Definition shows_StartCamera (c : Cells) : bool :=
  negb (isCameraActive c) && negb (present (capturedImage c)).

Definition shows_Capture (c : Cells) : bool := isCameraActive c.

Definition shows_Process (c : Cells) : bool :=
  present (capturedImage c) && negb (faceDetectedByAI c)
  && negb (isProcessing c) && falsy_string (recognizedName c).

Definition shows_SayMyName (c : Cells) : bool :=
  present (capturedImage c) && faceDetectedByAI c
  && negb (isListeningForName c) && negb (isProcessing c)
  && falsy_string (recognizedName c).

Definition shows_Retake (c : Cells) : bool :=
  present (capturedImage c) || isProcessing c || isListeningForName c.

Definition Retake_enabled (c : Cells) : bool :=
  shows_Retake c && negb (isProcessing c || isListeningForName c).

(** **** Events *)

(** What can happen to the mounted component: a click on a button that is
    on screen and enabled, the settling of a call it has made, an event of
    a recognizer it has started, a change of the [userId] prop, its
    removal. *)
Inductive Event : Type :=
| ClickStartCamera
| ClickCapture (frame : string)
| ClickProcess
| ClickSayMyName
| ClickRetake
| MediaGranted
| MediaDenied
| ClassifierReplied (reply : completion Gemini.response)
| SpeechResult (transcript : string)
| SpeechError (code : string)
| SpeechEnd
| WriteStored
| WriteFailed (error : JS.error)
| AuthStateChanged (uid : option string)
| Unmount.

(** The handler or continuation an event runs; [None] when the event
    cannot happen in [s] (the button is not there, nothing is pending).
    Calls settle oldest first. *)
Definition handle (e : Event) (s : Config) : option Config :=
  let render := cells s in
  match e with
  | ClickStartCamera =>
      if shows_StartCamera render then Some (startCamera s) else None
  | ClickCapture frame =>
      if shows_Capture render then Some (captureImage render frame s) else None
  | ClickProcess =>
      if shows_Process render then Some (handleProcessImage render s) else None
  | ClickSayMyName =>
      if shows_SayMyName render then Some (startVoiceInput s) else None
  | ClickRetake =>
      if Retake_enabled render then Some (retakeImage render s) else None
  | MediaGranted =>
      match cameraRequests (world s) with
      | O => None
      | S _ => let (videoStream, s') := open_stream s in
               Some (startCamera_resume videoStream s')
      end
  | MediaDenied =>
      match cameraRequests (world s) with
      | O => None
      | S n => Some (s |> set_cameraRequests n |> startCamera_catch)
      end
  | ClassifierReplied reply =>
      match aiCalls (world s) with
      | [] => None
      | img :: rest =>
          Some (s |> set_aiCalls rest
                  |> handleProcessImage_resume img
                       (Gemini.processImageWithAI API_KEY (fun _ => reply) img))
      end
  | SpeechResult transcript =>
      match sessions (world s) with
      | (r, false) :: rest =>
          Some (s |> set_sessions ((r, true) :: rest) |> onresult r transcript)
      | _ => None
      end
  | SpeechError code =>
      match sessions (world s) with
      | (r, false) :: rest =>
          Some (s |> set_sessions ((r, true) :: rest) |> onerror code)
      | _ => None
      end
  | SpeechEnd =>
      match sessions (world s) with
      | _ :: rest => Some (s |> set_sessions rest |> onend)
      | [] => None
      end
  | WriteStored =>
      match writes (world s) with
      | doc :: rest => Some (s |> set_writes rest |> logAttendance_resolved doc)
      | [] => None
      end
  | WriteFailed error =>
      match writes (world s) with
      | _ :: rest => Some (s |> set_writes rest |> logAttendance_rejected error)
      | [] => None
      end
  | AuthStateChanged uid => Some (s |> set_userId uid)
  | Unmount => Some (s |> cleanup render |> detach)
  end.

(** What a continuation or a recognizer's handler leaves when it runs
    after the component was removed: React drops the updates of the
    component's own state, so its cells stay as [old] has them; what the
    code did outside the component stands - the calls it made, the store,
    and the message, which it hands to the [setMessage] it was given. *)
Definition after_removal (old s : Config) : Config :=
  {| cells := {| stream := stream (cells old);
                 isCameraActive := isCameraActive (cells old);
                 capturedImage := capturedImage (cells old);
                 isProcessing := isProcessing (cells old);
                 faceDetectedByAI := faceDetectedByAI (cells old);
                 isListeningForName := isListeningForName (cells old);
                 recognizedName := recognizedName (cells old);
                 message := message (cells s) |};
     host := host s;
     world := world s |}.

(** One event, then the render and its effects.  Once the component is
    removed there is no click, no change of its props and no render, but
    the calls it has made still settle and the recognizers it has
    started still fire: their continuations and handlers run as written
    (a stream granted then is stored nowhere, since [videoRef.current]
    is null; a name heard then is still logged). *)
Definition step (e : Event) (s : Config) : option Config :=
  if mounted (host s) then
    match e with
    | Unmount => handle e s
    | _ => option_map (commit s) (handle e s)
    end
  else
    match e with
    | MediaGranted | MediaDenied | ClassifierReplied _
    | SpeechResult _ | SpeechError _ | SpeechEnd
    | WriteStored | WriteFailed _ =>
        option_map (after_removal s) (handle e s)
    | _ => None
    end.

Fixpoint run (es : list Event) (s : Config) : option Config :=
  match es with
  | [] => Some s
  | e :: rest =>
      match step e s with
      | Some s' => run rest s'
      | None => None
      end
  end.

(** The configurations the mounted component can be in. *)
Definition reachable (s : Config) : Prop :=
  exists es, run es mount = Some s.

(** **** The states of the workflow

    The source numbers them in the comments on its buttons: each state is
    the condition under which its button is rendered. *)

(** State 1: no camera, no image. *)
Definition Idle (c : Cells) : bool := shows_StartCamera c.
(** State 2: camera active. *)
Definition CameraActive (c : Cells) : bool := shows_Capture c.
(** State 3: image captured, not classified (or classification failed). *)
Definition Captured (c : Cells) : bool := shows_Process c.
(** State 4: face detected, no name yet: voice input can be started. *)
Definition ReadyForName (c : Cells) : bool := shows_SayMyName c.

(** **** Patient runs

    Two buttons stay on screen, enabled, while the call they start is
    still in flight: Start Camera while [getUserMedia] is pending, and Say
    My Name once the recognizer has delivered an error and not yet ended.
    A run is patient when neither is clicked then. *)

Definition patient (e : Event) (s : Config) : bool :=
  match e with
  | ClickStartCamera => Nat.eqb (cameraRequests (world s)) 0
  | ClickSayMyName =>
      match sessions (world s) with
      | [] => true
      | _ :: _ => false
      end
  | _ => true
  end.

Fixpoint patient_run (es : list Event) (s : Config) : option Config :=
  match es with
  | [] => Some s
  | e :: rest =>
      if patient e s then
        match step e s with
        | Some s' => patient_run rest s'
        | None => None
        end
      else None
  end.

(** The events that can still reach a component that was removed. *)
Definition continuation (e : Event) : Prop :=
  match e with
  | MediaGranted | MediaDenied | ClassifierReplied _
  | SpeechResult _ | SpeechError _ | SpeechEnd
  | WriteStored | WriteFailed _ => True
  | _ => False
  end.

(** A classification call for [img] has come back positive. *)
Definition was_classified (s : Config) (img : string) : Prop :=
  In img (classified (world s)).

(** What patient runs keep true of the documents and of the recognizers
    started: every image they carry was classified positive. *)
Record orderly_data (s : Config) : Prop := {
  ord_writes :
    Forall (fun d => was_classified s (image d)) (writes (world s));
  ord_store :
    Forall (fun r => was_classified s (image (document r))) (store (world s));
  ord_sessions :
    forall r delivered img,
      In (r, delivered) (sessions (world s)) ->
      closed_capturedImage (rec_logAttendance r) = Some img ->
      falsy_string img = false ->
      was_classified s img
}.

(** What patient runs keep true of the mounted component: at most one
    call of each kind is in flight, and the cells agree with what is in
    flight. *)
Record orderly_ui (s : Config) : Prop := {
  one_request : cameraRequests (world s) <= 1;
  (** while the camera is being requested nothing is held or running *)
  requesting :
    cameraRequests (world s) <> 0 ->
    capturedImage (cells s) = None /\ isCameraActive (cells s) = false /\
    faceDetectedByAI (cells s) = false /\ aiCalls (world s) = [] /\
    recognizedName (cells s) = "" /\ isProcessing (cells s) = false;
  (** while the camera is on nothing is held or running *)
  filming :
    isCameraActive (cells s) = true ->
    capturedImage (cells s) = None /\ faceDetectedByAI (cells s) = false /\
    aiCalls (world s) = [] /\
    recognizedName (cells s) = "" /\ isProcessing (cells s) = false;
  (** [isProcessing] is set only while a call is in flight *)
  busy :
    isProcessing (cells s) = true ->
    aiCalls (world s) <> [] \/ writes (world s) <> [];
  (** the one classification in flight is for the image held *)
  classifying :
    aiCalls (world s) <> [] ->
    isProcessing (cells s) = true /\
    (exists img, aiCalls (world s) = [img] /\
                 capturedImage (cells s) = Some img /\
                 falsy_string img = false) /\
    writes (world s) = [] /\
    (forall r, ~ In (r, false) (sessions (world s)));
  writing :
    writes (world s) <> [] ->
    isProcessing (cells s) = true /\ List.length (writes (world s)) <= 1 /\
    present (capturedImage (cells s)) = true;
  (** a recognizer that has not delivered is listening for the image
      held, with the gate set *)
  hearing :
    forall r, In (r, false) (sessions (world s)) ->
      isListeningForName (cells s) = true /\
      faceDetectedByAI (cells s) = true /\
      present (capturedImage (cells s)) = true /\
      aiCalls (world s) = [] /\ writes (world s) = [] /\
      closed_capturedImage (rec_logAttendance r) = capturedImage (cells s);
  one_session : List.length (sessions (world s)) <= 1;
  (** the gate is set only for an image classified positive *)
  gate_image :
    faceDetectedByAI (cells s) = true ->
    exists img, capturedImage (cells s) = Some img /\ was_classified s img
}.

(** The recognizer in [speechRecognition.current] calls the
    [logAttendance] of the current render. *)
Definition recognizer_current (s : Config) : Prop :=
  forall r, speechRecognition (host s) = Some r ->
    webkitSpeechRecognition = true /\
    rec_logAttendance r = logAttendance_of s.

(** What patient runs keep true of the media streams: at most one is
    live, none while the camera is being requested, and a live one is the
    one held in [stream]. *)
Record streams_orderly (s : Config) : Prop := {
  few_streams : List.length (liveStreams (world s)) <= 1;
  few_requests : cameraRequests (world s) <= 1;
  none_while_requesting :
    cameraRequests (world s) <> 0 -> liveStreams (world s) = [];
  held :
    mounted (host s) = true ->
    videoRef (host s) = true /\ canvasRef (host s) = true /\
    (forall sid, In sid (liveStreams (world s)) -> stream (cells s) = Some sid)
    /\ (isCameraActive (cells s) = false -> stream (cells s) = None)
}.

Definition orderly (s : Config) : Prop :=
  orderly_data s /\
  (mounted (host s) = true -> orderly_ui s /\ recognizer_current s).

(** What patient runs keep true of a recognizer that has not delivered,
    also once the component is removed: the gate is set, its callback
    closed over the image held, and the gate is set only for an image
    classified positive. *)
Record heard (s : Config) : Prop := {
  heard_sessions :
    forall r, In (r, false) (sessions (world s)) ->
      faceDetectedByAI (cells s) = true /\
      closed_capturedImage (rec_logAttendance r) = capturedImage (cells s);
  heard_gate :
    faceDetectedByAI (cells s) = true ->
    exists img, capturedImage (cells s) = Some img /\ was_classified s img
}.

End Component.

(** **** The documents *)

(** A document with all its fields filled in. *)
Definition complete (d : AttendanceRecord) : Prop :=
  personName d <> "" /\ image d <> "" /\ loggedByUserId d <> "".

(** Every document handed to [addDoc], stored or still in flight, is
    complete. *)
Definition documents_complete (s : Config) : Prop :=
  Forall complete (writes (world s)) /\
  Forall (fun r => complete (document r)) (store (world s)).

End WebcamCapture.

(* ================================================================== *)
(** ** Sample data                                                     *)
(* ================================================================== *)

(** Concrete inputs for the runs below: an engine that agrees with a real
    one on every value those runs meet (its [JSON_parse] knows the two
    replies the prompt asks the model for and rejects any other text), and
    the responses of a classifier that answers as asked. *)
Module Sample.
Import JS Gemini WebcamCapture.

Definition quote : string := String (ascii_of_nat 34) EmptyString.

(** The text of a reply object with the two fields, as JSON. *)
Definition reply_json (st msg : string) : string :=
  "{" ++ quote ++ "status" ++ quote ++ ": " ++ quote ++ st ++ quote ++ ", "
  ++ quote ++ "message" ++ quote ++ ": " ++ quote ++ msg ++ quote ++ "}".

Definition reply_object (st msg : string) : value :=
  VObj [("status", VStr st); ("message", VStr msg)].

Definition positive_text : string := reply_json "success" "Face detected".
Definition negative_text : string := reply_json "failure" "No face detected".

Definition engine : Engine := {|
  JSON_parse := fun text =>
    if text =? positive_text
    then Normal (reply_object "success" "Face detected")
    else if text =? negative_text
    then Normal (reply_object "failure" "No face detected")
    else Throw (Error "Unexpected token in JSON");
  JSON_stringify := fun _ => "{}";
  NumberToString := fun _ => "NaN";
  ObjectToString := fun _ => "[object Object]";
  StringToNumber := fun _ => S754_nan;
  ObjectToNumber := fun _ => S754_nan;
  TypeError_message := fun _ p => "Cannot read properties of undefined (reading '" ++ p ++ "')"
|}.

(** The body of a [generateContent] response whose first candidate has
    one text part. *)
Definition envelope (text : string) : value :=
  VObj [("candidates",
         VArr [VObj [("content",
                      VObj [("parts", VArr [VObj [("text", VStr text)]])])]])].

Definition ok_response (text : string) : completion response :=
  Normal {| resp_ok := true; resp_status := 200; resp_statusText := "OK";
            resp_json := Normal (envelope text) |}.

Definition face_found : completion response := ok_response positive_text.
Definition no_face : completion response := ok_response negative_text.

Definition key : string := "test-key".
Definition frame1 : string := "data:image/png;base64,Zmlyc3Q=".
Definition frame2 : string := "data:image/png;base64,c2Vjb25k".

(** The component in a browser with speech recognition and media
    devices, with a store and a key configured. *)
Notation step' := (step (engine := engine) key true true true).
Notation run' := (run (engine := engine) key true true true).
Notation patient_run' :=
  (patient_run (engine := engine) key true true true).
Notation mount' := (mount true).

(** The configuration a run from the mounted component ends in. *)
Definition after (es : list Event) : Config :=
  match run' es mount' with
  | Some s => s
  | None => mount'
  end.

(** The user is signed in, the camera is on. *)
Definition to_camera : list Event :=
  [AuthStateChanged (Some "user-1"); ClickStartCamera; MediaGranted].
(** ... a frame is captured ... *)
Definition to_captured : list Event := to_camera ++ [ClickCapture frame1].
(** ... a face is found in it ... *)
Definition to_ready : list Event :=
  to_captured ++ [ClickProcess; ClassifierReplied face_found].
(** ... and the name is heard: the write is in flight. *)
Definition to_logging : list Event :=
  to_ready ++ [ClickSayMyName; SpeechResult "Alice"].

(** ... up to the click on Say My Name: the recognizer is listening. *)
Definition to_listening : list Event := to_ready ++ [ClickSayMyName].

(** Start Camera clicked twice before the browser answers. *)
Definition two_requests : list Event :=
  [AuthStateChanged (Some "user-1"); ClickStartCamera; ClickStartCamera].

(** The first of the two requests is granted, the second denied. *)
Definition grant_then_denial : list Event :=
  two_requests ++ [MediaGranted; MediaDenied].

(** Start Camera clicked once; the browser has not answered. *)
Definition to_requesting : list Event :=
  [AuthStateChanged (Some "user-1"); ClickStartCamera].

(** The first request is granted and a frame captured; only then is the
    second granted, so the camera is on again beside the captured image.
    That image is classified, a second frame is captured over it, and the
    name is given. *)
Definition second_grant_after_capture : list Event :=
  two_requests
  ++ [MediaGranted; ClickCapture frame1; MediaGranted;
      ClickProcess; ClassifierReplied face_found].
Definition capture_over_classified_image : list Event :=
  second_grant_after_capture
  ++ [ClickCapture frame2; ClickSayMyName; SpeechResult "Bob"].

End Sample.

(* ================================================================== *)
(** ** Runs of the capture workflow: vocabulary                      *)
(* ================================================================== *)

Module WorkflowRuns.
Import JS WebcamCapture.

(** The user ids the authentication listener has delivered in a run. *)
Fixpoint signed_in (es : list Event) : list string :=
  match es with
  | [] => []
  | AuthStateChanged (Some uid) :: rest => uid :: signed_in rest
  | _ :: rest => signed_in rest
  end.

(** The frames [canvas.toDataURL] has produced in a run. *)
Fixpoint captured_frames (es : list Event) : list string :=
  match es with
  | [] => []
  | ClickCapture frame :: rest => frame :: captured_frames rest
  | _ :: rest => captured_frames rest
  end.

(** A [logAttendance] callback whose user id is one of [U] and whose
    image is one of [F]. *)
Definition closure_from (U F : string -> Prop) (c : LogClosure) : Prop :=
  (forall uid, closed_userId c = Some uid -> U uid) /\
  (forall img, closed_capturedImage c = Some img -> F img).

Definition document_from (U F : string -> Prop) (d : AttendanceRecord) : Prop :=
  U (loggedByUserId d) /\ F (image d).

(** Every user id and every image the component holds, in a cell, in a
    callback or in a document, is one of [U], one of [F]. *)
Record sourced (U F : string -> Prop) (s : Config) : Prop := {
  src_userId : forall uid, userId (host s) = Some uid -> U uid;
  src_image : forall img, capturedImage (cells s) = Some img -> F img;
  src_recognizer :
    forall r, speechRecognition (host s) = Some r ->
      closure_from U F (rec_logAttendance r);
  src_sessions :
    forall r delivered, In (r, delivered) (sessions (world s)) ->
      closure_from U F (rec_logAttendance r);
  src_aiCalls : Forall F (aiCalls (world s));
  src_classified : Forall F (classified (world s));
  src_writes : Forall (document_from U F) (writes (world s));
  src_store :
    Forall (fun r => document_from U F (document r)) (store (world s))
}.

(** Where there is no speech recognition nothing listens and nothing is
    written. *)
Record silent (s : Config) : Prop := {
  no_recognizer : speechRecognition (host s) = None;
  no_session : sessions (world s) = [];
  not_listening : isListeningForName (cells s) = false;
  no_write : writes (world s) = [];
  empty_store : store (world s) = []
}.

(** The camera requests the browser grants in a run. *)
Fixpoint grants (es : list Event) : nat :=
  match es with
  | [] => 0
  | MediaGranted :: rest => S (grants rest)
  | _ :: rest => grants rest
  end.

(** A reply of the classifier that confirms a face: an [ok] response
    whose text parses to an object with [status] ['success'] and
    [message] ['Face detected']. *)
Definition confirms_face {engine : Engine}
  (reply : completion Gemini.response) : Prop :=
  exists r text parsed,
    reply = Normal r /\ Gemini.resp_ok r = true /\
    Gemini.reply_text r = Some text /\
    JSON_parse (ToString text) = Normal parsed /\
    get parsed "status" = Normal (VStr "success") /\
    get parsed "message" = Normal (VStr "Face detected").

(** One attendance, from the sign-in to the stored record. *)
Definition attendance (uid frame : string)
  (reply : completion Gemini.response) (name : string) : list Event :=
  [AuthStateChanged (Some uid); ClickStartCamera; MediaGranted;
   ClickCapture frame; ClickProcess; ClassifierReplied reply;
   ClickSayMyName; SpeechResult name; WriteStored].

End WorkflowRuns.

(* ================================================================== *)
(** ** src/api/geminiApi.jsx: the key in the console, the two text
       generators                                                       *)
(* ================================================================== *)

Module GeminiText.
Import JS Gemini.
Local Open Scope js_scope.

(** [s.substring(start, end)] for integer arguments: each is clamped to
    [0 .. s.length], and the two are swapped when [start > end]. *)
Definition substring (s : string) (start end_ : Z) : string :=
  let len := Z.of_nat (String.length s) in
  let intStart := Z.min (Z.max start 0) len in
  let intEnd := Z.min (Z.max end_ 0) len in
  let from := Z.min intStart intEnd in
  let to := Z.max intStart intEnd in
  String.substring (Z.to_nat from) (Z.to_nat (to - from)) s.

(** [s.substring(start)]: up to the end of the string. *)
Definition substring_from (s : string) (start : Z) : string :=
  substring s start (Z.of_nat (String.length s)).

(** Line 23: what the module prints after "Gemini API Key being used:"
    when it is loaded. *)
Definition logged_API_KEY (API_KEY : string) : string :=
  if negb (falsy_string API_KEY)
  then substring API_KEY 0 5 ++ "..."
       ++ substring_from API_KEY (Z.of_nat (String.length API_KEY) - 5)
  else "Not set".

(** The line feed of the template literals. *)
Definition LF : string := String (ascii_of_nat 10) EmptyString.

(** [list.join(sep)] *)
Fixpoint join (sep : string) (items : list string) : string :=
  match items with
  | [] => ""
  | [x] => x
  | x :: rest => x ++ sep ++ join sep rest
  end.

(** The request the generators hand to [fetch]: the endpoint, and the
    prompt that is the one text part of the payload. *)
Record text_request : Type := {
  treq_url : string;
  treq_prompt : string
}.

Section WithEngine.
Context {engine : Engine}.

(** [import.meta.env.VITE_GEMINI_API_KEY || ""] *)
Variable API_KEY : string.

(** What [log.timestamp.toDate()] returns, and the two renderings the
    function asks of it; they depend on the locale of the browser. *)
Variable Date : Type.
Variable toLocaleDateString : Date -> string.
Variable toLocaleTimeString : Date -> string.

(** An attendance log as the function reads it: [personName], and
    [timestamp], here [Some d] when [log.timestamp] is truthy and has a
    [toDate] method, which returns [d]. *)
Record AttendanceLog : Type := {
  log_personName : value;
  log_timestamp : option Date
}.

(** Lines 133-138, the callback of [map]. *)
Definition format_log (log : AttendanceLog) : string :=
  let date := match log_timestamp log with
              | Some d => toLocaleDateString d
              | None => "Unknown Date"
              end in
  let time := match log_timestamp log with
              | Some d => toLocaleTimeString d
              | None => "Unknown Time"
              end in
  "- " ++ ToString (log_personName log) ++ " on " ++ date ++ " at " ++ time.

Definition formattedLogs (attendanceLogs : list AttendanceLog) : string :=
  join LF (map format_log attendanceLogs).

(** Line 141 *)
Definition summary_prompt (attendanceLogs : list AttendanceLog) : string :=
  "Given the following attendance records:" ++ LF
  ++ formattedLogs attendanceLogs ++ LF ++ LF
  ++ "Provide a concise summary of who attended, categorized by date, and mention the total count for each day. If multiple people attended on a day, list their names.".

(** Line 194 *)
Definition welcome_prompt (personName : value) : string :=
  "Generate a friendly, brief welcome message for " ++ ToString personName
  ++ " who has just logged into an attendance system for an event/session. Make it sound welcoming and encouraging.".

(** Lines 149-150 and 202-203: the generators build their own URL, with
    an empty key. *)
Definition apiKey : string := "".
Definition apiUrl : string :=
  "https://generativelanguage.googleapis.com/v1beta/models/gemini-2.0-flash:generateContent?key="
  ++ apiKey.

(** Lines 159-163 and 212-216: the error thrown for a response that is
    not [ok]. *)
Definition throw_http_error (r : response) : completion value :=
  errorData <- resp_json r ;;
  err <- get errorData "error" ;;
  detail <- get_optional err "message" ;;
  let details := or_else detail (VStr (JSON_stringify errorData)) in
  Throw (Error ("Gemini API Error: " ++ string_of_nat (resp_status r) ++ " "
                ++ resp_statusText r ++ ". Details: " ++ ToString details)).

(** [generateAttendanceSummary(attendanceLogs)] (lines 125-179), with the
    network as the function [fetch]; [Throw] is a rejected promise. *)
Definition generateAttendanceSummary
  (fetch : text_request -> completion response)
  (attendanceLogs : list AttendanceLog) : completion value :=
  if falsy_string API_KEY then
    Throw (Error "Gemini API Key is not configured for summary generation.")
  else
    let prompt := summary_prompt attendanceLogs in
    try_catch
      (response <- fetch {| treq_url := apiUrl; treq_prompt := prompt |} ;;
       if negb (resp_ok response) then throw_http_error response else
       result <- resp_json response ;;
       valid <- structure_valid result ;;
       if valid then candidate_text result
       else Throw (Error "Failed to generate summary: Invalid AI response structure."))
      (fun error => Throw error).

(** [generateWelcomeMessage(personName)] (lines 186-232). *)
Definition generateWelcomeMessage
  (fetch : text_request -> completion response)
  (personName : value) : completion value :=
  if falsy_string API_KEY then
    Throw (Error "Gemini API Key is not configured for welcome message generation.")
  else
    let prompt := welcome_prompt personName in
    try_catch
      (response <- fetch {| treq_url := apiUrl; treq_prompt := prompt |} ;;
       if negb (resp_ok response) then throw_http_error response else
       result <- resp_json response ;;
       valid <- structure_valid result ;;
       if valid then candidate_text result
       else Throw (Error "Failed to generate welcome message: Invalid AI response structure."))
      (fun error => Throw error).

(** *** Vocabulary of the properties *)

(** The endpoint, with no key after [key=]. *)
Definition keyless_url : string :=
  "https://generativelanguage.googleapis.com/v1beta/models/gemini-2.0-flash:generateContent?key=".

(** How a call of a generator ends, given the request it makes: with
    the text of an [ok] response, or rejected. *)
Definition generated (req : text_request)
  (fetch : text_request -> completion response) (missing_key : string)
  (outcome : completion value) : Prop :=
  match outcome with
  | Normal text =>
      API_KEY <> "" /\
      exists r, fetch req = Normal r /\ resp_ok r = true /\
                reply_text r = Some text
  | Throw e =>
      (API_KEY = "" /\ e = Error missing_key) \/
      (API_KEY <> "" /\
       (fetch req = Throw e \/
        exists r, fetch req = Normal r /\
                  (resp_ok r = false \/ reply_text r = None)))
  end.

End WithEngine.

(** No comma in [s]. *)
Fixpoint no_comma (s : string) : bool :=
  match s with
  | EmptyString => true
  | String c rest => negb (Ascii.eqb c ","%char) && no_comma rest
  end.

End GeminiText.

(* ================================================================== *)
(** ** src/firebase/firebaseConfig.jsx                                 *)
(* ================================================================== *)

Module FirebaseConfig.
Import JS.
Local Open Scope js_scope.

(** The globals of the Canvas environment; one that is not defined
    reads as [undefined] under the [typeof] test of lines 320-322. *)
Record Globals : Type := {
  __app_id : value;
  __firebase_config : value;
  __initial_auth_token : value
}.

(** [import.meta.env]: each variable is a string, or [undefined]. *)
Record Env : Type := {
  VITE_FIREBASE_CONFIG : value;
  VITE_FIREBASE_APP_ID : value;
  VITE_INITIAL_AUTH_TOKEN : value
}.

(** A sign-in call of the SDK. *)
Inductive SignInCall : Type :=
| signInWithCustomToken (token : value)
| signInAnonymously.

Section WithSdk.
Context {engine : Engine}.

(** The Firebase SDK: its handles, and the three calls of lines 361-363,
    each of which may throw. *)
Variables FirebaseApp SdkAuth Firestore : Type.
Variable initializeApp : value -> completion FirebaseApp.
Variable getAuth : FirebaseApp -> completion SdkAuth.
Variable getFirestore : FirebaseApp -> completion Firestore.
(** the [TypeError] of [Object.keys(null)] *)
Variable Object_keys_TypeError : error.

(** The module's [auth]: the SDK's instance, or the dummy of lines 370
    and 377. *)
Inductive Auth : Type :=
| RealAuth (a : SdkAuth)
| DummyAuth.

(** The module's [db]: the SDK's instance, or [{}]. *)
Inductive Db : Type :=
| RealDb (d : Firestore)
| EmptyObject.

(** [Object.keys(v)] *)
Definition Object_keys (v : value) : completion (list string) :=
  match v with
  | VUndefined | VNull => Throw Object_keys_TypeError
  | VObj fields => Normal (map fst fields)
  | VArr items => Normal (map string_of_nat (seq 0 (List.length items)))
  | VStr s => Normal (map string_of_nat (seq 0 (String.length s)))
  | VBool _ | VNum _ => Normal []
  end.

(** What the module holds once loaded. *)
Record Loaded : Type := {
  appId : value;
  firebaseConfig : value;
  initialAuthToken : value;
  auth : Auth;
  db : Db
}.

(** Line 321: [JSON.parse] is applied outside any [try]. *)
Definition canvasFirebaseConfig (g : Globals) : completion value :=
  match __firebase_config g with
  | VUndefined => Normal VUndefined
  | text => JSON_parse (ToString text)
  end.

(** Lines 325-337: a text that does not parse leaves [{}]. *)
Definition localFirebaseConfig (env : Env) : completion value :=
  try_catch
    (if truthy (VITE_FIREBASE_CONFIG env)
     then JSON_parse (ToString (VITE_FIREBASE_CONFIG env))
     else Normal (VObj []))
    (fun e => Normal (VObj [])).

(** Lines 320-379: loading the module.  [Throw] is an exception that
    escapes the module body. *)
Definition load (g : Globals) (env : Env) : completion Loaded :=
  let canvasAppId := __app_id g in
  canvasFirebaseConfig <- canvasFirebaseConfig g ;;
  let canvasInitialAuthToken := __initial_auth_token g in
  localFirebaseConfig <- localFirebaseConfig env ;;
  let appId := or_else (or_else canvasAppId (VITE_FIREBASE_APP_ID env))
                       (VStr "default-app-id") in
  let firebaseConfig := or_else canvasFirebaseConfig localFirebaseConfig in
  let initialAuthToken :=
    or_else (or_else canvasInitialAuthToken (VITE_INITIAL_AUTH_TOKEN env))
            VNull in
  let dummy := {| appId := appId; firebaseConfig := firebaseConfig;
                  initialAuthToken := initialAuthToken;
                  auth := DummyAuth; db := EmptyObject |} in
  keys <- Object_keys firebaseConfig ;;
  if (0 <? List.length keys)%nat then
    apiKey <- get firebaseConfig "apiKey" ;;
    if truthy apiKey then
      try_catch
        (app <- initializeApp firebaseConfig ;;
         a <- getAuth app ;;
         d <- getFirestore app ;;
         Normal {| appId := appId; firebaseConfig := firebaseConfig;
                   initialAuthToken := initialAuthToken;
                   auth := RealAuth a; db := RealDb d |})
        (fun initError => Normal dummy)
    else Normal dummy
  else Normal dummy.

(** What a call of [initializeFirebase] has done when it returns: the
    [auth] it returns ([None] is [null]), whether it has called
    [setIsAuthReady(true)], and whether it has handed its listener to
    [onAuthStateChanged]. *)
Record Initialized : Type := {
  returned_auth : option Auth;
  ready_set : bool;
  listening : bool
}.

(** [initializeFirebase(setUserId, setMessage, setIsAuthReady)] (lines
    389-421), up to its [return].  [auth] and [db] are objects on every
    path of the load, so [!auth] and [!db] are false. *)
Definition initializeFirebase (m : Loaded) : completion Initialized :=
  keys <- Object_keys (firebaseConfig m) ;;
  apiKey <- (if (List.length keys =? 0)%nat then Normal VUndefined
             else get (firebaseConfig m) "apiKey") ;;
  if (List.length keys =? 0)%nat || negb (truthy apiKey) then
    Normal {| returned_auth := None; ready_set := true; listening := false |}
  else
    Normal {| returned_auth := Some (auth m); ready_set := false;
              listening := true |}.

(** The sign-in the module makes (lines 407-411 and 441-445): by custom
    token when there is one, anonymously otherwise. *)
Definition sign_in (m : Loaded) : SignInCall :=
  if truthy (initialAuthToken m)
  then signInWithCustomToken (initialAuthToken m)
  else signInAnonymously.

(** [signInUser(authInstance)] (lines 427-450), up to its [await]: the
    call it makes, if any.  [currentUser] tells whether
    [authInstance.currentUser] is set; the dummy's is [null]. *)
Definition signInUser (m : Loaded) (authInstance : option Auth)
  (currentUser : bool) : option SignInCall :=
  match authInstance with
  | None => None
  | Some a =>
      let signed := match a with
                    | RealAuth _ => currentUser
                    | DummyAuth => false
                    end in
      if signed then None else Some (sign_in m)
  end.

(** *** Vocabulary of the properties *)

(** The configuration the load selects has no key, or no truthy
    [apiKey]. *)
Definition unusable (config : value) : Prop :=
  exists keys, Object_keys config = Normal keys /\
    (keys = [] \/
     exists apiKey, get config "apiKey" = Normal apiKey /\
                    truthy apiKey = false).

End WithSdk.

Arguments RealAuth {SdkAuth} a.
Arguments DummyAuth {SdkAuth}.
Arguments RealDb {Firestore} d.
Arguments EmptyObject {Firestore}.
Arguments appId {SdkAuth Firestore} l.
Arguments firebaseConfig {SdkAuth Firestore} l.
Arguments initialAuthToken {SdkAuth Firestore} l.
Arguments auth {SdkAuth Firestore} l.
Arguments db {SdkAuth Firestore} l.
Arguments returned_auth {SdkAuth} i.
Arguments ready_set {SdkAuth} i.
Arguments listening {SdkAuth} i.
Arguments initializeFirebase {engine SdkAuth Firestore} Object_keys_TypeError m.
Arguments sign_in {SdkAuth Firestore} m.
Arguments signInUser {SdkAuth Firestore} m authInstance currentUser.

End FirebaseConfig.

(* ================================================================== *)
(** ** src/App.jsx                                                     *)
(* ================================================================== *)

Module App.
Import JS FirebaseConfig.

(** The [useState] cells of [App]. *)
Record AppCells : Type := {
  userId : option string;
  isAuthReady : bool;
  message : string
}.

(** Who made a sign-in call: the listener of [initializeFirebase], or
    [setupAuth]. *)
Inductive Origin : Type := ByListener | BySetupAuth.

Record State : Type := {
  app_cells : AppCells;
  (** the listener is registered with [onAuthStateChanged] *)
  subscribed : bool;
  (** sign-in calls not yet settled *)
  signIns : list (Origin * SignInCall);
  (** milliseconds left on the timeout of the second effect, when one is
      pending *)
  timer : option nat
}.

Definition with_app_cells (f : AppCells -> AppCells) (st : State) : State :=
  {| app_cells := f (app_cells st); subscribed := subscribed st;
     signIns := signIns st; timer := timer st |}.

Definition setUserId (v : option string) : State -> State :=
  with_app_cells (fun c => {| userId := v; isAuthReady := isAuthReady c;
                              message := message c |}).
Definition setIsAuthReady (v : bool) : State -> State :=
  with_app_cells (fun c => {| userId := userId c; isAuthReady := v;
                              message := message c |}).

Definition set_signIns (v : list (Origin * SignInCall)) (st : State)
  : State :=
  {| app_cells := app_cells st; subscribed := subscribed st; signIns := v;
     timer := timer st |}.
Definition set_timer (v : option nat) (st : State) : State :=
  {| app_cells := app_cells st; subscribed := subscribed st;
     signIns := signIns st; timer := v |}.

Local Notation "s |> f" := (f s)
  (at level 71, left associativity, only parsing).

(** [setMessage(v)] and the render it causes.  A value equal to the
    current one causes none.  Otherwise the second effect (lines 47-54)
    runs again: its cleanup clears the pending timeout, and a message
    that is not empty starts one of 5000 ms. *)
Definition setMessage_rendered (v : string) (st : State) : State :=
  if v =? message (app_cells st) then st
  else
    st |> with_app_cells (fun c => {| userId := userId c;
                                      isAuthReady := isAuthReady c;
                                      message := v |})
       |> set_timer (if falsy_string v then None else Some 5000).

(** What the page shows after "Logged in as:" (line 63). *)
Definition shown_user (c : AppCells) : string :=
  match userId c with
  | Some uid => if falsy_string uid then "Authenticating..." else uid
  | None => "Authenticating..."
  end.

Section Shell.
Context {engine : Engine}.
Variables SdkAuth Firestore : Type.
Variable Object_keys_TypeError : error.

Local Notation Loaded := (Loaded SdkAuth Firestore).

(** The first effect (lines 32-45), up to the [await] in [setupAuth]:
    [initializeFirebase], then [signInUser] when it returned an [auth]
    ([userId] is the [null] of the first render).  [currentUser] tells
    whether the SDK has a user at that moment. *)
Definition app_mount (m : Loaded) (currentUser : bool) : completion State :=
  match initializeFirebase Object_keys_TypeError m with
  | Normal init =>
      let st := {| app_cells := {| userId := None;
                                   isAuthReady := ready_set init;
                                   message := "" |};
                   subscribed := listening init;
                   signIns := [];
                   timer := None |} in
      Normal
        (match returned_auth init with
         | Some a =>
             match signInUser m (Some a) currentUser with
             | Some call => st |> set_signIns [(BySetupAuth, call)]
             | None => st
             end
         | None => st
         end)
  | Throw e => Throw e
  end.

(** What can happen to the mounted [App]: the SDK calls the listener
    with a user (its [uid]) or with [null]; a sign-in call settles; a
    child calls [setMessage]; time passes. *)
Inductive AppEvent : Type :=
| AuthStateReported (user : option string)
| SignInResolved
| SignInRejected (e : error)
| ChildMessage (m : string)
| Elapse (ms : nat).

(** The listener (lines 399-418), up to its [await]. *)
Definition listener (m : Loaded) (user : option string) (st : State)
  : State :=
  match user with
  | Some uid => st |> setUserId (Some uid) |> setIsAuthReady true
  | None => st |> set_signIns (signIns st ++ [(ByListener, sign_in m)])
  end.

(** After the [await] of a sign-in call: the listener reports a
    rejection and marks the authentication ready either way;
    [setupAuth] only writes a rejection to the console. *)
Definition settled (origin : Origin) (outcome : completion unit)
  (st : State) : State :=
  match origin with
  | ByListener =>
      (match outcome with
       | Normal _ => st
       | Throw _ =>
           st |> setMessage_rendered "Failed to authenticate. Please try again."
       end) |> setIsAuthReady true
  | BySetupAuth => st
  end.

(** The callback of [setTimeout] (lines 49-51); the timeout is no longer
    pending when it runs. *)
Definition timeout (st : State) : State :=
  st |> set_timer None |> setMessage_rendered "".

(** The listener runs only while it is registered; calls settle oldest
    first; a timeout fires as soon as its delay has passed. *)
Definition app_step (m : Loaded) (e : AppEvent) (st : State)
  : option State :=
  match e with
  | AuthStateReported user =>
      if subscribed st then Some (listener m user st) else None
  | SignInResolved =>
      match signIns st with
      | (origin, _) :: rest =>
          Some (st |> set_signIns rest |> settled origin (Normal tt))
      | [] => None
      end
  | SignInRejected err =>
      match signIns st with
      | (origin, _) :: rest =>
          Some (st |> set_signIns rest |> settled origin (Throw err))
      | [] => None
      end
  | ChildMessage v => Some (st |> setMessage_rendered v)
  | Elapse ms =>
      match timer st with
      | Some remaining =>
          if (remaining <=? ms)%nat then Some (timeout st)
          else Some (st |> set_timer (Some (remaining - ms)))
      | None => Some st
      end
  end.

Fixpoint app_run (m : Loaded) (es : list AppEvent) (st : State)
  : option State :=
  match es with
  | [] => Some st
  | e :: rest =>
      match app_step m e st with
      | Some st' => app_run m rest st'
      | None => None
      end
  end.

(** The user of the last report of a signed-in user, [start] when there
    is none. *)
Fixpoint last_user (es : list AppEvent) (start : option string)
  : option string :=
  match es with
  | [] => start
  | AuthStateReported (Some uid) :: rest => last_user rest (Some uid)
  | _ :: rest => last_user rest start
  end.

(** A timeout is pending exactly while a message is shown, with at most
    5000 ms to go. *)
Definition timed (st : State) : Prop :=
  match timer st with
  | Some remaining =>
      message (app_cells st) <> "" /\ 0 < remaining <= 5000
  | None => message (app_cells st) = ""
  end.

End Shell.
End App.

(* ================================================================== *)
(** ** More sample data                                                *)
(* ================================================================== *)

(** Concrete inputs for the properties of the runs, of the Firebase
    module and of [App]: a browser without speech recognition, a Firebase
    configuration and an SDK that accepts it. *)
Module MoreSamples.
Import JS WebcamCapture.

(** The configuration a run ends in, in a browser that has no
    [webkitSpeechRecognition]. *)
Definition after_without_speech (es : list Event) : Config :=
  match run (engine := Sample.engine) Sample.key true false true es
          (mount false) with
  | Some s => s
  | None => mount false
  end.

(** Up to the click on Say My Name. *)
Definition to_say_my_name : list Event :=
  [AuthStateChanged (Some "user-1"); ClickStartCamera; MediaGranted;
   ClickCapture Sample.frame1; ClickProcess;
   ClassifierReplied Sample.face_found; ClickSayMyName].

(** The classification of the captured frame is in flight. *)
Definition to_classifying : list Event :=
  (Sample.to_captured ++ [ClickProcess])%list.

(** The component is removed while its camera request is pending. *)
Definition removed_while_requesting : list Event :=
  [ClickStartCamera; Unmount].

(** The recognizer that is listening at the end of
    [Sample.to_listening]. *)
Definition listening_recognizer : Recognizer :=
  {| rec_id := 2;
     rec_logAttendance :=
       {| closed_userId := Some "user-1";
          closed_capturedImage := Some Sample.frame1 |} |}.

(** The text of a Firebase configuration, and the object it parses to. *)
Definition config_text : string :=
  "{" ++ Sample.quote ++ "apiKey" ++ Sample.quote ++ ": "
  ++ Sample.quote ++ "firebase-key" ++ Sample.quote ++ "}".

Definition config_object : value := VObj [("apiKey", VStr "firebase-key")].

(** An engine that agrees with a real one on the texts met here: its
    [JSON_parse] knows the configuration and rejects any other text. *)
Definition config_engine : Engine := {|
  JSON_parse := fun text =>
    if text =? config_text then Normal config_object
    else Throw (Error "Unexpected token in JSON");
  JSON_stringify := fun _ => "{}";
  NumberToString := fun _ => "NaN";
  ObjectToString := fun _ => "[object Object]";
  StringToNumber := fun _ => S754_nan;
  ObjectToNumber := fun _ => S754_nan;
  TypeError_message := fun _ p =>
    "Cannot read properties of undefined (reading '" ++ p ++ "')"
|}.

(** The text of the empty object. *)
Definition empty_object_text : string := "{}".

(** An engine that agrees with a real one on the replies of
    [Sample.engine] and on the text of the empty object. *)
Definition reply_engine : Engine := {|
  JSON_parse := fun text =>
    if text =? empty_object_text then Normal (VObj [])
    else JSON_parse (Engine := Sample.engine) text;
  JSON_stringify := fun _ => "{}";
  NumberToString := fun _ => "NaN";
  ObjectToString := fun _ => "[object Object]";
  StringToNumber := fun _ => S754_nan;
  ObjectToNumber := fun _ => S754_nan;
  TypeError_message := fun _ p =>
    "Cannot read properties of undefined (reading '" ++ p ++ "')"
|}.

(** Outside Canvas: none of its globals is defined. *)
Definition no_globals : FirebaseConfig.Globals :=
  {| FirebaseConfig.__app_id := VUndefined;
     FirebaseConfig.__firebase_config := VUndefined;
     FirebaseConfig.__initial_auth_token := VUndefined |}.

(** A [.env] with the configuration, and one with nothing. *)
Definition configured : FirebaseConfig.Env :=
  {| FirebaseConfig.VITE_FIREBASE_CONFIG := VStr config_text;
     FirebaseConfig.VITE_FIREBASE_APP_ID := VUndefined;
     FirebaseConfig.VITE_INITIAL_AUTH_TOKEN := VUndefined |}.

Definition keys_error : error :=
  Error "Cannot convert undefined or null to object".

(** An SDK whose three calls succeed; its handles carry nothing. *)
Definition sdk_load :=
  FirebaseConfig.load (engine := config_engine) unit unit unit
    (fun _ => Normal tt) (fun _ => Normal tt) (fun _ => Normal tt) keys_error.

(** The module loaded with the configuration ... *)
Definition loaded : FirebaseConfig.Loaded unit unit :=
  {| FirebaseConfig.appId := VStr "default-app-id";
     FirebaseConfig.firebaseConfig := config_object;
     FirebaseConfig.initialAuthToken := VNull;
     FirebaseConfig.auth := FirebaseConfig.RealAuth tt;
     FirebaseConfig.db := FirebaseConfig.RealDb tt |}.

(** ... and with none. *)
Definition unconfigured : FirebaseConfig.Loaded unit unit :=
  {| FirebaseConfig.appId := VStr "default-app-id";
     FirebaseConfig.firebaseConfig := VObj [];
     FirebaseConfig.initialAuthToken := VNull;
     FirebaseConfig.auth := FirebaseConfig.DummyAuth;
     FirebaseConfig.db := FirebaseConfig.EmptyObject |}.

(** [App] mounted over the configured module, nobody signed in yet: the
    listener is registered and [setupAuth] has made its sign-in call. *)
Definition mounted_app : App.State :=
  {| App.app_cells := {| App.userId := None; App.isAuthReady := false;
                     App.message := "" |};
     App.subscribed := true;
     App.signIns := [(App.BySetupAuth, FirebaseConfig.signInAnonymously)];
     App.timer := None |}.

End MoreSamples.

(* ================================================================== *)
(** ** Properties of [processImageWithAI]                              *)
(* ================================================================== *)

Module GeminiFacts.
Import JS Gemini.

Section WithEngine.
Context {engine : Engine}.
Variable API_KEY : string.

Lemma prefix_append (s t : string) : prefix s (s ++ t) = true.
Proof.
  induction s as [|c s IH]; simpl.
  - now destruct t.
  - destruct (ascii_dec c c) as [_|Hc]; [exact IH|now elim Hc].
Qed.

Lemma error_result_reports_failure (text : string) :
  (prefix "Gemini API " text || prefix "AI processing failed: " text) = true ->
  reports_failure (error_result text).
Proof.
  intros Hclass. unfold reports_failure, error_result; simpl.
  repeat split; eauto.
Qed.

(** Whatever the [try] block throws, the [catch] turns into a report. *)
Lemma caught_reports_failure (e : error) :
  reports_failure
    (error_result ("AI processing failed: " ++ err_message e ++ ".")).
Proof.
  apply error_result_reports_failure.
  now rewrite (prefix_append "AI processing failed: "), orb_true_r.
Qed.

(** The non-[ok] branch either throws or returns a report. *)
Lemma http_error_result_reports (r : response) :
  match http_error_result r with
  | Normal x => reports_failure x
  | Throw _ => True
  end.
Proof.
  unfold http_error_result.
  destruct (resp_json r) as [errorData|]; cbn [bind]; [|exact I].
  destruct (get errorData "error") as [err|]; cbn [bind]; [|exact I].
  destruct (get_optional err "message") as [detail|]; cbn [bind]; [|exact I].
  apply error_result_reports_failure.
  match goal with
  | |- context [prefix "Gemini API " ("Gemini API Error: " ++ ?x)] =>
      change ("Gemini API Error: " ++ x) with ("Gemini API " ++ ("Error: " ++ x))
  end.
  now rewrite prefix_append.
Qed.

(** The function always resolves. *)
Lemma processImageWithAI_resolves fetch img :
  exists r, processImageWithAI API_KEY fetch img = Normal r.
Proof.
  unfold processImageWithAI.
  destruct (falsy_string API_KEY); [eauto|].
  destruct (try_body _ _); simpl; eauto.
Qed.

(** With a key, the result is the [try] block's, or the report made of
    what it threw. *)
Lemma processImageWithAI_with_key fetch img :
  falsy_string API_KEY = false ->
  processImageWithAI API_KEY fetch img =
  match try_body fetch (request_for API_KEY img) with
  | Normal r => Normal r
  | Throw e =>
      Normal (error_result ("AI processing failed: " ++ err_message e ++ "."))
  end.
Proof. intros Hkey. unfold processImageWithAI, try_catch. now rewrite Hkey. Qed.

Lemma falsy_string_false (s : string) : s <> "" -> falsy_string s = false.
Proof. intros Hs. unfold falsy_string. now apply String.eqb_neq. Qed.

Lemma falsy_string_true (s : string) : falsy_string s = true -> s = "".
Proof. unfold falsy_string. apply String.eqb_eq. Qed.

(** The [try] block on a response that is [ok] and whose text can be
    read: it is the interpretation of that text. *)
Lemma try_body_text fetch req r text :
  fetch req = Normal r -> resp_ok r = true -> reply_text r = Some text ->
  try_body fetch req = interpret_text text.
Proof.
  intros Hfetch Hok Htext. unfold try_body. rewrite Hfetch; simpl.
  rewrite Hok; simpl. unfold reply_text in Htext.
  destruct (resp_json r) as [body|]; [|discriminate]; simpl.
  destruct (structure_valid body) as [[|]|]; try discriminate; simpl.
  destruct (candidate_text body) as [t|]; [|discriminate]; simpl.
  now inversion Htext.
Qed.

(** The [try] block on a response that is [ok] and carries no readable
    text: it throws, or reports the invalid structure. *)
Lemma try_body_no_text fetch req r :
  fetch req = Normal r -> resp_ok r = true -> reply_text r = None ->
  match try_body fetch req with
  | Normal x => reports_failure x
  | Throw _ => True
  end.
Proof.
  intros Hfetch Hok Htext. unfold try_body. rewrite Hfetch; simpl.
  rewrite Hok; simpl. unfold reply_text in Htext.
  destruct (resp_json r) as [body|]; simpl; [|exact I].
  destruct (structure_valid body) as [[|]|]; simpl; try exact I.
  - destruct (candidate_text body) as [t|]; [discriminate|exact I].
  - apply error_result_reports_failure. reflexivity.
Qed.

(** From what is known of the [try] block to the result of the call. *)
Lemma result_of_try_body fetch img r (P : result -> Prop) :
  falsy_string API_KEY = false ->
  processImageWithAI API_KEY fetch img = Normal r ->
  match try_body fetch (request_for API_KEY img) with
  | Normal x => P x
  | Throw e =>
      P (error_result ("AI processing failed: " ++ err_message e ++ "."))
  end ->
  P r.
Proof.
  intros Hkey Hr Hbody. rewrite (processImageWithAI_with_key _ _ Hkey) in Hr.
  destruct (try_body _ _); inversion Hr; subst; exact Hbody.
Qed.



(** C6 (the code departs from it): the function validates the envelope
    of the response and not the reply inside it.  When the reply text
    parses to a value on which [status] and [message] read as
    [undefined] - the empty object, an array, a number - no failure path
    is taken: the call resolves to a result whose [status] and [message]
    are both [undefined], neither ['error'] nor a message. *)
Theorem reply_without_fields_has_no_status fetch img response text parsed :
  API_KEY <> "" ->
  fetch (request_for API_KEY img) = Normal response ->
  resp_ok response = true ->
  reply_text response = Some text ->
  JSON_parse (ToString text) = Normal parsed ->
  get parsed "status" = Normal VUndefined ->
  get parsed "message" = Normal VUndefined ->
  processImageWithAI API_KEY fetch img
  = Normal {| status := VUndefined; faceDetected := false;
              message := VUndefined |}.
Proof.
  intros Hkey Hfetch Hok Htext Hparse Hstatus Hmessage.
  apply falsy_string_false in Hkey.
  rewrite (processImageWithAI_with_key _ _ Hkey).
  rewrite (try_body_text _ _ _ _ Hfetch Hok Htext).
  unfold interpret_text.
  rewrite Hparse; cbn [bind]. rewrite Hmessage; cbn [bind].
  rewrite Hstatus; cbn [bind]. reflexivity.
Qed.

(** X27: for every key, image and behaviour of the network the call
    resolves (it never rejects), and on each failure the function looks
    for - no key, a network failure, a status that is not [ok], a body or
    a reply text that does not parse, a body that does not pass the
    validation, a reply that parses to [null] - the result has [status]
    ['error'], [faceDetected] [false] and one of the function's own
    sentences as its message. *)
Theorem processImageWithAI_never_rejects fetch img :
  exists r,
    processImageWithAI API_KEY fetch img = Normal r /\
    (failure API_KEY fetch img -> reports_failure r).
Proof.
  destruct (processImageWithAI_resolves fetch img) as [r Hr].
  exists r; split; [exact Hr|]. intros Hfail.
  destruct (falsy_string API_KEY) eqn:Hkey.
  { unfold processImageWithAI in Hr. rewrite Hkey in Hr.
    inversion Hr. apply error_result_reports_failure. reflexivity. }
  pattern r. apply (result_of_try_body fetch img r _ Hkey Hr).
  destruct Hfail as [Hempty | e Hfetch | response Hfetch Hok
                    | response e Hfetch Hjson | response Hfetch Hok Htext
                    | response text e Hfetch Hok Htext Hparse
                    | response text parsed e Hfetch Hok Htext Hparse Hget].
  - rewrite Hempty in Hkey. discriminate.
  - unfold try_body. rewrite Hfetch; cbn [bind]. apply caught_reports_failure.
  - unfold try_body. rewrite Hfetch; cbn [bind]. rewrite Hok; cbn [negb].
    pose proof (http_error_result_reports response) as Hbody.
    destruct (http_error_result response);
      [exact Hbody|apply caught_reports_failure].
  - unfold try_body, http_error_result. rewrite Hfetch; cbn [bind].
    destruct (resp_ok response); cbn [negb]; rewrite Hjson; cbn [bind];
      apply caught_reports_failure.
  - pose proof (try_body_no_text _ _ _ Hfetch Hok Htext) as Hbody.
    destruct (try_body _ _); [exact Hbody|apply caught_reports_failure].
  - rewrite (try_body_text _ _ _ _ Hfetch Hok Htext).
    unfold interpret_text. rewrite Hparse; cbn [bind].
    apply caught_reports_failure.
  - rewrite (try_body_text _ _ _ _ Hfetch Hok Htext).
    unfold interpret_text. rewrite Hparse; cbn [bind].
    rewrite Hget; cbn [bind]. apply caught_reports_failure.
Qed.

End WithEngine.


(** A classifier that answers with the empty object: the call resolves,
    and its result has neither a status nor a message. *)
Lemma reply_without_fields_has_no_status_witness :
  Sample.key <> "" /\
  JSON_parse (Engine := MoreSamples.reply_engine)
    MoreSamples.empty_object_text = Normal (VObj []) /\
  processImageWithAI (engine := MoreSamples.reply_engine) Sample.key
    (fun _ => Sample.ok_response MoreSamples.empty_object_text) Sample.frame1
  = Normal {| status := VUndefined; faceDetected := false;
              message := VUndefined |}.
Proof.
  assert (Hkey : Sample.key <> "") by discriminate.
  split; [exact Hkey|]. split; [reflexivity|].
  exact (reply_without_fields_has_no_status
           (engine := MoreSamples.reply_engine) Sample.key
           (fun _ => Sample.ok_response MoreSamples.empty_object_text)
           Sample.frame1
           {| resp_ok := true; resp_status := 200; resp_statusText := "OK";
              resp_json := Normal (Sample.envelope
                                     MoreSamples.empty_object_text) |}
           (VStr MoreSamples.empty_object_text) (VObj [])
           Hkey eq_refl eq_refl eq_refl eq_refl eq_refl eq_refl).
Defined.

End GeminiFacts.

(* ================================================================== *)
(** ** Properties of the capture workflow                              *)
(* ================================================================== *)

Module WebcamCaptureFacts.
Import JS WebcamCapture.
Local Open Scope pipe_scope.

Create HintDb workflow.

#[local] Hint Unfold startCamera startCamera_catch startCamera_resume
  stopCamera captureImage handleProcessImage handleProcessImage_resume
  startVoiceInput recognition_start retakeImage onerror onend cleanup
  stop_tracks open_stream detach : workflow.

(** Split a hypothesis along every [match] and [if] it contains. *)
Ltac split_hyp H :=
  repeat match type of H with
         | context [match ?x with _ => _ end] => destruct x eqn:?
         end.

#[local] Hint Unfold onresult logAttendance logAttendance_resolved
  logAttendance_rejected was_classified : workflow.

(** Turn the conditions of the buttons into equations on the cells. *)
Ltac guards :=
  unfold shows_StartCamera, shows_Capture, shows_Process, shows_SayMyName,
    Retake_enabled, shows_Retake in *;
  repeat match goal with
         | H : _ && _ = true |- _ => apply andb_prop in H as [? ?]
         | H : negb _ = true |- _ => apply negb_true_iff in H
         | H : negb _ = false |- _ => apply negb_false_iff in H
         | H : _ || _ = false |- _ => apply orb_false_elim in H as [? ?]
         end.

(** Close a goal that follows from the equations at hand. *)
Ltac ui_goal :=
  cbn in *; intros;
  try solve [ assumption | discriminate | lia | congruence
            | intuition (try congruence; try discriminate; try lia; eauto) ].

(** Name every field of a configuration. *)
Ltac open_config s :=
  destruct s as [[st cam img proc gate lis name msg] [uid vr cr sr mt]
                 [live ns nr reqs ais sess wr sto cl]]; cbn in *.

(** Substitute and simplify; drop the cases that contradict. *)
Ltac tidy :=
  cbn in *; subst; cbn in *; try discriminate; try congruence;
  repeat match goal with
         | H : Some _ = Some _ |- _ => inversion H; clear H; subst
         | H : _ :: _ = _ :: _ |- _ => inversion H; clear H; subst
         | H : falsy_string ?x = _, H' : context [falsy_string ?x] |- _ =>
             rewrite H in H'; cbn in H'
         end;
  try discriminate; try congruence.

(** Split on what is in flight - a camera request, a classification, a
    write, a recognizer - and let each invariant speak in its case. *)
Ltac modes Hreq Hfilm Hbusy Hcls Hwr Hhear Hsess Hgate :=
  match type of Hreq with
  | ?r <> 0 -> _ =>
      destruct r as [|[|?]];
      [clear Hreq
      |specialize (Hreq ltac:(discriminate));
       destruct Hreq as (? & ? & ? & ? & ? & ?)
      |exfalso; lia]
  end;
  match type of Hcls with
  | ?a <> [] -> _ =>
      destruct a as [|? ?];
      [clear Hcls
      |specialize (Hcls ltac:(discriminate));
       destruct Hcls as (? & (? & ? & ? & ?) & ? & ?)]
  end;
  match type of Hwr with
  | ?w <> [] -> _ =>
      destruct w as [|? [|? ?]];
      [clear Hwr
      |specialize (Hwr ltac:(discriminate)); destruct Hwr as (? & _ & ?)
      |exfalso; specialize (Hwr ltac:(discriminate));
       destruct Hwr as (_ & ? & _); cbn in *; lia]
  end;
  match type of Hsess with
  | List.length ?l <= 1 =>
      destruct l as [|[? [|]] [|? ?]];
      [clear Hhear
      |
      |exfalso; cbn in Hsess; lia
      |specialize (Hhear _ (or_introl eq_refl));
       destruct Hhear as (? & ? & ? & ? & ? & ?)
      |exfalso; cbn in Hsess; lia]
  end;
  match type of Hbusy with
  | ?p = true -> [] <> [] \/ [] <> [] =>
      destruct p;
      [exfalso; destruct (Hbusy eq_refl) as [Hb|Hb]; now apply Hb
      |clear Hbusy]
  | _ => clear Hbusy
  end;
  tidy.


(** Split the goal along every [match] and [if] it contains. *)
Ltac case_split :=
  repeat match goal with
         | |- context [match ?x with _ => _ end] => destruct x eqn:?
         end.

Section Component.
Context {engine : Engine}.
Variable API_KEY : string.
Variables db webkitSpeechRecognition mediaDevices : bool.

Local Notation step := (step API_KEY db webkitSpeechRecognition mediaDevices).
Local Notation run := (run API_KEY db webkitSpeechRecognition mediaDevices).
Local Notation commit := (commit webkitSpeechRecognition).
Local Notation handle := (handle API_KEY db mediaDevices).
Local Notation reachable :=
  (reachable API_KEY db webkitSpeechRecognition mediaDevices).
Local Notation patient_run :=
  (patient_run API_KEY db webkitSpeechRecognition mediaDevices).
Local Notation current := (recognizer_current webkitSpeechRecognition).
Local Notation orderly := (orderly webkitSpeechRecognition).

(** *** The effects *)

Lemma option_eqb_string_refl (x : option string) :
  option_eqb String.eqb x x = true.
Proof. destruct x; simpl; [apply String.eqb_refl|reflexivity]. Qed.

Lemma option_eqb_nat_refl (x : option nat) : option_eqb Nat.eqb x x = true.
Proof. destruct x; simpl; [apply Nat.eqb_refl|reflexivity]. Qed.

Lemma LogClosure_eqb_same (a b : LogClosure) :
  closed_userId a = closed_userId b ->
  closed_capturedImage a = closed_capturedImage b ->
  LogClosure_eqb a b = true.
Proof.
  intros Hu Hi. unfold LogClosure_eqb. rewrite Hu, Hi.
  now rewrite !option_eqb_string_refl.
Qed.

(** A render in which neither [stream], [isListeningForName], [userId]
    nor [capturedImage] changed runs no effect. *)
Lemma commit_nothing_changed (old s : Config) :
  stream (cells s) = stream (cells old) ->
  isListeningForName (cells s) = isListeningForName (cells old) ->
  userId (host s) = userId (host old) ->
  capturedImage (cells s) = capturedImage (cells old) ->
  commit old s = s.
Proof.
  intros Hs Hl Hu Hi. unfold WebcamCapture.commit.
  rewrite Hs, Hl, option_eqb_nat_refl, Bool.eqb_reflx; simpl.
  rewrite LogClosure_eqb_same; [reflexivity| |]; simpl; congruence.
Qed.

(** The effects write no cell of the component: at most [message]. *)
Lemma commit_cells (old s : Config) :
  let c := cells (commit old s) in
  stream c = stream (cells s) /\
  isCameraActive c = isCameraActive (cells s) /\
  capturedImage c = capturedImage (cells s) /\
  isProcessing c = isProcessing (cells s) /\
  faceDetectedByAI c = faceDetectedByAI (cells s) /\
  isListeningForName c = isListeningForName (cells s) /\
  recognizedName c = recognizedName (cells s).
Proof.
  unfold WebcamCapture.commit, cleanup, speech_effect.
  case_split; cbn; repeat split; reflexivity.
Qed.

(** The effects touch neither the store nor the pending calls. *)
Lemma commit_world (old s : Config) :
  let w := world (commit old s) in
  store w = store (world s) /\
  writes w = writes (world s) /\
  aiCalls w = aiCalls (world s) /\
  cameraRequests w = cameraRequests (world s) /\
  classified w = classified (world s) /\
  nextStream w = nextStream (world s).
Proof.
  unfold WebcamCapture.commit, cleanup, speech_effect.
  case_split; cbn; repeat split; reflexivity.
Qed.

(** The effects open no stream. *)
Lemma commit_liveStreams (old s : Config) (sid : nat) :
  In sid (liveStreams (world (commit old s))) ->
  In sid (liveStreams (world s)).
Proof.
  unfold WebcamCapture.commit, cleanup, speech_effect, stop_tracks.
  case_split; cbn; try tauto; intros Hin; apply filter_In in Hin; tauto.
Qed.

(** *** Retake *)

(** C3: from every state of the mounted component in which Retake is
    enabled (an image is held or a call is in flight, and none of
    classification, recognition or write is in progress), clicking it
    leaves [capturedImage = null], [recognizedName = ''] and
    [faceDetectedByAI = false]. *)
Theorem retakeImage_clears_session (s : Config) :
  mounted (host s) = true ->
  Retake_enabled (cells s) = true ->
  exists s',
    step ClickRetake s = Some s' /\
    capturedImage (cells s') = None /\
    recognizedName (cells s') = "" /\
    faceDetectedByAI (cells s') = false.
Proof.
  intros Hmounted Henabled.
  unfold WebcamCapture.step, handle. rewrite Hmounted, Henabled; simpl.
  eexists; split; [reflexivity|].
  destruct (commit_cells s (retakeImage mediaDevices (cells s) s))
    as (_ & _ & Himg & _ & Hgate & _ & Hname).
  rewrite Himg, Hname, Hgate.
  unfold retakeImage, stopCamera, startCamera, startCamera_catch.
  case_split; cbn; repeat split; reflexivity.
Qed.

(** *** The write *)


(** X28: when the oldest pending write fails the error is reported and
    [isProcessing] cleared; the image, the gate and the recognized name
    are all kept, and the store is unchanged.  Say My Name is on screen
    afterwards only if no name is held; with an image held and no
    recognition active, Retake is enabled. *)
Theorem failed_write_keeps_image_gate_and_name (s : Config) doc rest error :
  mounted (host s) = true ->
  writes (world s) = doc :: rest ->
  exists s',
    step (WriteFailed error) s = Some s' /\
    message (cells s')
    = "Error logging attendance: " ++ err_message error ++ "." /\
    isProcessing (cells s') = false /\
    capturedImage (cells s') = capturedImage (cells s) /\
    faceDetectedByAI (cells s') = faceDetectedByAI (cells s) /\
    recognizedName (cells s') = recognizedName (cells s) /\
    store (world s') = store (world s) /\
    ReadyForName (cells s')
    = present (capturedImage (cells s)) && faceDetectedByAI (cells s)
      && negb (isListeningForName (cells s))
      && falsy_string (recognizedName (cells s)) /\
    Retake_enabled (cells s')
    = (present (capturedImage (cells s)) || isListeningForName (cells s))
      && negb (isListeningForName (cells s)).
Proof.
  intros Hmounted Hwrites.
  unfold WebcamCapture.step, handle. rewrite Hmounted, Hwrites; simpl.
  rewrite commit_nothing_changed by reflexivity.
  eexists; split; [reflexivity|]. cbn.
  repeat split; try reflexivity.
  - unfold ReadyForName, shows_SayMyName; cbn. now rewrite !andb_true_r.
  - unfold Retake_enabled, shows_Retake; cbn. now rewrite !orb_false_r.
Qed.

(** *** Capture *)

(** A render whose [stream] was [null], and in which neither [userId] nor
    [capturedImage] changed, has nothing to clean up and no effect to
    run. *)
Lemma commit_no_stream (old s : Config) :
  stream (cells old) = None ->
  userId (host s) = userId (host old) ->
  capturedImage (cells s) = capturedImage (cells old) ->
  commit old s = s.
Proof.
  intros Hs Hu Hi. unfold WebcamCapture.commit, cleanup. rewrite Hs.
  assert (Hsame : LogClosure_eqb (logAttendance_of old) (logAttendance_of s)
                  = true)
    by (apply LogClosure_eqb_same; simpl; congruence).
  destruct (option_eqb Nat.eqb None (stream (cells s)) && _);
    cbv zeta; now rewrite Hsame.
Qed.

Lemma stop_tracks_not_live (sid : nat) (s : Config) :
  ~ In sid (liveStreams (world (stop_tracks sid s))).
Proof.
  unfold stop_tracks; cbn. intros Hin. apply filter_In in Hin.
  destruct Hin as [_ Hne]. now rewrite Nat.eqb_refl in Hne.
Qed.

(** X6: what [captureImage] does in any mounted configuration with the
    camera on.  With the capture surface ready it stores the frame, stops
    and clears the stream and turns the camera off, and it leaves the
    gate, the name and the two in-progress flags as they were, so that
    Captured is reached exactly when the gate was already clear, no name
    was held and nothing was in progress.  With the surface not ready it
    only sets the message. *)
Theorem captureImage_keeps_the_gate (s : Config) (frame : string) :
  mounted (host s) = true ->
  CameraActive (cells s) = true ->
  exists s',
    step (ClickCapture frame) s = Some s' /\
    if videoRef (host s) && canvasRef (host s) then
      capturedImage (cells s') = Some frame /\
      stream (cells s') = None /\
      isCameraActive (cells s') = false /\
      (forall sid, stream (cells s) = Some sid ->
                   ~ In sid (liveStreams (world s'))) /\
      faceDetectedByAI (cells s') = faceDetectedByAI (cells s) /\
      recognizedName (cells s') = recognizedName (cells s) /\
      isProcessing (cells s') = isProcessing (cells s) /\
      isListeningForName (cells s') = isListeningForName (cells s) /\
      Captured (cells s')
      = negb (falsy_string frame) && negb (faceDetectedByAI (cells s))
        && negb (isProcessing (cells s))
        && falsy_string (recognizedName (cells s))
    else
      s' = setMessage "Camera or capture area not ready. Please try again." s
      /\ CameraActive (cells s') = true.
Proof.
  intros Hmounted Hactive.
  unfold CameraActive, shows_Capture in Hactive.
  unfold WebcamCapture.step, handle, shows_Capture.
  rewrite Hmounted, Hactive; simpl.
  eexists; split; [reflexivity|].
  unfold captureImage.
  destruct (videoRef (host s) && canvasRef (host s)).
  - match goal with
    | |- context [commit s ?x] =>
        destruct (commit_cells s x)
          as (Hstream & Hcam & Himg & Hproc & Hgate & Hlisten & Hname);
        pose proof (commit_liveStreams s x) as Hlive
    end.
    unfold Captured, shows_Process.
    rewrite Hstream, Hcam, Himg, Hproc, Hgate, Hlisten, Hname.
    unfold stopCamera in *.
    destruct (stream (cells s)) as [sid|] eqn:Hsid; cbn;
      repeat split; try reflexivity; try assumption;
      try (intros sid' Heq; discriminate).
    intros sid' Heq Hin. inversion Heq; subst sid'.
    apply Hlive in Hin. revert Hin. apply stop_tracks_not_live.
  - rewrite commit_nothing_changed by reflexivity.
    split; [reflexivity|exact Hactive].
Qed.

(** *** Camera access denied *)

(** X29: from Idle with no stream held, a click on Start Camera followed
    by the rejection of a [getUserMedia] call - or the click alone, where
    there is no [navigator.mediaDevices] to call - leaves the component
    Idle: no stream is stored and none was opened, the camera is
    inactive, and the message is the one that begins "Error: Could not
    access webcam". *)
Theorem startCamera_denied_stays_Idle (s : Config) :
  mounted (host s) = true ->
  stream (cells s) = None ->
  isCameraActive (cells s) = false ->
  capturedImage (cells s) = None ->
  exists s',
    run (if mediaDevices then [ClickStartCamera; MediaDenied]
         else [ClickStartCamera]) s = Some s' /\
    Idle (cells s') = true /\
    stream (cells s') = None /\
    isCameraActive (cells s') = false /\
    capturedImage (cells s') = None /\
    message (cells s')
    = "Error: Could not access webcam. Please ensure it's connected and permissions are granted." /\
    liveStreams (world s') = liveStreams (world s) /\
    nextStream (world s') = nextStream (world s).
Proof.
  intros Hmounted Hstream Hcam Himg.
  assert (Hshown : shows_StartCamera (cells s) = true).
  { unfold shows_StartCamera. now rewrite Hcam, Himg. }
  destruct mediaDevices.
  - cbn [WebcamCapture.run].
    unfold WebcamCapture.step at 1. unfold handle.
    rewrite Hmounted, Hshown; cbn [option_map].
    rewrite commit_no_stream; [|exact Hstream|reflexivity|].
    2:{ unfold startCamera; cbn. now rewrite Himg. }
    unfold startCamera.
    unfold WebcamCapture.step, handle; cbn. rewrite Hmounted; cbn.
    rewrite commit_nothing_changed by reflexivity.
    eexists; split; [reflexivity|]. cbn.
    unfold Idle, shows_StartCamera; cbn. now repeat split.
  - cbn [WebcamCapture.run].
    unfold WebcamCapture.step, handle.
    rewrite Hmounted, Hshown; cbn [option_map].
    rewrite commit_no_stream; [|exact Hstream|reflexivity|].
    2:{ unfold startCamera; cbn. now rewrite Himg. }
    unfold startCamera.
    eexists; split; [reflexivity|]. cbn.
    unfold Idle, shows_StartCamera; cbn. now repeat split.
Qed.

(** *** Classification *)

(** C10: from Captured, with no classification in flight and a
    classifier whose answer for the held image is never a confirmed face,
    clicking Process and receiving the answer leaves the session in
    Captured with the same image, the gate clear, no name, and the store
    and the pending writes untouched; doing it again from there ends in
    the very same configuration. *)
Theorem negative_classification_is_idempotent (s : Config) img reply :
  mounted (host s) = true ->
  Captured (cells s) = true ->
  capturedImage (cells s) = Some img ->
  aiCalls (world s) = [] ->
  (forall r, Gemini.processImageWithAI API_KEY (fun _ => reply) img = Normal r ->
             face_confirmed r = false) ->
  exists s1,
    run [ClickProcess; ClassifierReplied reply] s = Some s1 /\
    Captured (cells s1) = true /\
    capturedImage (cells s1) = Some img /\
    faceDetectedByAI (cells s1) = false /\
    recognizedName (cells s1) = "" /\
    store (world s1) = store (world s) /\
    writes (world s1) = writes (world s) /\
    run [ClickProcess; ClassifierReplied reply] s1 = Some s1.
Proof.
  intros Hmounted Hcaptured Himg Hcalls Hnegative.
  destruct (GeminiFacts.processImageWithAI_resolves API_KEY (fun _ => reply) img)
    as [r Hr].
  specialize (Hnegative r Hr).
  assert (Hshown := Hcaptured). unfold Captured in Hshown.
  unfold Captured, shows_Process in Hcaptured. rewrite Himg in Hcaptured.
  apply andb_prop in Hcaptured as [Hcaptured Hname].
  apply andb_prop in Hcaptured as [Hcaptured Hproc].
  apply andb_prop in Hcaptured as [Hpresent Hgate].
  apply negb_true_iff in Hproc, Hgate.
  cbn [present] in Hpresent. apply negb_true_iff in Hpresent.
  assert (Hrun : forall s0,
    mounted (host s0) = true -> shows_Process (cells s0) = true ->
    capturedImage (cells s0) = Some img -> aiCalls (world s0) = [] ->
    run [ClickProcess; ClassifierReplied reply] s0
    = Some (s0 |> setIsProcessing true
               |> setMessage "Processing image with AI for face detection..."
               |> setFaceDetectedByAI false
               |> set_aiCalls []
               |> setFaceDetectedByAI false
               |> setMessage
                    ("AI response: "
                     ++ ToString (or_else (Gemini.message r)
                                          (VStr "No face detected"))
                     ++ ". Please retake image.")
               |> setRecognizedName ""
               |> setIsProcessing false)).
  { intros s0 Hm0 Hs0 Hi0 Hc0. cbn [WebcamCapture.run].
    unfold WebcamCapture.step at 1. unfold handle.
    rewrite Hm0, Hs0; cbn [option_map].
    unfold handleProcessImage. rewrite Hi0, Hpresent, Hc0.
    rewrite commit_nothing_changed by reflexivity.
    unfold WebcamCapture.step, handle. cbn. rewrite Hm0. cbn.
    rewrite Hr. unfold handleProcessImage_resume. rewrite Hnegative.
    now rewrite commit_nothing_changed by reflexivity. }
  assert (Hagain : forall s0,
    capturedImage (cells s0) = Some img ->
    shows_Process
      (cells (s0 |> setFaceDetectedByAI false |> setRecognizedName ""
                 |> setIsProcessing false)) = true).
  { intros s0 Hi0. unfold shows_Process; cbn. rewrite Hi0; cbn.
    now rewrite Hpresent. }
  eexists; split; [apply Hrun; assumption|].
  split; [apply (Hagain _ Himg)|].
  split; [exact Himg|].
  do 4 (split; [reflexivity|]).
  rewrite Hrun; [reflexivity|exact Hmounted|apply (Hagain _ Himg)
                |exact Himg|reflexivity].
Qed.

(** *** The documents written *)

Lemma falsy_string_false_neq (s : string) : falsy_string s = false -> s <> "".
Proof. unfold falsy_string. apply String.eqb_neq. Qed.

(** [logAttendance] hands over a document only past its guards. *)
Lemma logAttendance_documents closure nameToLog (s : Config) :
  documents_complete s ->
  documents_complete (logAttendance db closure nameToLog s).
Proof.
  intros [Hwrites Hstore]. unfold logAttendance.
  case_split; split; cbn; try assumption.
  apply Forall_app; split; [assumption|]. constructor; [|constructor].
  match goal with
  | H : _ && negb _ = true |- _ =>
      apply andb_prop in H as [_ Huid]; apply negb_true_iff in Huid
  end.
  repeat split; cbn; now apply falsy_string_false_neq.
Qed.

Lemma handle_documents e (s s' : Config) :
  documents_complete s -> handle e s = Some s' -> documents_complete s'.
Proof.
  intros Hinv Hhandle. pose proof Hinv as [Hwrites Hstore].
  destruct e; cbn in Hhandle; split_hyp Hhandle; try discriminate;
    inversion Hhandle; subst s'; clear Hhandle.
  all: try (autounfold with workflow; case_split; split; cbn; assumption).
  - unfold onresult. apply logAttendance_documents. split; cbn; assumption.
  - inversion Hwrites; subst.
    split; cbn; [assumption|]. apply Forall_app; split; [assumption|].
    constructor; [assumption|constructor].
  - inversion Hwrites; subst. split; cbn; assumption.
Qed.

Lemma commit_documents (old s : Config) :
  documents_complete s -> documents_complete (commit old s).
Proof.
  intros [Hwrites Hstore].
  destruct (commit_world old s) as (Hs & Hw & _).
  split; [rewrite Hw|rewrite Hs]; assumption.
Qed.

Lemma step_documents e (s s' : Config) :
  documents_complete s -> step e s = Some s' -> documents_complete s'.
Proof.
  intros Hinv Hstep. unfold WebcamCapture.step in Hstep.
  destruct (mounted (host s)).
  - destruct e;
      try (destruct (handle _ s) as [s0|] eqn:Hhandle; [|discriminate];
           inversion Hstep; subst s'; apply commit_documents;
           now apply (handle_documents _ _ _ Hinv Hhandle)).
    now apply (handle_documents _ _ _ Hinv Hstep).
  - destruct e; try discriminate;
      (destruct (handle _ s) as [s0|] eqn:Hhandle; [|discriminate]);
      inversion Hstep; subst s';
      exact (handle_documents _ _ _ Hinv Hhandle).
Qed.

Lemma run_documents es (s s' : Config) :
  documents_complete s -> run es s = Some s' -> documents_complete s'.
Proof.
  revert s. induction es as [|e es IH]; intros s Hinv Hrun; cbn in Hrun.
  - now inversion Hrun; subst.
  - destruct (step e s) as [s1|] eqn:Hstep; [|discriminate].
    apply (IH s1); [|exact Hrun]. now apply (step_documents e s).
Qed.

(** X1: whatever the order of events, every document the component has
    handed to [addDoc] - stored or still in flight - has a non-empty
    name, a non-empty image and a non-empty user id. *)
Theorem written_documents_are_complete (s : Config) :
  reachable s -> documents_complete s.
Proof.
  intros [es Hrun]. apply (run_documents es (mount webkitSpeechRecognition));
    [|exact Hrun].
  unfold mount, speech_effect. case_split; split; cbn; constructor.
Qed.

(** *** Patient runs *)

(** A handler or continuation keeps the documents and the recognizers
    to images classified positive. *)
Lemma handle_data e (s s' : Config) :
  mounted (host s) = true ->
  orderly_data s -> orderly_ui s -> current s ->
  handle e s = Some s' -> orderly_data s'.
Proof.
  intros Hm [Hw Hst Hse] Hui Hrec Hhandle.
  destruct e; cbn in Hhandle; split_hyp Hhandle; try discriminate;
    inversion Hhandle; subst s'; clear Hhandle.
  all: try (solve [autounfold with workflow; case_split; constructor; cbn;
                   assumption]).
  - (* Say My Name: the recognizer started closes over the image held,
       for which the gate is set *)
    unfold shows_SayMyName in *.
    repeat match goal with
           | H : _ && _ = true |- _ => apply andb_prop in H as [? ?]
           end.
    unfold startVoiceInput, recognition_start.
    destruct (speechRecognition (host s)) as [r|] eqn:Hr;
      [|constructor; cbn; assumption].
    destruct (existsb _ _); constructor; cbn; try assumption.
    intros r0 d img Hin Himg Hfalsy. apply in_app_or in Hin as [Hin|Hin].
    + now apply (Hse r0 d img).
    + destruct Hin as [Heq|[]]. inversion Heq; subst r0 d.
      destruct (Hrec r Hr) as [_ Hclosure].
      rewrite Hclosure in Himg; cbn in Himg.
      destruct (gate_image s Hui) as (img' & Hheld & Hcl); [assumption|].
      rewrite Hheld in Himg. now inversion Himg; subst.
  - (* classifier reply *)
    unfold handleProcessImage_resume.
    destruct (Gemini.processImageWithAI _ _ _) as [r|err];
      [destruct (face_confirmed r)|]; constructor; cbn; try assumption.
    + eapply Forall_impl; [|exact Hw]. intros d Hd. now right.
    + eapply Forall_impl; [|exact Hst]. intros d Hd. now right.
    + intros r0 d img Hin Himg Hfalsy. right. now apply (Hse r0 d img).
  - (* speech result *)
    assert (Hse' : forall r0 d img, In (r0, d) ((r, true) :: l) ->
              closed_capturedImage (rec_logAttendance r0) = Some img ->
              falsy_string img = false -> was_classified s img).
    { intros r0 d img [Heq|Hin] Himg Hfalsy.
      - inversion Heq; subst r0 d.
        apply (Hse r false img); [now left|assumption..].
      - apply (Hse r0 d img); [now right|assumption..]. }
    unfold onresult, logAttendance.
    case_split; constructor; cbn; try assumption.
    apply Forall_app; split; [assumption|]. constructor; [|constructor].
    cbn. eapply (Hse r false); [now left|eassumption|assumption].
  - (* speech error *)
    constructor; cbn; try assumption.
    intros r0 d img [Heq|Hin] Himg Hfalsy.
    + inversion Heq; subst r0 d.
      apply (Hse r false img); [now left|assumption..].
    + apply (Hse r0 d img); [now right|assumption..].
  - (* speech end *)
    constructor; cbn; try assumption.
    intros r0 d img Hin. apply (Hse r0 d img). now right.
  - (* write stored *)
    inversion Hw; subst.
    constructor; cbn; try assumption.
    apply Forall_app; split; [assumption|].
    constructor; [assumption|constructor].
  - (* write failed *)
    inversion Hw; subst. constructor; cbn; assumption.
Qed.

(** A continuation keeps the documents and the recognizers to images
    classified positive, whatever the cells are. *)
Lemma continuation_data e (s s' : Config) :
  continuation e ->
  orderly_data s -> handle e s = Some s' -> orderly_data s'.
Proof.
  intros He [Hw Hst Hse] Hhandle.
  destruct e; try contradiction; cbn in Hhandle; split_hyp Hhandle;
    try discriminate; inversion Hhandle; subst s'; clear Hhandle.
  all: try (solve [autounfold with workflow; case_split; constructor; cbn;
                   assumption]).
  - (* classifier reply *)
    unfold handleProcessImage_resume.
    destruct (Gemini.processImageWithAI _ _ _) as [r|err];
      [destruct (face_confirmed r)|]; constructor; cbn; try assumption.
    + eapply Forall_impl; [|exact Hw]. intros d Hd. now right.
    + eapply Forall_impl; [|exact Hst]. intros d Hd. now right.
    + intros r0 d img Hin Himg Hfalsy. right. now apply (Hse r0 d img).
  - (* speech result *)
    assert (Hse' : forall r0 d img, In (r0, d) ((r, true) :: l) ->
              closed_capturedImage (rec_logAttendance r0) = Some img ->
              falsy_string img = false -> was_classified s img).
    { intros r0 d img [Heq|Hin] Himg Hfalsy.
      - inversion Heq; subst r0 d.
        apply (Hse r false img); [now left|assumption..].
      - apply (Hse r0 d img); [now right|assumption..]. }
    unfold onresult, logAttendance.
    case_split; constructor; cbn; try assumption.
    apply Forall_app; split; [assumption|]. constructor; [|constructor].
    cbn. eapply (Hse r false); [now left|eassumption|assumption].
  - (* speech error *)
    constructor; cbn; try assumption.
    intros r0 d img [Heq|Hin] Himg Hfalsy.
    + inversion Heq; subst r0 d.
      apply (Hse r false img); [now left|assumption..].
    + apply (Hse r0 d img); [now right|assumption..].
  - (* speech end *)
    constructor; cbn; try assumption.
    intros r0 d img Hin. apply (Hse r0 d img). now right.
  - (* write stored *)
    inversion Hw; subst.
    constructor; cbn; try assumption.
    apply Forall_app; split; [assumption|].
    constructor; [assumption|constructor].
  - (* write failed *)
    inversion Hw; subst. constructor; cbn; assumption.
Qed.

(** A handler or continuation of a patient step keeps the cells in
    agreement with what is in flight. *)
Lemma handle_ui e (s s' : Config) :
  patient e s = true ->
  mounted (host s) = true ->
  orderly_data s -> orderly_ui s -> current s ->
  handle e s = Some s' ->
  mounted (host s') = true -> orderly_ui s'.
Proof.
  intros Hpatient Hm Hdata [Hone Hreq Hfilm Hbusy Hcls Hwr Hhear Hsess Hgate] Hrec
    Hhandle Hm'.
  open_config s. unfold recognizer_current in Hrec; cbn in Hrec.
  modes Hreq Hfilm Hbusy Hcls Hwr Hhear Hsess Hgate.
  all: destruct e; cbn in Hhandle; split_hyp Hhandle; try discriminate;
    inversion Hhandle; subst s'; clear Hhandle; guards; tidy.
  all: autounfold with workflow.
  all: try match goal with
           | |- context [Gemini.processImageWithAI ?k ?f ?i] =>
               destruct (Gemini.processImageWithAI k f i) as [? |?]
           end.
  all: case_split; constructor; ui_goal.
  all: match goal with
       | Heq : _ = Some ?r0 |- _ => destruct (Hrec r0 Heq) as [_ Hclosure]
       end.
  all: intuition.
  all: match goal with H : (_, _) = (_, _) |- _ => inversion H; subst end.
  all: now rewrite Hclosure.
Qed.

(** No handler touches [speechRecognition.current]; only teardown
    unmounts. *)
Lemma handle_host e (s s' : Config) :
  handle e s = Some s' ->
  speechRecognition (host s') = speechRecognition (host s) /\
  (e <> Unmount -> mounted (host s') = mounted (host s)).
Proof.
  intros Hhandle.
  destruct e; cbn in Hhandle; split_hyp Hhandle; try discriminate;
    inversion Hhandle; subst s'; clear Hhandle.
  all: autounfold with workflow.
  all: try match goal with
           | |- context [Gemini.processImageWithAI ?k ?f ?i] =>
               destruct (Gemini.processImageWithAI k f i) as [? |?]
           end.
  all: case_split; cbn; repeat split; try reflexivity; try congruence.
Qed.

(** The effects keep all of this: they write [message],
    [speechRecognition.current] and the set of live streams only. *)
Lemma commit_data (old s : Config) :
  orderly_data s -> orderly_data (commit old s).
Proof.
  intros [Hw Hst Hse].
  unfold WebcamCapture.commit, cleanup, speech_effect, stop_tracks.
  case_split; constructor; cbn; assumption.
Qed.

Lemma commit_ui (old s : Config) :
  orderly_ui s -> orderly_ui (commit old s).
Proof.
  intros [Hone Hreq Hfilm Hbusy Hcls Hwr Hhear Hsess Hgate].
  unfold WebcamCapture.commit, cleanup, speech_effect, stop_tracks.
  case_split; constructor; cbn; assumption.
Qed.

Lemma commit_mounted (old s : Config) :
  mounted (host (commit old s)) = mounted (host s).
Proof.
  unfold WebcamCapture.commit, cleanup, speech_effect, stop_tracks.
  case_split; reflexivity.
Qed.

Lemma option_eqb_string_eq (x y : option string) :
  option_eqb String.eqb x y = true -> x = y.
Proof.
  destruct x, y; cbn; try discriminate; try reflexivity.
  intros H. apply String.eqb_eq in H. now subst.
Qed.

Lemma LogClosure_eqb_eq (a b : LogClosure) :
  LogClosure_eqb a b = true -> a = b.
Proof.
  destruct a, b. unfold LogClosure_eqb; cbn. intros H.
  apply andb_prop in H as [Hu Hi].
  apply option_eqb_string_eq in Hu, Hi. now subst.
Qed.

(** The first effect is what keeps the recognizer current: it runs
    whenever [logAttendance] changed. *)
Lemma commit_recognizer (old s : Config) :
  current old ->
  speechRecognition (host s) = speechRecognition (host old) ->
  current (commit old s).
Proof.
  intros Hrec Hsame r. unfold WebcamCapture.commit. cbv zeta.
  match goal with
  | |- context [if ?c then s else cleanup (cells old) s] =>
      set (s0 := if c then s else cleanup (cells old) s)
  end.
  assert (Hs0 : speechRecognition (host s0) = speechRecognition (host s)
                /\ logAttendance_of s0 = logAttendance_of s).
  { subst s0. unfold cleanup, stop_tracks. now case_split. }
  destruct Hs0 as [Hsr Hlog]. rewrite Hlog.
  destruct (LogClosure_eqb (logAttendance_of old) (logAttendance_of s)) eqn:Heq.
  - apply LogClosure_eqb_eq in Heq. rewrite Hsr, Hsame. intros Hr.
    destruct (Hrec r Hr) as [Hw Hc]. split; [assumption|].
    rewrite Hc, Heq. unfold logAttendance_of. subst s0.
    unfold cleanup, stop_tracks. now case_split.
  - unfold speech_effect.
    destruct webkitSpeechRecognition eqn:Hweb; cbn.
    + intros Hr. inversion Hr; subst r; cbn. split; reflexivity.
    + rewrite Hsr, Hsame. intros Hr. destruct (Hrec r Hr) as [Hw _].
      discriminate.
Qed.

Lemma step_orderly e (s s' : Config) :
  patient e s = true ->
  orderly s -> step e s = Some s' ->
  orderly s'.
Proof.
  intros Hpatient [Hdata Hui] Hstep. unfold WebcamCapture.step in Hstep.
  destruct (mounted (host s)) eqn:Hm.
  - destruct (Hui eq_refl) as [Hflags Hrec].
    assert (Hcommit : forall s0, handle e s = Some s0 ->
              orderly (commit s s0)).
    { intros s0 Hhandle. split.
      - apply commit_data. now apply (handle_data e s).
      - rewrite commit_mounted. intros Hm0. split.
        + apply commit_ui. now apply (handle_ui e s).
        + apply commit_recognizer; [assumption|].
          now apply (handle_host e s). }
    destruct e;
      try (destruct (handle _ s) as [s0|] eqn:Hhandle; [|discriminate];
           inversion Hstep; subst s'; now apply Hcommit).
    cbn in Hstep. inversion Hstep; subst s'. split.
    + destruct Hdata as [Hw Hst Hse]. unfold cleanup, stop_tracks, detach.
      case_split; constructor; cbn; assumption.
    + unfold cleanup, stop_tracks, detach. case_split; cbn; discriminate.
  - destruct e; try discriminate;
      (destruct (handle _ s) as [s0|] eqn:Hhandle; [|discriminate]);
      inversion Hstep; subst s'; (split;
        [match type of Hhandle with
         | WebcamCapture.handle _ _ _ ?ev _ = _ =>
             destruct (continuation_data ev s s0 I Hdata Hhandle)
               as [Hw Hst Hse]
         end;
         constructor; cbn; assumption
        |cbn; destruct (handle_host _ s s0 Hhandle) as [_ Hsame];
         rewrite Hsame, Hm by discriminate; discriminate]).
Qed.

Lemma mount_orderly :
  orderly (mount webkitSpeechRecognition).
Proof.
  unfold mount, speech_effect.
  destruct webkitSpeechRecognition; split.
  all: try (constructor; cbn; try constructor; intros; contradiction).
  all: intros _; split.
  all: try (constructor; cbn; intros;
            solve [lia | discriminate | contradiction | congruence]).
  intros rec Hrec. cbn in Hrec. inversion Hrec; subst. now split.
Qed.

Lemma patient_run_orderly es (s s' : Config) :
  orderly s ->
  patient_run es s = Some s' ->
  orderly s'.
Proof.
  revert s. induction es as [|e es IH]; intros s Hinv Hrun; cbn in Hrun.
  - now inversion Hrun; subst.
  - destruct (patient e s) eqn:Hpatient; [|discriminate].
    destruct (step e s) as [s1|] eqn:Hstep; [|discriminate].
    apply (IH s1); [|exact Hrun]. now apply (step_orderly e s).
Qed.


(** The same for the media streams. *)
Lemma handle_streams e (s s' : Config) :
  patient e s = true ->
  mounted (host s) = true ->
  orderly_ui s -> streams_orderly s ->
  handle e s = Some s' -> streams_orderly s'.
Proof.
  intros Hpatient Hm [_ Hreq _ _ _ _ _ _ _] [Hfew Hone Hnone Hheld] Hhandle.
  destruct (Hheld Hm) as (Hvideo & Hcanvas & Hlive & Hoff). clear Hheld.
  open_config s.
  destruct live as [|x [|? ?]]; [| |exfalso; cbn in Hfew; lia].
  all: destruct reqs as [|[|?]]; [| |exfalso; lia].
  all: try (specialize (Hnone ltac:(discriminate)); discriminate).
  all: try (specialize (Hreq ltac:(discriminate));
            destruct Hreq as (? & ? & ? & ? & ? & ?)).
  all: try (specialize (Hlive x (or_introl eq_refl))).
  all: tidy.
  all: destruct e; cbn in Hhandle; split_hyp Hhandle; try discriminate;
    inversion Hhandle; subst s'; clear Hhandle; guards; tidy.
  all: autounfold with workflow.
  all: try match goal with
           | |- context [Gemini.processImageWithAI ?k ?f ?i] =>
               destruct (Gemini.processImageWithAI k f i) as [? |?]
           end.
  all: cbn; rewrite ?Nat.eqb_refl; cbn;
    case_split; constructor; cbn in *; rewrite ?Nat.eqb_refl in *; ui_goal.
Qed.

Lemma commit_streams (old s : Config) :
  streams_orderly s -> streams_orderly (commit old s).
Proof.
  intros [Hfew Hone Hnone Hheld].
  open_config s.
  destruct live as [|x [|? ?]]; [| |exfalso; cbn in Hfew; lia].
  all: unfold WebcamCapture.commit, cleanup, speech_effect, stop_tracks; cbn.
  all: case_split; constructor; cbn in *; ui_goal.
Qed.

Lemma step_streams e (s s' : Config) :
  patient e s = true ->
  orderly s -> streams_orderly s ->
  step e s = Some s' -> streams_orderly s'.
Proof.
  intros Hpatient [_ Hui] Hstreams Hstep.
  unfold WebcamCapture.step in Hstep.
  destruct (mounted (host s)) eqn:Hm.
  - destruct (Hui eq_refl) as [Hflags _].
    destruct e;
      try (destruct (handle _ s) as [s0|] eqn:Hhandle; [|discriminate];
           inversion Hstep; subst s'; apply commit_streams;
           eapply handle_streams; eassumption).
    eapply handle_streams; eassumption.
  - destruct Hstreams as [Hfew Hone Hnone _].
    open_config s.
    destruct e; try discriminate; cbn in Hstep; split_hyp Hstep;
      try discriminate; inversion Hstep; subst s'; clear Hstep.
    all: autounfold with workflow.
    all: try match goal with
             | |- context [Gemini.processImageWithAI ?k ?f ?i] =>
                 destruct (Gemini.processImageWithAI k f i) as [? |?]
             end.
    all: subst; try (specialize (Hnone ltac:(discriminate)); subst live).
    all: case_split; constructor; cbn in *; intros; try lia; try congruence;
      try (apply Hnone; lia).
Qed.

Lemma mount_streams : streams_orderly (mount webkitSpeechRecognition).
Proof.
  unfold mount, speech_effect.
  destruct webkitSpeechRecognition; constructor; cbn; intros;
    try lia; try congruence;
    try (repeat split; intros; try contradiction; reflexivity).
Qed.

Lemma patient_run_streams es (s s' : Config) :
  orderly s -> streams_orderly s ->
  patient_run es s = Some s' ->
  streams_orderly s'.
Proof.
  revert s. induction es as [|e es IH]; intros s Hinv Hstreams Hrun;
    cbn in Hrun.
  - now inversion Hrun; subst.
  - destruct (patient e s) eqn:Hpatient; [|discriminate].
    destruct (step e s) as [s1|] eqn:Hstep; [|discriminate].
    apply (IH s1); [| |exact Hrun].
    + now apply (step_orderly e s).
    + now apply (step_streams e s).
Qed.

(** X4: in a patient run at most one media stream is live at any time, and
    none is live while a camera request is pending: every stream the
    browser opens is opened with the previous one stopped. *)
Theorem patient_runs_hold_one_stream es (s : Config) :
  patient_run es
    (mount webkitSpeechRecognition) = Some s ->
  List.length (liveStreams (world s)) <= 1 /\
  (cameraRequests (world s) <> 0 -> liveStreams (world s) = []).
Proof.
  intros Hrun.
  destruct (patient_run_streams es _ s mount_orderly mount_streams Hrun)
    as [Hfew _ Hnone _].
  now split.
Qed.

(** X5: in a patient run, Capture from CameraActive stores the frame,
    stops and clears the stream and reaches Captured with the gate
    clear. *)
Theorem patient_capture_reaches_Captured es (s : Config) frame :
  patient_run es
    (mount webkitSpeechRecognition) = Some s ->
  mounted (host s) = true ->
  CameraActive (cells s) = true ->
  frame <> "" ->
  exists s',
    step (ClickCapture frame) s = Some s' /\
    capturedImage (cells s') = Some frame /\
    stream (cells s') = None /\
    isCameraActive (cells s') = false /\
    liveStreams (world s') = [] /\
    faceDetectedByAI (cells s') = false /\
    Captured (cells s') = true.
Proof.
  intros Hrun Hm Hactive Hframe.
  destruct (patient_run_orderly es _ s mount_orderly Hrun) as [_ Hui].
  destruct (Hui Hm) as [[_ _ Hfilm _ _ _ _ _ _] _]. clear Hui.
  destruct (patient_run_streams es _ s mount_orderly mount_streams Hrun)
    as [Hfew _ _ Hheld].
  destruct (Hheld Hm) as (Hvideo & Hcanvas & Hlive & _). clear Hheld.
  unfold CameraActive, shows_Capture in Hactive.
  destruct (Hfilm Hactive) as (Himg & Hgate & _ & Hname & Hproc).
  apply String.eqb_neq in Hframe.
  unfold WebcamCapture.step, handle, shows_Capture, captureImage, stopCamera.
  rewrite Hm, Hactive, Hvideo, Hcanvas; cbn [andb option_map].
  eexists; split; [reflexivity|].
  destruct (stream (cells s)) as [sid|] eqn:Hsid.
  all: match goal with
       | |- context [WebcamCapture.commit _ ?old ?x] =>
           destruct (commit_cells old x)
             as (Hc1 & Hc2 & Hc3 & Hc4 & Hc5 & Hc6 & Hc7);
           pose proof (commit_liveStreams old x) as Hc8
       end.
  all: unfold Captured, shows_Process; rewrite Hc1, Hc2, Hc3, Hc4, Hc5, Hc7.
  all: cbn; rewrite ?Hgate, ?Hname, ?Hproc, ?Hsid; unfold falsy_string;
    rewrite ?Hframe; cbn.
  all: repeat split; try reflexivity.
  all: match goal with
       | |- liveStreams ?w = [] =>
           destruct (liveStreams w) as [|y ?]; [reflexivity|exfalso]
       end.
  all: specialize (Hc8 y (or_introl eq_refl)); cbn in Hc8.
  - apply filter_In in Hc8 as [Hin Hne].
    apply Hlive in Hin. inversion Hin; subst y.
    now rewrite Nat.eqb_refl in Hne.
  - apply Hlive in Hc8. discriminate.
Qed.

(** In a patient run every document handed to [addDoc], stored or in
    flight, carries an image that was classified positive. *)
Theorem patient_runs_write_classified_images es (s : Config) :
  patient_run es
    (mount webkitSpeechRecognition) = Some s ->
  Forall (fun d => In (image d) (classified (world s))) (writes (world s)) /\
  Forall (fun r => In (image (document r)) (classified (world s)))
    (store (world s)).
Proof.
  intros Hrun.
  destruct (patient_run_orderly es _ s mount_orderly Hrun) as [[Hw Hst _] _].
  now split.
Qed.

(** X30: in a patient run, when a camera request is denied the
    component is Idle: no stream is stored and none is live, the camera
    is inactive, no image is held, no request is pending, and the message
    is the one that begins "Error: Could not access webcam". *)
Theorem patient_denial_stays_Idle es (s s' : Config) :
  patient_run es (mount webkitSpeechRecognition) = Some s ->
  mounted (host s) = true ->
  step MediaDenied s = Some s' ->
  Idle (cells s') = true /\
  stream (cells s') = None /\
  liveStreams (world s') = [] /\
  isCameraActive (cells s') = false /\
  capturedImage (cells s') = None /\
  cameraRequests (world s') = 0 /\
  message (cells s')
  = "Error: Could not access webcam. Please ensure it's connected and permissions are granted.".
Proof.
  intros Hrun Hm Hstep.
  destruct (patient_run_orderly es _ s mount_orderly Hrun) as [_ Hui].
  destruct (Hui Hm) as [[Hone Hreq _ _ _ _ _ _ _] _].
  destruct (patient_run_streams es _ s mount_orderly mount_streams Hrun)
    as [_ _ Hnone Hheld].
  destruct (Hheld Hm) as (_ & _ & _ & Hoff).
  unfold WebcamCapture.step in Hstep. rewrite Hm in Hstep.
  unfold handle in Hstep.
  destruct (cameraRequests (world s)) as [|n] eqn:Hn; [discriminate|].
  destruct (Hreq ltac:(discriminate)) as (Himg & Hcam & _).
  specialize (Hnone ltac:(discriminate)). specialize (Hoff Hcam).
  assert (n = 0) by lia; subst n.
  cbn [option_map] in Hstep. inversion Hstep; subst s'; clear Hstep.
  rewrite commit_no_stream; [|exact Hoff|reflexivity|reflexivity].
  unfold startCamera_catch, Idle, shows_StartCamera; cbn.
  rewrite Himg, Hoff, Hnone. now repeat split.
Qed.

(** While the component is mounted, what is known of the cells says what
    is known of the recognizers that listen. *)
Lemma orderly_ui_heard (s : Config) : orderly_ui s -> heard s.
Proof.
  intros [_ _ _ _ _ _ Hhear _ Hgate]. constructor; [|exact Hgate].
  intros r Hin. destruct (Hhear r Hin) as (_ & Hg & _ & _ & _ & Hcl).
  now split.
Qed.

(** A continuation that runs after the removal starts no recognizer,
    and the cells stay as they were. *)
Lemma continuation_heard e (s s0 : Config) :
  continuation e ->
  heard s -> handle e s = Some s0 -> heard (after_removal s s0).
Proof.
  intros He [Hhear Hgate] Hhandle.
  assert (Hworld :
            (forall r, In (r, false) (sessions (world s0)) ->
                       In (r, false) (sessions (world s))) /\
            (forall img, In img (classified (world s)) ->
                         In img (classified (world s0)))).
  { destruct e; try contradiction; cbn in Hhandle; split_hyp Hhandle;
      try discriminate; inversion Hhandle; subst s0; clear Hhandle.
    all: autounfold with workflow.
    all: try match goal with
             | |- context [Gemini.processImageWithAI ?k ?f ?i] =>
                 destruct (Gemini.processImageWithAI k f i) as [? |?]
             end.
    all: case_split; cbn; split; intros; try assumption.
    all: try (now right).
    all: match goal with
         | H : _ \/ _ |- _ => destruct H as [H|H]; [discriminate|now right]
         end. }
  destruct Hworld as [Hsessions Hclassified].
  constructor; cbn.
  - intros r Hin. apply Hhear. now apply Hsessions.
  - intros Hg. destruct (Hgate Hg) as (img & Himg & Hcl).
    exists img. split; [exact Himg|]. now apply Hclassified.
Qed.

Lemma step_heard e (s s' : Config) :
  patient e s = true ->
  orderly s -> heard s -> step e s = Some s' -> heard s'.
Proof.
  intros Hpatient Horderly Hheard Hstep.
  pose proof (step_orderly e s s' Hpatient Horderly Hstep) as [_ Hui'].
  unfold WebcamCapture.step in Hstep.
  destruct (mounted (host s)) eqn:Hm.
  - destruct (mounted (host s')) eqn:Hm'.
    + apply orderly_ui_heard. now apply Hui'.
    + destruct e;
        try (destruct (handle _ s) as [s0|] eqn:Hhandle; [|discriminate];
             inversion Hstep; subst s';
             rewrite commit_mounted in Hm';
             destruct (handle_host _ s s0 Hhandle) as [_ Hsame];
             rewrite Hsame, Hm in Hm' by discriminate; discriminate).
      cbn in Hstep. inversion Hstep; subst s'.
      destruct Hheard as [Hhear Hgate].
      unfold cleanup, stop_tracks, detach.
      case_split; constructor; cbn; assumption.
  - destruct e; try discriminate;
      (destruct (handle _ s) as [s0|] eqn:Hhandle; [|discriminate]);
      inversion Hstep; subst s';
      match type of Hhandle with
      | WebcamCapture.handle _ _ _ ?ev _ = _ =>
          exact (continuation_heard ev s s0 I Hheard Hhandle)
      end.
Qed.

Lemma mount_heard : heard (mount webkitSpeechRecognition).
Proof.
  unfold mount, speech_effect.
  destruct webkitSpeechRecognition; constructor; cbn; intros;
    solve [contradiction | discriminate].
Qed.

Lemma patient_run_heard es (s s' : Config) :
  orderly s -> heard s ->
  patient_run es s = Some s' ->
  heard s'.
Proof.
  revert s. induction es as [|e es IH]; intros s Hinv Hheard Hrun;
    cbn in Hrun.
  - now inversion Hrun; subst.
  - destruct (patient e s) eqn:Hpatient; [|discriminate].
    destruct (step e s) as [s1|] eqn:Hstep; [|discriminate].
    apply (IH s1); [| |exact Hrun].
    + now apply (step_orderly e s).
    + now apply (step_heard e s).
Qed.

Lemma app_one_more {A : Type} (l : list A) (x : A) : l <> (l ++ [x])%list.
Proof.
  intros H. apply (f_equal (@List.length A)) in H.
  rewrite length_app in H. cbn in H. lia.
Qed.

(** X3: in a patient run, at the moment a write is issued the gate is set,
    the document carries the image held, that image was classified
    positive, and the name is the transcript, not empty. *)
Theorem patient_write_call es (s s' : Config) transcript d :
  patient_run es
    (mount webkitSpeechRecognition) = Some s ->
  step (SpeechResult transcript) s = Some s' ->
  writes (world s') = (writes (world s) ++ [d])%list ->
  faceDetectedByAI (cells s) = true /\
  capturedImage (cells s) = Some (image d) /\
  In (image d) (classified (world s)) /\
  personName d = transcript /\ transcript <> "".
Proof.
  intros Hrun Hstep Hgrew.
  destruct (patient_run_heard es _ s mount_orderly mount_heard Hrun)
    as [Hhear Hgate].
  assert (Hcall : exists r l,
            sessions (world s) = (r, false) :: l /\
            writes (world s')
            = writes (world (onresult db r transcript
                               (set_sessions ((r, true) :: l) s)))).
  { unfold WebcamCapture.step in Hstep.
    destruct (mounted (host s)); cbn in Hstep;
      (destruct (sessions (world s)) as [|[r [|]] l] eqn:Hsessions;
       try discriminate);
      inversion Hstep; subst s'; clear Hstep; exists r, l;
      (split; [reflexivity|]).
    - now destruct (commit_world s
             (onresult db r transcript (set_sessions ((r, true) :: l) s)))
        as (_ & Hwrites & _).
    - reflexivity. }
  destruct Hcall as (r & l & Hsessions & Hwrites).
  rewrite Hwrites in Hgrew. clear Hwrites.
  destruct (Hhear r) as (Hg & Hcl); [rewrite Hsessions; now left|].
  destruct (Hgate Hg) as (img & Himg & Hclassified).
  unfold onresult, logAttendance in Hgrew. rewrite Hcl, Himg in Hgrew.
  destruct (falsy_string transcript) eqn:Hname;
    [cbn in Hgrew; now apply app_one_more in Hgrew|].
  destruct (falsy_string img);
    [cbn in Hgrew; now apply app_one_more in Hgrew|].
  destruct (closed_userId (rec_logAttendance r)) as [uid|];
    [|cbn in Hgrew; now apply app_one_more in Hgrew].
  destruct (db && negb (falsy_string uid));
    [|cbn in Hgrew; now apply app_one_more in Hgrew].
  cbn in Hgrew. apply app_inv_head in Hgrew.
  inversion Hgrew; subst d; cbn.
  repeat split; try assumption.
  unfold falsy_string in Hname. now apply String.eqb_neq.
Qed.

End Component.

(** *** Runs of the component *)

(** The runs of [Sample] do what their names say. *)
Lemma sample_runs :
  Sample.run' Sample.to_camera Sample.mount'
  = Some (Sample.after Sample.to_camera) /\
  Sample.run' Sample.to_captured Sample.mount'
  = Some (Sample.after Sample.to_captured) /\
  Sample.run' Sample.to_logging Sample.mount'
  = Some (Sample.after Sample.to_logging) /\
  Sample.run' Sample.second_grant_after_capture Sample.mount'
  = Some (Sample.after Sample.second_grant_after_capture).
Proof. vm_compute. repeat split. Qed.

(** C1 (the code departs from it): Start Camera stays on screen while a
    camera request is pending.  Clicked twice, it leaves a second request
    whose grant can arrive after a frame was captured; the camera is then
    on beside the captured image.  Once that image is classified
    positive, Capture replaces it with a new frame and leaves the gate
    set, and the name then spoken is written with the new frame, for
    which no classification was ever made. *)
Theorem overlapping_requests_log_an_unclassified_image :
  match Sample.run' Sample.capture_over_classified_image Sample.mount' with
  | Some s =>
      writes (world s)
      = [{| personName := "Bob"; image := Sample.frame2;
            loggedByUserId := "user-1" |}] /\
      capturedImage (cells s) = Some Sample.frame2 /\
      faceDetectedByAI (cells s) = true /\
      classified (world s) = [Sample.frame1] /\
      ~ In Sample.frame2 (classified (world s))
  | None => False
  end.
Proof.
  vm_compute. repeat split. intros [Heq|[]]. discriminate Heq.
Qed.

(** C9 (the code departs from it): with Start Camera clicked twice and
    the first request granted, stream 0 is held and live; the browser
    then opens stream 1 for the second request while stream 0 is still
    live, and nothing has stopped stream 0 first.  Stream 0 is stopped
    only afterwards, by the cleanup of the render that stores stream 1. *)
Theorem overlapping_requests_open_two_streams :
  match Sample.run' (Sample.two_requests ++ [MediaGranted]) Sample.mount' with
  | Some s =>
      stream (cells s) = Some 0 /\
      liveStreams (world s) = [0] /\
      cameraRequests (world s) = 1 /\
      liveStreams (world (snd (open_stream s))) = [1; 0] /\
      match Sample.step' MediaGranted s with
      | Some s' => stream (cells s') = Some 1 /\ liveStreams (world s') = [1]
      | None => False
      end
  | None => False
  end.
Proof. vm_compute. repeat split. Qed.

(** C4 (the code departs from it): in the plain run up to the write
    (camera, capture, positive classification, the name "Alice"), a
    failing write is reported and the image and the gate are kept, but
    [recognizedName] still holds "Alice": Say My Name is not rendered,
    the session is not in Ready-For-Name, and Retake is the only button
    on screen.  The two sibling paths clear the name: the recognizer's
    [onerror], after which Say My Name is back, and the write that
    succeeds. *)
Theorem failed_write_leaves_only_Retake :
  match Sample.step' (WriteFailed (Error "The store is offline"))
          (Sample.after Sample.to_logging) with
  | Some s =>
      writes (world (Sample.after Sample.to_logging))
      = [{| personName := "Alice"; image := Sample.frame1;
            loggedByUserId := "user-1" |}] /\
      message (cells s) = "Error logging attendance: The store is offline." /\
      capturedImage (cells s) = Some Sample.frame1 /\
      faceDetectedByAI (cells s) = true /\
      isProcessing (cells s) = false /\
      recognizedName (cells s) = "Alice" /\
      ReadyForName (cells s) = false /\
      shows_StartCamera (cells s) = false /\
      shows_Capture (cells s) = false /\
      shows_Process (cells s) = false /\
      shows_SayMyName (cells s) = false /\
      Retake_enabled (cells s) = true
  | None => False
  end /\
  match Sample.step' (SpeechError "no-speech")
          (Sample.after Sample.to_listening) with
  | Some s =>
      recognizedName (cells s) = "" /\ ReadyForName (cells s) = true
  | None => False
  end /\
  match Sample.step' WriteStored (Sample.after Sample.to_logging) with
  | Some s => recognizedName (cells s) = ""
  | None => False
  end.
Proof. vm_compute. repeat split. Qed.

(** C8 (the code departs from it): with Start Camera clicked twice, the
    first request granted and the second denied, the [catch] of
    [startCamera] reports the error and sets [isCameraActive] to
    [false], and leaves the stream of the first request where it is:
    stored in [stream] and live, with Start Camera the only button on
    screen. *)
Theorem overlapping_requests_denial_keeps_the_stream :
  match Sample.run' Sample.grant_then_denial Sample.mount' with
  | Some s =>
      message (cells s)
      = "Error: Could not access webcam. Please ensure it's connected and permissions are granted." /\
      isCameraActive (cells s) = false /\
      capturedImage (cells s) = None /\
      Idle (cells s) = true /\
      stream (cells s) = Some 0 /\
      liveStreams (world s) = [0] /\
      cameraRequests (world s) = 0 /\
      shows_Capture (cells s) = false /\
      shows_Retake (cells s) = false
  | None => False
  end.
Proof. vm_compute. repeat split. Qed.

(** C7 (the code departs from it): once the second of two overlapping
    camera requests is granted beside a captured image and that image is
    classified positive, the component is in CameraActive with the gate
    set; [captureImage], with the capture surface ready, stores the new
    frame and releases the stream but leaves the gate set, so the
    session is in Ready-For-Name for an image never classified, not in
    Captured. *)
Theorem overlapping_requests_capture_keeps_gate :
  match Sample.run' Sample.second_grant_after_capture Sample.mount' with
  | Some s =>
      CameraActive (cells s) = true /\
      videoRef (host s) && canvasRef (host s) = true /\
      faceDetectedByAI (cells s) = true /\
      match Sample.step' (ClickCapture Sample.frame2) s with
      | Some s' =>
          capturedImage (cells s') = Some Sample.frame2 /\
          stream (cells s') = None /\
          isCameraActive (cells s') = false /\
          faceDetectedByAI (cells s') = true /\
          Captured (cells s') = false /\
          ReadyForName (cells s') = true /\
          ~ In Sample.frame2 (classified (world s'))
      | None => False
      end
  | None => False
  end.
Proof.
  vm_compute. repeat split. intros [Heq|[]]. discriminate Heq.
Qed.

(** *** The theorems at sample configurations *)

(** Retake on the captured frame. *)
Lemma retakeImage_clears_session_witness :
  mounted (host (Sample.after Sample.to_captured)) = true /\
  Retake_enabled (cells (Sample.after Sample.to_captured)) = true /\
  exists s',
    Sample.step' ClickRetake (Sample.after Sample.to_captured) = Some s' /\
    capturedImage (cells s') = None /\
    recognizedName (cells s') = "" /\
    faceDetectedByAI (cells s') = false.
Proof.
  split; [reflexivity|]. split; [reflexivity|].
  apply (retakeImage_clears_session (engine := Sample.engine));
    reflexivity.
Defined.


(** The write for "Alice" fails: the name stays, Say My Name does not
    come back, Retake is enabled. *)
Lemma failed_write_keeps_image_gate_and_name_witness :
  mounted (host (Sample.after Sample.to_logging)) = true /\
  writes (world (Sample.after Sample.to_logging))
  = [{| personName := "Alice"; image := Sample.frame1;
        loggedByUserId := "user-1" |}] /\
  exists s',
    Sample.step' (WriteFailed (Error "The store is offline"))
      (Sample.after Sample.to_logging) = Some s' /\
    message (cells s')
    = "Error logging attendance: The store is offline." /\
    capturedImage (cells s') = Some Sample.frame1 /\
    faceDetectedByAI (cells s') = true /\
    recognizedName (cells s') = "Alice" /\
    ReadyForName (cells s') = false /\
    Retake_enabled (cells s') = true.
Proof.
  split; [reflexivity|]. split; [reflexivity|].
  destruct (failed_write_keeps_image_gate_and_name (engine := Sample.engine)
              Sample.key true true true (Sample.after Sample.to_logging)
              {| personName := "Alice"; image := Sample.frame1;
                 loggedByUserId := "user-1" |} []
              (Error "The store is offline") eq_refl eq_refl)
    as (s' & Hstep & Hmsg & _ & Himg & Hgate & Hname & _ & Hready & Hretake).
  exists s'. repeat split; assumption.
Defined.

(** Capture with the camera on. *)
Lemma captureImage_keeps_the_gate_witness :
  mounted (host (Sample.after Sample.to_camera)) = true /\
  CameraActive (cells (Sample.after Sample.to_camera)) = true /\
  exists s',
    Sample.step' (ClickCapture Sample.frame1) (Sample.after Sample.to_camera)
    = Some s' /\
    capturedImage (cells s') = Some Sample.frame1 /\
    stream (cells s') = None /\
    isCameraActive (cells s') = false /\
    liveStreams (world s') = [] /\
    Captured (cells s') = true.
Proof.
  split; [reflexivity|]. split; [reflexivity|].
  destruct (captureImage_keeps_the_gate (engine := Sample.engine)
              Sample.key true true true (Sample.after Sample.to_camera)
              Sample.frame1 eq_refl eq_refl)
    as (s' & Hstep & Himg & Hstream & Hcam & _ & _ & _ & _ & _ & Hcaptured).
  exists s'. repeat split; try assumption.
  vm_compute in Hstep. inversion Hstep. reflexivity.
Defined.

(** The camera is denied to the freshly mounted component. *)
Lemma startCamera_denied_stays_Idle_witness :
  mounted (host Sample.mount') = true /\
  stream (cells Sample.mount') = None /\
  isCameraActive (cells Sample.mount') = false /\
  capturedImage (cells Sample.mount') = None /\
  exists s',
    Sample.run' [ClickStartCamera; MediaDenied] Sample.mount' = Some s' /\
    Idle (cells s') = true /\
    stream (cells s') = None /\
    liveStreams (world s') = [].
Proof.
  do 4 (split; [reflexivity|]).
  destruct (startCamera_denied_stays_Idle (engine := Sample.engine)
              Sample.key true true true Sample.mount'
              eq_refl eq_refl eq_refl eq_refl)
    as (s' & Hrun & Hidle & Hstream & _ & _ & _ & Hlive & _).
  exists s'. repeat split; assumption.
Defined.

(** The one request of a patient run is denied. *)
Lemma patient_denial_stays_Idle_witness :
  Sample.patient_run' Sample.to_requesting Sample.mount'
  = Some (Sample.after Sample.to_requesting) /\
  mounted (host (Sample.after Sample.to_requesting)) = true /\
  exists s',
    Sample.step' MediaDenied (Sample.after Sample.to_requesting) = Some s' /\
    Idle (cells s') = true /\
    stream (cells s') = None /\
    liveStreams (world s') = [] /\
    cameraRequests (world s') = 0.
Proof.
  assert (Hrun : Sample.patient_run' Sample.to_requesting Sample.mount'
                 = Some (Sample.after Sample.to_requesting))
    by (vm_compute; reflexivity).
  assert (Hm : mounted (host (Sample.after Sample.to_requesting)) = true)
    by (vm_compute; reflexivity).
  split; [exact Hrun|]. split; [exact Hm|].
  destruct (Sample.step' MediaDenied (Sample.after Sample.to_requesting))
    as [s'|] eqn:Hstep; [|vm_compute in Hstep; discriminate Hstep].
  exists s'. split; [reflexivity|].
  destruct (patient_denial_stays_Idle (engine := Sample.engine)
              Sample.key true true true Sample.to_requesting
              (Sample.after Sample.to_requesting) s' Hrun Hm Hstep)
    as (Hidle & Hstream & Hlive & _ & _ & Hreq & _).
  repeat split; assumption.
Defined.

(** Two classifications of the captured frame by a classifier that sees
    no face. *)
Lemma negative_classification_is_idempotent_witness :
  mounted (host (Sample.after Sample.to_captured)) = true /\
  Captured (cells (Sample.after Sample.to_captured)) = true /\
  capturedImage (cells (Sample.after Sample.to_captured))
  = Some Sample.frame1 /\
  aiCalls (world (Sample.after Sample.to_captured)) = [] /\
  (forall r,
      Gemini.processImageWithAI (engine := Sample.engine) Sample.key
        (fun _ => Sample.no_face) Sample.frame1 = Normal r ->
      face_confirmed r = false) /\
  exists s1,
    Sample.run' [ClickProcess; ClassifierReplied Sample.no_face]
      (Sample.after Sample.to_captured) = Some s1 /\
    Captured (cells s1) = true /\
    store (world s1) = [] /\
    Sample.run' [ClickProcess; ClassifierReplied Sample.no_face] s1 = Some s1.
Proof.
  assert (Hnegative : forall r,
      Gemini.processImageWithAI (engine := Sample.engine) Sample.key
        (fun _ => Sample.no_face) Sample.frame1 = Normal r ->
      face_confirmed r = false).
  { intros r Hr. vm_compute in Hr. inversion Hr. reflexivity. }
  do 4 (split; [reflexivity|]). split; [exact Hnegative|].
  destruct (negative_classification_is_idempotent (engine := Sample.engine)
              Sample.key true true true (Sample.after Sample.to_captured)
              Sample.frame1 Sample.no_face
              eq_refl eq_refl eq_refl eq_refl Hnegative)
    as (s1 & Hrun & Hcaptured & _ & _ & _ & Hstore & _ & Hagain).
  exists s1. repeat split; assumption.
Defined.

(** The documents of the run that ends with the write for "Alice" in
    flight. *)
Lemma written_documents_are_complete_witness :
  reachable (engine := Sample.engine) Sample.key true true true
    (Sample.after Sample.to_logging) /\
  documents_complete (Sample.after Sample.to_logging).
Proof.
  assert (Hreach : reachable (engine := Sample.engine) Sample.key true true
                     true (Sample.after Sample.to_logging)).
  { exists Sample.to_logging. vm_compute. reflexivity. }
  split; [exact Hreach|].
  exact (written_documents_are_complete (engine := Sample.engine)
           Sample.key true true true (Sample.after Sample.to_logging) Hreach).
Defined.

(** The write for "Alice", issued at the end of a patient run. *)
Lemma patient_write_call_witness :
  Sample.patient_run' Sample.to_listening Sample.mount'
  = Some (Sample.after Sample.to_listening) /\
  Sample.step' (SpeechResult "Alice") (Sample.after Sample.to_listening)
  = Some (Sample.after Sample.to_logging) /\
  writes (world (Sample.after Sample.to_logging))
  = (writes (world (Sample.after Sample.to_listening))
     ++ [{| personName := "Alice"; image := Sample.frame1;
            loggedByUserId := "user-1" |}])%list /\
  faceDetectedByAI (cells (Sample.after Sample.to_listening)) = true /\
  capturedImage (cells (Sample.after Sample.to_listening))
  = Some Sample.frame1 /\
  In Sample.frame1 (classified (world (Sample.after Sample.to_listening))).
Proof.
  assert (Hrun : Sample.patient_run' Sample.to_listening Sample.mount'
                 = Some (Sample.after Sample.to_listening))
    by (vm_compute; reflexivity).
  assert (Hstep : Sample.step' (SpeechResult "Alice")
                    (Sample.after Sample.to_listening)
                  = Some (Sample.after Sample.to_logging))
    by (vm_compute; reflexivity).
  assert (Hgrew : writes (world (Sample.after Sample.to_logging))
                  = (writes (world (Sample.after Sample.to_listening))
                     ++ [{| personName := "Alice"; image := Sample.frame1;
                            loggedByUserId := "user-1" |}])%list)
    by (vm_compute; reflexivity).
  split; [exact Hrun|]. split; [exact Hstep|]. split; [exact Hgrew|].
  destruct (patient_write_call (engine := Sample.engine)
              Sample.key true true true Sample.to_listening
              (Sample.after Sample.to_listening)
              (Sample.after Sample.to_logging) "Alice"
              {| personName := "Alice"; image := Sample.frame1;
                 loggedByUserId := "user-1" |} Hrun Hstep Hgrew)
    as (Hgate & Himg & Hclassified & _).
  split; [exact Hgate|]. split; [exact Himg|exact Hclassified].
Defined.

(** The streams at the end of the patient run that turns the camera
    on. *)
Lemma patient_runs_hold_one_stream_witness :
  Sample.patient_run' Sample.to_camera Sample.mount'
  = Some (Sample.after Sample.to_camera) /\
  List.length (liveStreams (world (Sample.after Sample.to_camera))) <= 1 /\
  (cameraRequests (world (Sample.after Sample.to_camera)) <> 0 ->
   liveStreams (world (Sample.after Sample.to_camera)) = []).
Proof.
  assert (Hrun : Sample.patient_run' Sample.to_camera Sample.mount'
                 = Some (Sample.after Sample.to_camera))
    by (vm_compute; reflexivity).
  split; [exact Hrun|].
  exact (patient_runs_hold_one_stream (engine := Sample.engine)
           Sample.key true true true Sample.to_camera
           (Sample.after Sample.to_camera) Hrun).
Defined.

(** Capture at the end of the patient run that turns the camera on. *)
Lemma patient_capture_reaches_Captured_witness :
  Sample.patient_run' Sample.to_camera Sample.mount'
  = Some (Sample.after Sample.to_camera) /\
  mounted (host (Sample.after Sample.to_camera)) = true /\
  CameraActive (cells (Sample.after Sample.to_camera)) = true /\
  Sample.frame1 <> "" /\
  exists s',
    Sample.step' (ClickCapture Sample.frame1) (Sample.after Sample.to_camera)
    = Some s' /\
    capturedImage (cells s') = Some Sample.frame1 /\
    liveStreams (world s') = [] /\
    faceDetectedByAI (cells s') = false /\
    Captured (cells s') = true.
Proof.
  assert (Hrun : Sample.patient_run' Sample.to_camera Sample.mount'
                 = Some (Sample.after Sample.to_camera))
    by (vm_compute; reflexivity).
  assert (Hframe : Sample.frame1 <> "") by discriminate.
  split; [exact Hrun|]. do 2 (split; [reflexivity|]). split; [exact Hframe|].
  destruct (patient_capture_reaches_Captured (engine := Sample.engine)
              Sample.key true true true Sample.to_camera
              (Sample.after Sample.to_camera) Sample.frame1 Hrun
              eq_refl eq_refl Hframe)
    as (s' & Hstep & Himg & _ & _ & Hlive & Hgate & Hcaptured).
  exists s'. repeat split; assumption.
Defined.

End WebcamCaptureFacts.

(* ================================================================== *)
(** ** More properties of the capture workflow                       *)
(* ================================================================== *)

Module WorkflowRunsFacts.
Import JS WebcamCapture WorkflowRuns WebcamCaptureFacts.
Local Open Scope pipe_scope.

Create HintDb runs.

#[local] Hint Unfold startCamera startCamera_catch startCamera_resume
  stopCamera captureImage handleProcessImage handleProcessImage_resume
  startVoiceInput recognition_start retakeImage onerror onend cleanup
  stop_tracks open_stream detach onresult logAttendance
  logAttendance_resolved logAttendance_rejected : runs.

(** Establish [sourced] field by field. *)
Ltac sources :=
  constructor; cbn; intros;
  repeat match goal with
         | H : Some _ = Some _ |- _ => inversion H; clear H; subst
         | H : _ \/ _ |- _ => destruct H
         | H : (_, _) = (_, _) |- _ => inversion H; clear H; subst
         | H : In _ (_ ++ _) |- _ => apply in_app_or in H
         | H : In _ (_ :: _) |- _ => cbn in H
         | H : In _ [] |- _ => destruct H
         | H : Forall _ (_ :: _) |- _ => inversion H; clear H; subst
         | |- Forall _ (_ ++ _) => apply Forall_app; split
         | |- Forall _ (_ :: _) => constructor
         | |- Forall _ [] => constructor
         end;
  try discriminate; try contradiction; try assumption; try congruence;
  try solve [ eauto
            | match goal with
              | H : forall x, _ -> _ |- _ =>
                  eapply H; solve [congruence | cbn; eauto]
              end ].

Section Component.
Context {engine : Engine}.
Variable API_KEY : string.
Variables db webkitSpeechRecognition mediaDevices : bool.

Local Notation step := (step API_KEY db webkitSpeechRecognition mediaDevices).
Local Notation run := (run API_KEY db webkitSpeechRecognition mediaDevices).
Local Notation commit := (commit webkitSpeechRecognition).
Local Notation handle := (handle API_KEY db mediaDevices).
Local Notation patient_run :=
  (patient_run API_KEY db webkitSpeechRecognition mediaDevices).

(** *** Where user ids and images come from *)

Section Sources.
Variables U F : string -> Prop.

Lemma logAttendance_sourced closure nameToLog (s : Config) :
  closure_from U F closure -> sourced U F s ->
  sourced U F (logAttendance db closure nameToLog s).
Proof.
  intros [Hu Hf] [Huid Himg Hrec Hsess Hai Hcl Hwr Hst].
  unfold logAttendance. case_split; constructor; cbn; try assumption.
  apply Forall_app; split; [assumption|].
  constructor; [|constructor]. split; cbn; auto.
Qed.

Lemma handle_sourced e (s s' : Config) :
  (forall uid, e = AuthStateChanged (Some uid) -> U uid) ->
  (forall frame, e = ClickCapture frame -> F frame) ->
  sourced U F s -> handle e s = Some s' -> sourced U F s'.
Proof.
  intros HU HF Hs Hhandle.
  assert (Hs' := Hs). destruct Hs' as [Huid Himg Hrec Hsess Hai Hcl Hwr Hst].
  destruct e; cbn in Hhandle; split_hyp Hhandle; try discriminate;
    inversion Hhandle; subst s'; clear Hhandle.
  all: try (unfold onresult; apply logAttendance_sourced).
  all: autounfold with runs; cbn.
  all: case_split.
  all: try solve [sources].
Qed.

Lemma commit_sourced (old s : Config) :
  sourced U F s -> sourced U F (commit old s).
Proof.
  intros [Huid Himg Hrec Hsess Hai Hcl Hwr Hst].
  unfold WebcamCapture.commit, cleanup, speech_effect, stop_tracks.
  case_split; sources.
  all: split; cbn; assumption.
Qed.

Lemma after_removal_sourced (old s : Config) :
  sourced U F old -> sourced U F s -> sourced U F (after_removal old s).
Proof.
  intros [_ Himg _ _ _ _ _ _] [Huid _ Hrec Hsess Hai Hcl Hwr Hst].
  constructor; cbn; assumption.
Qed.

Lemma step_sourced e (s s' : Config) :
  (forall uid, e = AuthStateChanged (Some uid) -> U uid) ->
  (forall frame, e = ClickCapture frame -> F frame) ->
  sourced U F s -> step e s = Some s' -> sourced U F s'.
Proof.
  intros HU HF Hs Hstep. unfold WebcamCapture.step in Hstep.
  destruct (mounted (host s)).
  - destruct (handle e s) as [s0|] eqn:Hhandle.
    + pose proof (handle_sourced e s s0 HU HF Hs Hhandle) as Hs0.
      destruct e; cbn in Hstep; inversion Hstep; subst s';
        try apply commit_sourced; exact Hs0.
    + destruct e; cbn in Hstep; discriminate.
  - destruct e; try discriminate;
      (destruct (handle _ s) as [s0|] eqn:Hhandle; [|discriminate]);
      inversion Hstep; subst s';
      apply after_removal_sourced; try exact Hs;
      match type of Hhandle with
      | WebcamCapture.handle _ _ _ ?ev _ = _ =>
          apply (handle_sourced ev s s0); try assumption; discriminate
      end.
Qed.

Lemma run_sourced es (s s' : Config) :
  (forall uid, In (AuthStateChanged (Some uid)) es -> U uid) ->
  (forall frame, In (ClickCapture frame) es -> F frame) ->
  sourced U F s -> run es s = Some s' -> sourced U F s'.
Proof.
  revert s. induction es as [|e es IH]; intros s HU HF Hs Hrun; cbn in Hrun.
  - now inversion Hrun; subst.
  - destruct (step e s) as [s1|] eqn:Hstep; [|discriminate].
    apply (IH s1); [| | |exact Hrun].
    + intros uid Hin. apply HU. now right.
    + intros frame Hin. apply HF. now right.
    + apply (step_sourced e s); [| |exact Hs|exact Hstep].
      * intros uid ->. apply HU. now left.
      * intros frame ->. apply HF. now left.
Qed.

Lemma mount_sourced : sourced U F (mount webkitSpeechRecognition).
Proof.
  unfold mount, speech_effect. case_split; sources.
  all: split; cbn; intros; discriminate.
Qed.


End Sources.

Lemma signed_in_complete es uid :
  In (AuthStateChanged (Some uid)) es -> In uid (signed_in es).
Proof.
  induction es as [|e es IH]; [intros []|].
  intros [->|Hin]; [now left|].
  specialize (IH Hin). destruct e as [| | | | | | | | | | | | |[u|]|]; cbn; auto.
Qed.

Lemma captured_frames_complete es frame :
  In (ClickCapture frame) es -> In frame (captured_frames es).
Proof.
  induction es as [|e es IH]; [intros []|].
  intros [->|Hin]; [now left|].
  specialize (IH Hin). destruct e; cbn; auto.
Qed.

Lemma run_sources es (s : Config) :
  run es (mount webkitSpeechRecognition) = Some s ->
  sourced (fun uid => In uid (signed_in es))
          (fun img => In img (captured_frames es)) s.
Proof.
  intros Hrun.
  apply (run_sourced _ _ es (mount webkitSpeechRecognition) s);
    [| |apply mount_sourced|exact Hrun].
  - apply signed_in_complete.
  - apply captured_frames_complete.
Qed.

(** X7: every document handed to [addDoc], stored or still in flight, is
    logged under a user id the authentication listener delivered earlier
    in the run; while none has been delivered nothing is written. *)
Theorem written_user_ids_were_signed_in es (s : Config) :
  run es (mount webkitSpeechRecognition) = Some s ->
  Forall (fun d => In (loggedByUserId d) (signed_in es)) (writes (world s)) /\
  Forall (fun r => In (loggedByUserId (document r)) (signed_in es))
    (store (world s)) /\
  (signed_in es = [] -> writes (world s) = [] /\ store (world s) = []).
Proof.
  intros Hrun. destruct (run_sources es s Hrun) as [_ _ _ _ _ _ Hwr Hst].
  repeat split.
  - eapply Forall_impl; [|exact Hwr]. now intros d [Hu _].
  - eapply Forall_impl; [|exact Hst]. now intros r [Hu _].
  - destruct (writes (world s)) as [|d l]; [reflexivity|].
    inversion Hwr as [|? ? [Hu _] _]; subst. rewrite H in Hu. destruct Hu.
  - destruct (store (world s)) as [|r l]; [reflexivity|].
    inversion Hst as [|? ? [Hu _] _]; subst. rewrite H in Hu. destruct Hu.
Qed.

(** X8: every image the component sends to the classifier, and every
    image in a document written or stored, is a frame captured earlier in
    the run. *)
Theorem written_images_were_captured es (s : Config) :
  run es (mount webkitSpeechRecognition) = Some s ->
  Forall (fun img => In img (captured_frames es)) (aiCalls (world s)) /\
  Forall (fun d => In (image d) (captured_frames es)) (writes (world s)) /\
  Forall (fun r => In (image (document r)) (captured_frames es))
    (store (world s)).
Proof.
  intros Hrun. destruct (run_sources es s Hrun) as [_ _ _ _ Hai _ Hwr Hst].
  repeat split.
  - exact Hai.
  - eapply Forall_impl; [|exact Hwr]. now intros d [_ Hf].
  - eapply Forall_impl; [|exact Hst]. now intros r [_ Hf].
Qed.
(** *** A browser without speech recognition *)

Lemma handle_silent e (s s' : Config) :
  silent s -> handle e s = Some s' -> silent s'.
Proof.
  intros [Hrec Hsess Hlis Hwr Hst] Hhandle.
  destruct e; cbn in Hhandle; rewrite ?Hsess, ?Hwr in Hhandle;
    split_hyp Hhandle; try discriminate;
    inversion Hhandle; subst s'; clear Hhandle.
  all: autounfold with runs; cbn; rewrite ?Hrec; case_split;
    constructor; cbn; congruence.
Qed.

Lemma commit_silent (old s : Config) :
  webkitSpeechRecognition = false -> silent s -> silent (commit old s).
Proof.
  intros -> [Hrec Hsess Hlis Hwr Hst].
  unfold WebcamCapture.commit, cleanup, speech_effect, stop_tracks.
  case_split; constructor; cbn; assumption.
Qed.

Lemma step_silent e (s s' : Config) :
  webkitSpeechRecognition = false ->
  silent s -> step e s = Some s' -> silent s'.
Proof.
  intros Hno Hs Hstep. unfold WebcamCapture.step in Hstep.
  destruct (mounted (host s)).
  - destruct (handle e s) as [s0|] eqn:Hhandle.
    + pose proof (handle_silent e s s0 Hs Hhandle) as Hs0.
      destruct e; cbn in Hstep; inversion Hstep; subst s';
        try apply (commit_silent _ _ Hno); exact Hs0.
    + destruct e; cbn in Hstep; discriminate.
  - destruct e; try discriminate;
      (destruct (handle _ s) as [s0|] eqn:Hhandle; [|discriminate]);
      inversion Hstep; subst s';
      destruct (handle_silent _ s s0 Hs Hhandle) as [Hrec Hsess _ Hwr Hst];
      destruct Hs as [_ _ Hlis _ _];
      constructor; cbn; assumption.
Qed.

Lemma run_silent es (s s' : Config) :
  webkitSpeechRecognition = false ->
  silent s -> run es s = Some s' -> silent s'.
Proof.
  intros Hno. revert s.
  induction es as [|e es IH]; intros s Hs Hrun; cbn in Hrun.
  - now inversion Hrun; subst.
  - destruct (step e s) as [s1|] eqn:Hstep; [|discriminate].
    apply (IH s1); [|exact Hrun]. now apply (step_silent e s).
Qed.

Lemma mount_silent :
  webkitSpeechRecognition = false -> silent (mount webkitSpeechRecognition).
Proof. intros ->. now constructor. Qed.

(** X9: in a browser without [webkitSpeechRecognition] the component
    never has a recognizer, never listens, and never writes: whatever the
    user does, no attendance is logged. *)
Theorem without_speech_recognition_nothing_is_logged es (s : Config) :
  webkitSpeechRecognition = false ->
  run es (mount webkitSpeechRecognition) = Some s ->
  speechRecognition (host s) = None /\
  sessions (world s) = [] /\
  isListeningForName (cells s) = false /\
  writes (world s) = [] /\ store (world s) = [].
Proof.
  intros Hno Hrun.
  destruct (run_silent es _ s Hno (mount_silent Hno) Hrun)
    as [Hrec Hsess Hlis Hwr Hst].
  now repeat split.
Qed.

(** *** Calls in flight *)

(** X10: in a patient run at most one camera request, one classification
    call, one write and one recognizer are in flight, a classification and
    a write never together; and while a classification or a write is in
    flight [isProcessing] is set, which takes Process with AI and Say My
    Name off the screen and disables Retake. *)
Theorem patient_runs_have_one_call_in_flight es (s : Config) :
  patient_run es (mount webkitSpeechRecognition) = Some s ->
  mounted (host s) = true ->
  cameraRequests (world s) <= 1 /\
  List.length (aiCalls (world s)) <= 1 /\
  List.length (writes (world s)) <= 1 /\
  List.length (sessions (world s)) <= 1 /\
  (aiCalls (world s) = [] \/ writes (world s) = []) /\
  (aiCalls (world s) <> [] \/ writes (world s) <> [] ->
   isProcessing (cells s) = true /\
   shows_Process (cells s) = false /\
   shows_SayMyName (cells s) = false /\
   Retake_enabled (cells s) = false).
Proof.
  intros Hrun Hm.
  destruct (patient_run_orderly API_KEY db webkitSpeechRecognition mediaDevices
              es _ s (mount_orderly webkitSpeechRecognition) Hrun)
    as [_ Hui].
  destruct (Hui Hm) as [[Hone _ _ _ Hcls Hwr _ Hsess _] _].
  assert (Hbusy : aiCalls (world s) <> [] \/ writes (world s) <> [] ->
                  isProcessing (cells s) = true).
  { intros [Ha|Hw]; [now destruct (Hcls Ha)|now destruct (Hwr Hw)]. }
  repeat split; try assumption.
  - destruct (aiCalls (world s)) as [|img l] eqn:Hai; [cbn; lia|].
    destruct (Hcls ltac:(discriminate)) as (_ & (img' & Heq & _) & _).
    inversion Heq; subst. cbn; lia.
  - destruct (writes (world s)) as [|d l] eqn:Hw; [cbn; lia|].
    now destruct (Hwr ltac:(discriminate)) as (_ & Hlen & _).
  - destruct (aiCalls (world s)) as [|img l] eqn:Hai; [now left|].
    right. now destruct (Hcls ltac:(discriminate)) as (_ & _ & Hw & _).
  - now apply Hbusy.
  - unfold shows_Process. rewrite (Hbusy H). cbn.
    now rewrite andb_false_r.
  - unfold shows_SayMyName. rewrite (Hbusy H). cbn.
    now rewrite !andb_false_r.
  - unfold Retake_enabled. rewrite (Hbusy H). cbn.
    now rewrite andb_false_r.
Qed.

(** *** Voice input that fails *)

(** X11: in a patient run, when the recognizer that is listening reports
    an error, the message names the error and the session is back in
    Ready-For-Name with the image and the gate kept: Say My Name is on
    screen again. *)
Theorem speech_error_returns_to_ReadyForName es (s : Config) code r rest :
  patient_run es (mount webkitSpeechRecognition) = Some s ->
  mounted (host s) = true ->
  sessions (world s) = (r, false) :: rest ->
  exists s',
    step (SpeechError code) s = Some s' /\
    message (cells s') = "Voice input error: " ++ code ++ ". Please try again." /\
    capturedImage (cells s') = capturedImage (cells s) /\
    faceDetectedByAI (cells s') = true /\
    isListeningForName (cells s') = false /\
    ReadyForName (cells s') = true.
Proof.
  intros Hrun Hm Hsessions.
  destruct (patient_run_orderly API_KEY db webkitSpeechRecognition mediaDevices
              es _ s (mount_orderly webkitSpeechRecognition) Hrun)
    as [_ Hui].
  destruct (Hui Hm) as [[_ _ _ Hbusy _ _ Hhear _ _] _].
  destruct (Hhear r) as (Hl & Hg & Hp & Hai & Hw & _);
    [rewrite Hsessions; now left|].
  assert (Hproc : isProcessing (cells s) = false).
  { destruct (isProcessing (cells s)); [|reflexivity].
    destruct (Hbusy eq_refl) as [Hb|Hb]; now elim Hb. }
  unfold WebcamCapture.step. rewrite Hm. cbn. rewrite Hsessions. cbn.
  eexists; split; [reflexivity|].
  unfold WebcamCapture.commit, onerror. cbn.
  rewrite Hl, option_eqb_nat_refl. cbn.
  unfold cleanup, stop_tracks, ReadyForName, shows_SayMyName.
  destruct (stream (cells s)); cbn;
    (rewrite LogClosure_eqb_same by reflexivity);
    cbn; rewrite ?Hg, ?Hp, ?Hproc; repeat split; reflexivity.
Qed.

(** *** Removal of the component *)

(** X12: in a patient run, removing the component stops the stream it
    holds: no media stream is left live. *)
Theorem unmount_releases_the_camera es (s : Config) :
  patient_run es (mount webkitSpeechRecognition) = Some s ->
  mounted (host s) = true ->
  exists s',
    step Unmount s = Some s' /\
    mounted (host s') = false /\
    liveStreams (world s') = [].
Proof.
  intros Hrun Hm.
  destruct (patient_run_streams API_KEY db webkitSpeechRecognition mediaDevices
              es _ s (mount_orderly webkitSpeechRecognition)
              (mount_streams webkitSpeechRecognition) Hrun)
    as [Hfew _ _ Hheld].
  destruct (Hheld Hm) as (_ & _ & Hlive & _).
  unfold WebcamCapture.step. rewrite Hm. cbn.
  eexists; split; [reflexivity|]. split; [reflexivity|].
  unfold cleanup, stop_tracks.
  destruct (liveStreams (world s)) as [|sid [|? ?]] eqn:Hl;
    [| |exfalso; cbn in Hfew; lia].
  - destruct (stream (cells s)); cbn; rewrite ?Hl; reflexivity.
  - rewrite (Hlive sid (or_introl eq_refl)). cbn. rewrite ?Hl. cbn.
    now rewrite Nat.eqb_refl.
Qed.

Lemma removed_step_streams e (s s1 : Config) :
  mounted (host s) = false ->
  step e s = Some s1 ->
  mounted (host s1) = false /\
  exists opened,
    liveStreams (world s1) = (opened ++ liveStreams (world s))%list /\
    List.length opened = grants [e].
Proof.
  intros Hm Hstep. unfold WebcamCapture.step in Hstep. rewrite Hm in Hstep.
  destruct e; try discriminate;
    cbn in Hstep; split_hyp Hstep; try discriminate;
    inversion Hstep; subst s1; clear Hstep.
  all: autounfold with runs.
  all: try match goal with
           | |- context [Gemini.processImageWithAI ?k ?f ?i] =>
               destruct (Gemini.processImageWithAI k f i) as [? |?]
           end.
  all: case_split; cbn; (split; [exact Hm|]).
  all: first [now exists [] | now eexists [_]].
Qed.

(** X13: once the component is removed nothing stops a media stream: each
    camera request granted afterwards opens a stream that stays live. *)
Theorem streams_opened_after_unmount_stay_live es (s s' : Config) :
  mounted (host s) = false ->
  run es s = Some s' ->
  mounted (host s') = false /\
  exists opened,
    liveStreams (world s') = (opened ++ liveStreams (world s))%list /\
    List.length opened = grants es.
Proof.
  revert s. induction es as [|e es IH]; intros s Hm Hrun; cbn in Hrun.
  - inversion Hrun; subst. split; [exact Hm|]. now exists [].
  - destruct (step e s) as [s1|] eqn:Hstep; [|discriminate].
    destruct (removed_step_streams e s s1 Hm Hstep)
      as (Hm1 & first & Hlive1 & Hlen1).
    destruct (IH s1 Hm1 Hrun) as [Hm' [opened [Hlive Hlen]]].
    split; [exact Hm'|].
    exists (opened ++ first)%list. split.
    + now rewrite Hlive, Hlive1, app_assoc.
    + rewrite length_app, Hlen, Hlen1. cbn. destruct e; lia.
Qed.

(** *** From the classifier's reply to the gate *)

Lemma strict_eq_string_true v lit :
  strict_eq_string v lit = true <-> v = VStr lit.
Proof.
  split.
  - destruct v; cbn; try discriminate. intros H.
    apply String.eqb_eq in H. now subst.
  - intros ->. cbn. apply String.eqb_refl.
Qed.

Lemma get_twice v p x e : get v p = Normal x -> get v p <> Throw e.
Proof. congruence. Qed.

(** What [processImageWithAI] resolves to confirms a face exactly when
    the reply does. *)
Lemma processImageWithAI_confirms reply img a :
  Gemini.processImageWithAI API_KEY (fun _ => reply) img = Normal a ->
  face_confirmed a = true <-> API_KEY <> "" /\ confirms_face reply.
Proof.
  intros Ha. unfold face_confirmed. rewrite andb_true_iff.
  rewrite strict_eq_string_true.
  destruct (falsy_string API_KEY) eqn:Hkey.
  { unfold Gemini.processImageWithAI in Ha. rewrite Hkey in Ha.
    inversion Ha; subst a; cbn. split; [intros [? _]; discriminate|].
    intros [Hne _]. apply GeminiFacts.falsy_string_true in Hkey. contradiction. }
  assert (Hne : API_KEY <> "").
  { intros ->. discriminate. }
  rewrite (GeminiFacts.processImageWithAI_with_key _ _ _ Hkey) in Ha.
  assert (Hfail : forall x, Gemini.reports_failure x ->
            ~ (Gemini.status x = VStr "success" /\ Gemini.faceDetected x = true)).
  { intros x (Hst & _) [Hs _]. rewrite Hst in Hs. discriminate. }
  assert (Hcaught : forall e,
            ~ (Gemini.status (Gemini.error_result
                 ("AI processing failed: " ++ err_message e ++ "."))
               = VStr "success" /\ True)).
  { intros e [Hs _]. discriminate. }
  set (fetch := fun _ : Gemini.request => reply) in *.
  set (req := Gemini.request_for API_KEY img) in *.
  destruct reply as [r|e] eqn:Hreply.
  2: { unfold Gemini.try_body in Ha. cbn in Ha. inversion Ha; subst a.
       split; [intros [? _]; discriminate|].
       intros [_ (r & ? & ? & Hr & _)]. discriminate. }
  assert (Hfetch : fetch req = Normal r) by reflexivity.
  destruct (Gemini.resp_ok r) eqn:Hok.
  2: { unfold Gemini.try_body in Ha. rewrite Hfetch in Ha. cbn [bind] in Ha.
       rewrite Hok in Ha. cbn [negb] in Ha.
       pose proof (GeminiFacts.http_error_result_reports r) as Hrep.
       split.
       - intros Hyes. exfalso.
         destruct (Gemini.http_error_result r); inversion Ha; subst a.
         + now apply (Hfail _ Hrep).
         + destruct Hyes; discriminate.
       - intros [_ (r' & ? & ? & Hr & Hok' & _)]. inversion Hr; subst r'.
         congruence. }
  destruct (Gemini.reply_text r) as [text|] eqn:Htext.
  2: { pose proof (GeminiFacts.try_body_no_text _ _ _ Hfetch Hok Htext) as Hrep.
       split.
       - intros Hyes. exfalso.
         destruct (Gemini.try_body fetch req); inversion Ha; subst a.
         + now apply (Hfail _ Hrep).
         + destruct Hyes; discriminate.
       - intros [_ (r' & ? & ? & Hr & _ & Ht & _)]. inversion Hr; subst r'.
         congruence. }
  rewrite (GeminiFacts.try_body_text _ _ _ _ Hfetch Hok Htext) in Ha.
  unfold Gemini.interpret_text in Ha.
  destruct (JSON_parse (ToString text)) as [parsed|e] eqn:Hparse;
    cbn [bind] in Ha.
  2: { inversion Ha; subst a. split; [intros [? _]; discriminate|].
       intros [_ (r' & t' & p' & Hr & _ & Ht & Hp & _)].
       inversion Hr; subst r'. congruence. }
  destruct (get parsed "message") as [msg|e] eqn:Hmsg; cbn [bind] in Ha.
  2: { inversion Ha; subst a. split; [intros [? _]; discriminate|].
       intros [_ (r' & t' & p' & Hr & _ & Ht & Hp & _ & Hm)].
       inversion Hr; subst r'. congruence. }
  destruct (get parsed "status") as [st|e] eqn:Hst; cbn [bind] in Ha.
  2: { inversion Ha; subst a. split; [intros [? _]; discriminate|].
       intros [_ (r' & t' & p' & Hr & _ & Ht & Hp & Hs & _)].
       inversion Hr; subst r'. congruence. }
  inversion Ha; subst a; cbn. rewrite strict_eq_string_true. split.
  - intros [-> ->]. split; [exact Hne|].
    exists r, text, parsed. now repeat split.
  - intros [_ (r' & t' & p' & Hr & _ & Ht & Hp & Hs & Hm)].
    inversion Hr; subst r'. split; congruence.
Qed.

(** X14: when the classifier's reply comes back, [isProcessing] is
    cleared, and [faceDetectedByAI] is set exactly when a key is
    configured and the reply is an [ok] response whose text parses to an
    object with [status] ['success'] and [message] ['Face detected']; the
    pending writes and the store are untouched. *)
Theorem gate_opens_iff_reply_confirms (s : Config) reply img rest :
  mounted (host s) = true ->
  aiCalls (world s) = img :: rest ->
  exists s',
    step (ClassifierReplied reply) s = Some s' /\
    isProcessing (cells s') = false /\
    capturedImage (cells s') = capturedImage (cells s) /\
    writes (world s') = writes (world s) /\
    store (world s') = store (world s) /\
    (faceDetectedByAI (cells s') = true <->
     API_KEY <> "" /\ confirms_face reply).
Proof.
  intros Hm Hcalls. unfold WebcamCapture.step. rewrite Hm. cbn.
  rewrite Hcalls. cbn. eexists; split; [reflexivity|].
  match goal with
  | |- context [commit s ?x] =>
      destruct (commit_cells webkitSpeechRecognition s x)
        as (_ & _ & Hi & Hp & Hg & _);
      destruct (commit_world webkitSpeechRecognition s x)
        as (Hst & Hw & _)
  end.
  rewrite Hi, Hp, Hg, Hst, Hw. clear Hi Hp Hg Hst Hw.
  destruct (Gemini.processImageWithAI API_KEY (fun _ => reply) img)
    as [a|e] eqn:Ha.
  - pose proof (processImageWithAI_confirms reply img a Ha) as Hiff.
    unfold handleProcessImage_resume.
    destruct (face_confirmed a); cbn; repeat split; try reflexivity;
      try tauto; try discriminate.
  - destruct (GeminiFacts.processImageWithAI_resolves API_KEY
                (fun _ => reply) img) as [a Ha'].
    congruence.
Qed.

(** *** One attendance, start to end *)

Lemma run_step d w m e es (s s1 : Config) :
  WebcamCapture.step API_KEY d w m e s = Some s1 ->
  WebcamCapture.run API_KEY d w m (e :: es) s
  = WebcamCapture.run API_KEY d w m es s1.
Proof. intros Hstep. cbn. now rewrite Hstep. Qed.

(** Evaluate the handlers, leaving the tests on strings as they are. *)
Ltac evaluate :=
  cbv -[String.eqb falsy_string append Gemini.processImageWithAI
        face_confirmed].

(** Run the first event of a run, rewriting with [facts] where the
    evaluation stops. *)
Ltac one_step facts :=
  erewrite run_step;
  [|evaluate; repeat (progress facts; evaluate); reflexivity].

(** X15: with a store, a key, speech recognition and a camera, a
    signed-in user who starts the camera, captures a frame, has a face
    confirmed in it and says a name gets exactly one record stored, with
    that name, that frame and their user id; the camera is released and
    the session is back in Captured. *)
Theorem attendance_is_logged uid frame reply name :
  db = true -> webkitSpeechRecognition = true -> mediaDevices = true ->
  API_KEY <> "" -> confirms_face reply ->
  uid <> "" -> frame <> "" -> name <> "" ->
  exists s,
    run (attendance uid frame reply name) (mount webkitSpeechRecognition)
    = Some s /\
    store (world s)
    = [{| document := {| personName := name; image := frame;
                         loggedByUserId := uid |};
          timestamp := 0 |}] /\
    writes (world s) = [] /\
    liveStreams (world s) = [] /\
    message (cells s) = "Attendance logged successfully for " ++ name ++ "!" /\
    Captured (cells s) = true.
Proof.
  intros Hdb Hsr Hmedia Hkey Hreply Huid Hframe Hname.
  assert (Hcall : exists a,
            Gemini.processImageWithAI API_KEY (fun _ => reply) frame = Normal a
            /\ face_confirmed a = true).
  { destruct (GeminiFacts.processImageWithAI_resolves API_KEY
                (fun _ => reply) frame) as [a Ha].
    exists a; split; [exact Ha|].
    apply (processImageWithAI_confirms reply frame a Ha). now split. }
  destruct Hcall as [a [Ha Hface]].
  apply GeminiFacts.falsy_string_false in Huid, Hframe, Hname.
  rewrite Hdb, Hsr, Hmedia. clear Hdb Hsr Hmedia. unfold attendance.
  pose proof (String.eqb_refl uid) as Huu.
  pose proof (String.eqb_refl frame) as Hff.
  do 9 (one_step ltac:(rewrite ?Huid, ?Hframe, ?Hname, ?Ha, ?Hface,
                         ?Huu, ?Hff)).
  eexists; split; [reflexivity|]. cbn.
  unfold Captured, shows_Process, present. cbn. rewrite Hframe.
  repeat split.
Qed.

End Component.

(** *** The properties at sample runs *)

Lemma written_user_ids_were_signed_in_witness :
  Sample.run' Sample.to_logging Sample.mount'
  = Some (Sample.after Sample.to_logging) /\
  Forall (fun d => In (loggedByUserId d) (signed_in Sample.to_logging))
    (writes (world (Sample.after Sample.to_logging))) /\
  Forall (fun r => In (loggedByUserId (document r))
                     (signed_in Sample.to_logging))
    (store (world (Sample.after Sample.to_logging))) /\
  (signed_in Sample.to_logging = [] ->
   writes (world (Sample.after Sample.to_logging)) = [] /\
   store (world (Sample.after Sample.to_logging)) = []).
Proof.
  assert (Hrun : Sample.run' Sample.to_logging Sample.mount'
                 = Some (Sample.after Sample.to_logging))
    by (vm_compute; reflexivity).
  split; [exact Hrun|].
  exact (written_user_ids_were_signed_in (engine := Sample.engine)
           Sample.key true true true Sample.to_logging
           (Sample.after Sample.to_logging) Hrun).
Defined.

Lemma written_images_were_captured_witness :
  Sample.run' Sample.to_logging Sample.mount'
  = Some (Sample.after Sample.to_logging) /\
  Forall (fun img => In img (captured_frames Sample.to_logging))
    (aiCalls (world (Sample.after Sample.to_logging))) /\
  Forall (fun d => In (image d) (captured_frames Sample.to_logging))
    (writes (world (Sample.after Sample.to_logging))) /\
  Forall (fun r => In (image (document r))
                     (captured_frames Sample.to_logging))
    (store (world (Sample.after Sample.to_logging))).
Proof.
  assert (Hrun : Sample.run' Sample.to_logging Sample.mount'
                 = Some (Sample.after Sample.to_logging))
    by (vm_compute; reflexivity).
  split; [exact Hrun|].
  exact (written_images_were_captured (engine := Sample.engine)
           Sample.key true true true Sample.to_logging
           (Sample.after Sample.to_logging) Hrun).
Defined.

Lemma without_speech_recognition_nothing_is_logged_witness :
  run (engine := Sample.engine) Sample.key true false true
    MoreSamples.to_say_my_name (mount false)
  = Some (MoreSamples.after_without_speech MoreSamples.to_say_my_name) /\
  sessions (world (MoreSamples.after_without_speech
                     MoreSamples.to_say_my_name)) = [] /\
  writes (world (MoreSamples.after_without_speech
                   MoreSamples.to_say_my_name)) = [].
Proof.
  assert (Hrun : run (engine := Sample.engine) Sample.key true false true
                   MoreSamples.to_say_my_name (mount false)
                 = Some (MoreSamples.after_without_speech
                           MoreSamples.to_say_my_name))
    by (vm_compute; reflexivity).
  split; [exact Hrun|].
  destruct (without_speech_recognition_nothing_is_logged
              (engine := Sample.engine) Sample.key true false true
              MoreSamples.to_say_my_name
              (MoreSamples.after_without_speech MoreSamples.to_say_my_name)
              eq_refl Hrun)
    as (_ & Hsessions & _ & Hwrites & _).
  split; [exact Hsessions|exact Hwrites].
Defined.

Lemma patient_runs_have_one_call_in_flight_witness :
  Sample.patient_run' Sample.to_logging Sample.mount'
  = Some (Sample.after Sample.to_logging) /\
  mounted (host (Sample.after Sample.to_logging)) = true /\
  List.length (writes (world (Sample.after Sample.to_logging))) <= 1 /\
  (aiCalls (world (Sample.after Sample.to_logging)) = [] \/
   writes (world (Sample.after Sample.to_logging)) = []).
Proof.
  assert (Hrun : Sample.patient_run' Sample.to_logging Sample.mount'
                 = Some (Sample.after Sample.to_logging))
    by (vm_compute; reflexivity).
  assert (Hm : mounted (host (Sample.after Sample.to_logging)) = true)
    by (vm_compute; reflexivity).
  split; [exact Hrun|]. split; [exact Hm|].
  destruct (patient_runs_have_one_call_in_flight (engine := Sample.engine)
              Sample.key true true true Sample.to_logging
              (Sample.after Sample.to_logging) Hrun Hm)
    as (_ & _ & Hwrites & _ & Hapart & _).
  split; [exact Hwrites|exact Hapart].
Defined.

Lemma speech_error_returns_to_ReadyForName_witness :
  Sample.patient_run' Sample.to_listening Sample.mount'
  = Some (Sample.after Sample.to_listening) /\
  sessions (world (Sample.after Sample.to_listening))
  = [(MoreSamples.listening_recognizer, false)] /\
  exists s',
    Sample.step' (SpeechError "no-speech") (Sample.after Sample.to_listening)
    = Some s' /\
    message (cells s') = "Voice input error: no-speech. Please try again." /\
    ReadyForName (cells s') = true.
Proof.
  assert (Hrun : Sample.patient_run' Sample.to_listening Sample.mount'
                 = Some (Sample.after Sample.to_listening))
    by (vm_compute; reflexivity).
  assert (Hm : mounted (host (Sample.after Sample.to_listening)) = true)
    by (vm_compute; reflexivity).
  assert (Hsessions : sessions (world (Sample.after Sample.to_listening))
                      = [(MoreSamples.listening_recognizer, false)])
    by (vm_compute; reflexivity).
  split; [exact Hrun|]. split; [exact Hsessions|].
  destruct (speech_error_returns_to_ReadyForName (engine := Sample.engine)
              Sample.key true true true Sample.to_listening
              (Sample.after Sample.to_listening) "no-speech"
              MoreSamples.listening_recognizer [] Hrun Hm Hsessions)
    as (s' & Hstep & Hmessage & _ & _ & _ & Hready).
  exists s'. split; [exact Hstep|]. split; [exact Hmessage|exact Hready].
Defined.

Lemma unmount_releases_the_camera_witness :
  Sample.patient_run' Sample.to_camera Sample.mount'
  = Some (Sample.after Sample.to_camera) /\
  liveStreams (world (Sample.after Sample.to_camera)) = [0] /\
  exists s',
    Sample.step' Unmount (Sample.after Sample.to_camera) = Some s' /\
    liveStreams (world s') = [].
Proof.
  assert (Hrun : Sample.patient_run' Sample.to_camera Sample.mount'
                 = Some (Sample.after Sample.to_camera))
    by (vm_compute; reflexivity).
  assert (Hm : mounted (host (Sample.after Sample.to_camera)) = true)
    by (vm_compute; reflexivity).
  split; [exact Hrun|]. split; [vm_compute; reflexivity|].
  destruct (unmount_releases_the_camera (engine := Sample.engine)
              Sample.key true true true Sample.to_camera
              (Sample.after Sample.to_camera) Hrun Hm)
    as (s' & Hstep & _ & Hlive).
  exists s'. split; [exact Hstep|exact Hlive].
Defined.

Lemma streams_opened_after_unmount_stay_live_witness :
  mounted (host (Sample.after MoreSamples.removed_while_requesting)) = false /\
  Sample.run' [MediaGranted]
    (Sample.after MoreSamples.removed_while_requesting)
  = Some (Sample.after (MoreSamples.removed_while_requesting
                        ++ [MediaGranted])%list) /\
  exists opened,
    liveStreams (world (Sample.after (MoreSamples.removed_while_requesting
                                      ++ [MediaGranted])%list))
    = (opened ++ liveStreams
                   (world (Sample.after MoreSamples.removed_while_requesting)))%list
    /\ List.length opened = 1.
Proof.
  assert (Hm : mounted (host (Sample.after MoreSamples.removed_while_requesting))
               = false)
    by (vm_compute; reflexivity).
  assert (Hrun : Sample.run' [MediaGranted]
                   (Sample.after MoreSamples.removed_while_requesting)
                 = Some (Sample.after (MoreSamples.removed_while_requesting
                                       ++ [MediaGranted])%list))
    by (vm_compute; reflexivity).
  split; [exact Hm|]. split; [exact Hrun|].
  destruct (streams_opened_after_unmount_stay_live (engine := Sample.engine)
              Sample.key true true true [MediaGranted]
              (Sample.after MoreSamples.removed_while_requesting)
              (Sample.after (MoreSamples.removed_while_requesting
                             ++ [MediaGranted])%list) Hm Hrun)
    as (_ & opened & Hlive & Hlen).
  exists opened. split; [exact Hlive|exact Hlen].
Defined.

Lemma gate_opens_iff_reply_confirms_witness :
  mounted (host (Sample.after MoreSamples.to_classifying)) = true /\
  aiCalls (world (Sample.after MoreSamples.to_classifying)) = [Sample.frame1] /\
  exists s',
    Sample.step' (ClassifierReplied Sample.face_found)
      (Sample.after MoreSamples.to_classifying) = Some s' /\
    isProcessing (cells s') = false /\
    (faceDetectedByAI (cells s') = true <->
     Sample.key <> "" /\ confirms_face (engine := Sample.engine)
                           Sample.face_found).
Proof.
  assert (Hm : mounted (host (Sample.after MoreSamples.to_classifying)) = true)
    by (vm_compute; reflexivity).
  assert (Hcalls : aiCalls (world (Sample.after MoreSamples.to_classifying))
                   = [Sample.frame1])
    by (vm_compute; reflexivity).
  split; [exact Hm|]. split; [exact Hcalls|].
  destruct (gate_opens_iff_reply_confirms (engine := Sample.engine)
              Sample.key true true true
              (Sample.after MoreSamples.to_classifying) Sample.face_found
              Sample.frame1 [] Hm Hcalls)
    as (s' & Hstep & Hproc & _ & _ & _ & Hgate).
  exists s'. split; [exact Hstep|]. split; [exact Hproc|exact Hgate].
Defined.

Lemma attendance_is_logged_witness :
  exists s,
    Sample.run' (attendance "user-1" Sample.frame1 Sample.face_found "Alice")
      Sample.mount' = Some s /\
    store (world s)
    = [{| document := {| personName := "Alice"; image := Sample.frame1;
                         loggedByUserId := "user-1" |};
          timestamp := 0 |}].
Proof.
  assert (Hkey : Sample.key <> "") by discriminate.
  assert (Huid : "user-1" <> "") by discriminate.
  assert (Hframe : Sample.frame1 <> "") by discriminate.
  assert (Hname : "Alice" <> "") by discriminate.
  assert (Hreply : confirms_face (engine := Sample.engine) Sample.face_found).
  { exists {| Gemini.resp_ok := true; Gemini.resp_status := 200;
              Gemini.resp_statusText := "OK";
              Gemini.resp_json := Normal (Sample.envelope Sample.positive_text) |},
      (VStr Sample.positive_text),
      (Sample.reply_object "success" "Face detected").
    repeat split; vm_compute; reflexivity. }
  destruct (attendance_is_logged (engine := Sample.engine) Sample.key
              true true true "user-1" Sample.frame1 Sample.face_found "Alice"
              eq_refl eq_refl eq_refl Hkey Hreply Huid Hframe Hname)
    as (s & Hrun & Hstore & _).
  exists s. split; [exact Hrun|exact Hstore].
Defined.

End WorkflowRunsFacts.

(* ================================================================== *)
(** ** Properties of the key in the console and of the generators      *)
(* ================================================================== *)

Module GeminiTextFacts.
Import JS Gemini GeminiText.

(** *** Substrings *)

Lemma substring_all (s : string) :
  String.substring 0 (String.length s) s = s.
Proof. induction s as [|c s IH]; cbn; [reflexivity|now rewrite IH]. Qed.

Lemma substring_skip (n m : nat) (p s : string) :
  String.length p = n ->
  String.substring n m (p ++ s) = String.substring 0 m s.
Proof.
  revert n. induction p as [|c p IH]; intros n Hn; cbn in Hn; subst n.
  - reflexivity.
  - cbn. now apply IH.
Qed.

Lemma substring_prefix (p s : string) :
  String.substring 0 (String.length p) (p ++ s) = p.
Proof.
  induction p as [|c p IH]; cbn.
  - now destruct s.
  - now rewrite IH.
Qed.

(** A string splits at any position within it. *)
Lemma split_at (n : nat) (s : string) :
  n <= String.length s ->
  exists p q, s = p ++ q /\ String.length p = n.
Proof.
  revert s. induction n as [|n IH]; intros s Hn.
  - now exists "", s.
  - destruct s as [|c s]; cbn in Hn; [lia|].
    destruct (IH s ltac:(lia)) as (p & q & -> & Hp).
    exists (String c p), q. cbn. now rewrite Hp.
Qed.

Lemma length_append (p q : string) :
  String.length (p ++ q) = String.length p + String.length q.
Proof. induction p as [|c p IH]; cbn; [reflexivity|now rewrite IH]. Qed.

Lemma append_assoc (p q r : string) : (p ++ q) ++ r = p ++ (q ++ r).
Proof. induction p as [|c p IH]; cbn; [reflexivity|now rewrite IH]. Qed.

(** X16: a key of at most five characters is printed whole, twice, by
    the line that means to show only its ends. *)
Theorem short_key_is_logged_whole (API_KEY : string) :
  0 < String.length API_KEY <= 5 ->
  logged_API_KEY API_KEY = API_KEY ++ "..." ++ API_KEY.
Proof.
  intros [Hpos Hlen]. unfold logged_API_KEY.
  assert (Hkey : falsy_string API_KEY = false).
  { destruct API_KEY; [cbn in Hpos; lia|reflexivity]. }
  rewrite Hkey. cbn [negb].
  unfold substring_from, substring.
  set (len := String.length API_KEY) in *.
  replace (Z.min (Z.max 0 0) (Z.of_nat len)) with 0%Z by lia.
  replace (Z.min (Z.max 5 0) (Z.of_nat len)) with (Z.of_nat len) by lia.
  replace (Z.min (Z.max (Z.of_nat len - 5) 0) (Z.of_nat len)) with 0%Z by lia.
  replace (Z.min (Z.max (Z.of_nat len) 0) (Z.of_nat len))
    with (Z.of_nat len) by lia.
  replace (Z.min 0 (Z.of_nat len)) with 0%Z by lia.
  replace (Z.max 0 (Z.of_nat len)) with (Z.of_nat len) by lia.
  rewrite Z.sub_0_r, Nat2Z.id. cbn [Z.to_nat].
  unfold len. now rewrite substring_all.
Qed.

(** X17: of a key of ten characters or more the line prints the first
    five and the last five, and nothing of what lies between. *)
Theorem long_key_is_logged_by_its_ends (API_KEY : string) :
  10 <= String.length API_KEY ->
  exists first middle last,
    API_KEY = first ++ middle ++ last /\
    String.length first = 5 /\ String.length last = 5 /\
    logged_API_KEY API_KEY = first ++ "..." ++ last.
Proof.
  intros Hlen.
  destruct (split_at 5 API_KEY ltac:(lia)) as (first & rest & -> & Hfirst).
  rewrite length_append, Hfirst in Hlen.
  destruct (split_at (String.length rest - 5) rest ltac:(lia))
    as (middle & last & -> & Hmiddle).
  rewrite length_append in Hlen, Hmiddle.
  assert (Hlast : String.length last = 5) by lia.
  exists first, middle, last. repeat split; try assumption.
  unfold logged_API_KEY.
  assert (Hkey : falsy_string (first ++ middle ++ last) = false).
  { destruct first; [discriminate|reflexivity]. }
  rewrite Hkey. cbn [negb].
  unfold substring_from, substring.
  rewrite !length_append, Hfirst, Hlast.
  set (k := String.length middle) in *.
  replace (Z.min (Z.max 0 0) (Z.of_nat (5 + (k + 5)))) with 0%Z by lia.
  replace (Z.min (Z.max 5 0) (Z.of_nat (5 + (k + 5)))) with 5%Z by lia.
  replace (Z.min (Z.max (Z.of_nat (5 + (k + 5)) - 5) 0)
                 (Z.of_nat (5 + (k + 5))))
    with (Z.of_nat (5 + k)) by lia.
  replace (Z.min (Z.max (Z.of_nat (5 + (k + 5))) 0) (Z.of_nat (5 + (k + 5))))
    with (Z.of_nat (5 + (k + 5))) by lia.
  replace (Z.min 0 5) with 0%Z by lia.
  replace (Z.max 0 5) with 5%Z by lia.
  replace (Z.min (Z.of_nat (5 + k)) (Z.of_nat (5 + (k + 5))))
    with (Z.of_nat (5 + k)) by lia.
  replace (Z.max (Z.of_nat (5 + k)) (Z.of_nat (5 + (k + 5))))
    with (Z.of_nat (5 + (k + 5))) by lia.
  replace (Z.of_nat (5 + (k + 5)) - Z.of_nat (5 + k))%Z with 5%Z by lia.
  rewrite Nat2Z.id.
  change (Z.to_nat 0) with 0. change (Z.to_nat (5 - 0)) with 5.
  change (Z.to_nat 5) with 5.
  rewrite <- Hfirst at 1. rewrite substring_prefix.
  rewrite <- (append_assoc first middle last).
  rewrite (substring_skip (5 + k) 5 (first ++ middle) last)
    by (rewrite length_append; unfold k; lia).
  rewrite <- Hlast at 1. now rewrite substring_all.
Qed.

(** *** The image data in the request *)

Lemma split_comma_aux_no_comma (acc : string -> string) (s : string) :
  no_comma s = true -> split_comma_aux acc s = [acc s].
Proof.
  revert acc. induction s as [|c s IH]; intros acc Hs; cbn in *.
  - reflexivity.
  - apply andb_prop in Hs as [Hc Hs]. apply negb_true_iff in Hc.
    rewrite Hc. now rewrite IH.
Qed.

Lemma split_comma_aux_first (acc : string -> string) (p rest : string) :
  no_comma p = true ->
  split_comma_aux acc (p ++ "," ++ rest)
  = acc p :: split_comma_aux (fun t => t) rest.
Proof.
  revert acc. induction p as [|c p IH]; intros acc Hp; cbn in *.
  - reflexivity.
  - apply andb_prop in Hp as [Hc Hp]. apply negb_true_iff in Hc.
    rewrite Hc. now rewrite IH.
Qed.

(** X18: for a data URL - a header, a comma, the base64 data, with no
    other comma - the request [processImageWithAI] makes carries exactly
    the data; for an image string with no comma at all it carries none. *)
Theorem request_carries_the_image_data (API_KEY header data : string) :
  no_comma header = true -> no_comma data = true ->
  req_inlineData (request_for API_KEY (header ++ "," ++ data)) = Some data /\
  req_inlineData (request_for API_KEY header) = None.
Proof.
  intros Hheader Hdata. unfold request_for, split_comma; cbn [req_inlineData].
  rewrite (split_comma_aux_first _ _ _ Hheader).
  rewrite (split_comma_aux_no_comma _ _ Hdata).
  rewrite (split_comma_aux_no_comma _ _ Hheader).
  now split.
Qed.

(** *** The generators *)

Section WithEngine.
Context {engine : Engine}.
Variable API_KEY : string.
Variable Date : Type.
Variables toLocaleDateString toLocaleTimeString : Date -> string.

Lemma throw_http_error_throws (r : response) :
  exists e, throw_http_error r = Throw e.
Proof.
  unfold throw_http_error.
  destruct (resp_json r) as [errorData|]; cbn [bind]; [|eauto].
  destruct (get errorData "error") as [err|]; cbn [bind]; [|eauto].
  destruct (get_optional err "message") as [detail|]; cbn [bind]; eauto.
Qed.

(** The part the two generators share, given the message of their last
    [throw]. *)
Lemma generator_body (fetch : text_request -> completion response) req
  invalid :
  match
    try_catch
      (bind (fetch req) (fun response =>
       if negb (resp_ok response) then throw_http_error response else
       bind (resp_json response) (fun result =>
       bind (structure_valid result) (fun valid =>
       if valid then candidate_text result
       else Throw (Error invalid)))))
      (fun error => Throw error)
  with
  | Normal text =>
      exists r, fetch req = Normal r /\ resp_ok r = true /\
                reply_text r = Some text
  | Throw e =>
      fetch req = Throw e \/
      exists r, fetch req = Normal r /\
                (resp_ok r = false \/ reply_text r = None)
  end.
Proof.
  destruct (fetch req) as [r|e] eqn:Hfetch; cbn [bind try_catch]; [|now left].
  destruct (resp_ok r) eqn:Hok; cbn [negb].
  - destruct (resp_json r) as [body|e] eqn:Hjson; cbn [bind try_catch].
    2: { right; exists r; unfold reply_text; rewrite Hjson; auto. }
    destruct (structure_valid body) as [[|]|e] eqn:Hvalid;
      cbn [bind try_catch].
    2, 3: right; exists r; unfold reply_text; rewrite Hjson, Hvalid; auto.
    destruct (candidate_text body) as [text|e] eqn:Htext; cbn [try_catch].
    + exists r; unfold reply_text; rewrite Hjson, Hvalid, Htext; auto.
    + right; exists r; unfold reply_text; rewrite Hjson, Hvalid, Htext; auto.
  - destruct (throw_http_error_throws r) as [e ->]. cbn [try_catch].
    right; exists r; auto.
Qed.

(** X19: [generateAttendanceSummary] resolves exactly when a key is
    configured and the request - made to the endpoint with no key in its
    URL, with the prompt built from the logs - gets an [ok] response
    with a readable text, and then resolves to that text; in every other
    case it rejects, without a key with its own message. *)
Theorem generateAttendanceSummary_outcome fetch attendanceLogs :
  generated API_KEY
    {| treq_url := keyless_url;
       treq_prompt := summary_prompt Date toLocaleDateString
                        toLocaleTimeString attendanceLogs |}
    fetch "Gemini API Key is not configured for summary generation."
    (generateAttendanceSummary API_KEY Date toLocaleDateString
       toLocaleTimeString fetch attendanceLogs).
Proof.
  unfold generateAttendanceSummary, generated.
  destruct (falsy_string API_KEY) eqn:Hkey.
  - left. split; [now apply GeminiFacts.falsy_string_true|reflexivity].
  - assert (Hne : API_KEY <> "") by (intros ->; discriminate).
    change apiUrl with keyless_url. cbv zeta.
    match goal with
    | |- match try_catch (bind (fetch ?req) _) _ with _ => _ end =>
        pose proof (generator_body fetch req
          "Failed to generate summary: Invalid AI response structure.") as Hbody
    end.
    match type of Hbody with
    | match ?x with _ => _ end => destruct x
    end; [now split|right; now split].
Qed.

(** X20: [generateWelcomeMessage] resolves exactly when a key is
    configured and the request - made to the endpoint with no key in its
    URL, with the prompt that names the person - gets an [ok] response
    with a readable text, and then resolves to that text; in every other
    case it rejects, without a key with its own message. *)
Theorem generateWelcomeMessage_outcome fetch personName :
  generated API_KEY
    {| treq_url := keyless_url; treq_prompt := welcome_prompt personName |}
    fetch "Gemini API Key is not configured for welcome message generation."
    (generateWelcomeMessage API_KEY fetch personName).
Proof.
  unfold generateWelcomeMessage, generated.
  destruct (falsy_string API_KEY) eqn:Hkey.
  - left. split; [now apply GeminiFacts.falsy_string_true|reflexivity].
  - assert (Hne : API_KEY <> "") by (intros ->; discriminate).
    change apiUrl with keyless_url. cbv zeta.
    match goal with
    | |- match try_catch (bind (fetch ?req) _) _ with _ => _ end =>
        pose proof (generator_body fetch req
          "Failed to generate welcome message: Invalid AI response structure.")
          as Hbody
    end.
    match type of Hbody with
    | match ?x with _ => _ end => destruct x
    end; [now split|right; now split].
Qed.

End WithEngine.

(** *** The properties at sample keys and images *)

Lemma short_key_is_logged_whole_witness :
  0 < String.length "abc" <= 5 /\ logged_API_KEY "abc" = "abc...abc".
Proof.
  assert (Hlen : 0 < String.length "abc" <= 5) by (cbn; lia).
  split; [exact Hlen|].
  exact (short_key_is_logged_whole "abc" Hlen).
Defined.

Lemma long_key_is_logged_by_its_ends_witness :
  10 <= String.length "AIzaSy-0123456789" /\
  exists first middle last,
    "AIzaSy-0123456789" = first ++ middle ++ last /\
    String.length first = 5 /\ String.length last = 5 /\
    logged_API_KEY "AIzaSy-0123456789" = first ++ "..." ++ last.
Proof.
  assert (Hlen : 10 <= String.length "AIzaSy-0123456789") by (cbn; lia).
  split; [exact Hlen|].
  exact (long_key_is_logged_by_its_ends "AIzaSy-0123456789" Hlen).
Defined.

Lemma request_carries_the_image_data_witness :
  no_comma "data:image/png;base64" = true /\
  no_comma "Zmlyc3Q=" = true /\
  req_inlineData (request_for Sample.key Sample.frame1) = Some "Zmlyc3Q=".
Proof.
  split; [reflexivity|]. split; [reflexivity|].
  exact (proj1 (request_carries_the_image_data Sample.key
                  "data:image/png;base64" "Zmlyc3Q=" eq_refl eq_refl)).
Defined.

End GeminiTextFacts.

(* ================================================================== *)
(** ** Properties of the Firebase module                               *)
(* ================================================================== *)

Module FirebaseConfigFacts.
Import JS FirebaseConfig.

Section WithSdk.
Context {engine : Engine}.
Variables FirebaseApp SdkAuth Firestore : Type.
Variable initializeApp : value -> completion FirebaseApp.
Variable getAuth : FirebaseApp -> completion SdkAuth.
Variable getFirestore : FirebaseApp -> completion Firestore.
Variable Object_keys_TypeError : error.

Local Notation load :=
  (load FirebaseApp SdkAuth Firestore initializeApp getAuth getFirestore
     Object_keys_TypeError).
Local Notation Object_keys := (Object_keys Object_keys_TypeError).
Local Notation unusable := (unusable Object_keys_TypeError).

Lemma localFirebaseConfig_resolves env :
  exists v, localFirebaseConfig env = Normal v.
Proof.
  unfold localFirebaseConfig.
  destruct (truthy (VITE_FIREBASE_CONFIG env)); cbn; [|eauto].
  destruct (JSON_parse _); cbn; eauto.
Qed.

Lemma Object_keys_throws v e :
  Object_keys v = Throw e <->
  (v = VNull \/ v = VUndefined) /\ e = Object_keys_TypeError.
Proof.
  destruct v; cbn; split; try discriminate;
    try (intros [[H|H] _]; discriminate).
  - intros H; inversion H; auto.
  - intros [_ ->]; reflexivity.
  - intros H; inversion H; auto.
  - intros [_ ->]; reflexivity.
Qed.

(** Reading a property of a value that has keys does not throw. *)
Lemma get_after_keys v keys p :
  Object_keys v = Normal keys -> exists x, get v p = Normal x.
Proof.
  destruct v; cbn; try discriminate; intros _; eauto;
    destruct (p =? "length"); eauto.
Qed.

(** With a configuration that has no key or no truthy [apiKey],
    [initializeFirebase] takes its early exit. *)
Lemma initializeFirebase_unusable (m : Loaded SdkAuth Firestore) :
  unusable (firebaseConfig m) ->
  initializeFirebase Object_keys_TypeError m
  = Normal {| returned_auth := None; ready_set := true;
              listening := false |}.
Proof.
  intros (keys & Hkeys & Hbad). unfold initializeFirebase.
  rewrite Hkeys. cbn [bind].
  destruct keys as [|k keys]; [reflexivity|]. cbn.
  destruct Hbad as [Hnil|(apiKey & Hget & Hfalse)]; [discriminate|].
  rewrite Hget. cbn [bind]. now rewrite Hfalse.
Qed.

(** The load, once the two configurations are read. *)
Lemma load_selected g env canvas local :
  canvasFirebaseConfig g = Normal canvas ->
  localFirebaseConfig env = Normal local ->
  match Object_keys (or_else canvas local) with
  | Throw e => load g env = Throw e
  | Normal keys =>
      exists m, load g env = Normal m /\
        firebaseConfig m = or_else canvas local /\
        ((auth m = DummyAuth /\ db m = EmptyObject) \/
         ((exists a, auth m = RealAuth a) /\ (exists d, db m = RealDb d) /\
          keys <> [] /\
          exists apiKey, get (or_else canvas local) "apiKey" = Normal apiKey /\
                         truthy apiKey = true))
  end.
Proof.
  intros Hcanvas Hlocal. unfold FirebaseConfig.load.
  rewrite Hcanvas, Hlocal. cbn [bind].
  destruct (Object_keys (or_else canvas local)) as [keys|e] eqn:Hkeys;
    cbn [bind]; [|reflexivity].
  destruct (0 <? List.length keys)%nat eqn:Hlen;
    [|eexists; split; [reflexivity|]; cbn; auto].
  destruct (get_after_keys _ _ "apiKey" Hkeys) as [apiKey HapiKey].
  rewrite HapiKey. cbn [bind].
  destruct (truthy apiKey) eqn:Htruthy;
    [|eexists; split; [reflexivity|]; cbn; auto].
  destruct (initializeApp (or_else canvas local)) as [app|]; cbn;
    [|eexists; split; [reflexivity|]; cbn; auto].
  destruct (getAuth app) as [a|]; cbn;
    [|eexists; split; [reflexivity|]; cbn; auto].
  destruct (getFirestore app) as [d|]; cbn;
    [|eexists; split; [reflexivity|]; cbn; auto].
  eexists; split; [reflexivity|]. cbn. split; [reflexivity|]. right.
  repeat split; eauto.
  intros ->. discriminate.
Qed.

(** X21: loading the module throws exactly when [__firebase_config] is
    defined and is not valid JSON, or when the configuration selected -
    the Canvas one, else the one of [VITE_FIREBASE_CONFIG] - is [null] or
    [undefined]; a [VITE_FIREBASE_CONFIG] that does not parse never makes
    it throw. *)
Theorem load_throws_iff g env e :
  load g env = Throw e <->
  canvasFirebaseConfig g = Throw e \/
  exists canvas local,
    canvasFirebaseConfig g = Normal canvas /\
    localFirebaseConfig env = Normal local /\
    (or_else canvas local = VNull \/ or_else canvas local = VUndefined) /\
    e = Object_keys_TypeError.
Proof.
  destruct (localFirebaseConfig_resolves env) as [local Hlocal].
  destruct (canvasFirebaseConfig g) as [canvas|e'] eqn:Hcanvas.
  - pose proof (load_selected g env canvas local Hcanvas Hlocal) as Hload.
    destruct (Object_keys (or_else canvas local)) as [keys|e'] eqn:Hkeys.
    + destruct Hload as (m & Hm & _). rewrite Hm. split; [discriminate|].
      intros [H|(c & l & Hc & Hl & Hnull & He)]; [discriminate|].
      inversion Hc; subst c. rewrite Hlocal in Hl. inversion Hl; subst l.
      assert (Hthrow : Object_keys (or_else canvas local) = Throw e)
        by now apply Object_keys_throws.
      congruence.
    + rewrite Hload. apply Object_keys_throws in Hkeys as [Hnull ->].
      split.
      * intros H; inversion H; subst e. right. now exists canvas, local.
      * intros [H|(c & l & _ & _ & _ & ->)]; [discriminate|reflexivity].
  - unfold FirebaseConfig.load. rewrite Hcanvas. cbn [bind]. split.
    + intros H; inversion H; now left.
    + intros [H|(c & l & Hc & _)]; [now inversion H|discriminate].
Qed.

(** X22: after a load that did not throw, [auth] and [db] are both the
    SDK's or both the dummies, and [initializeFirebase] does not throw:
    with a configuration that has no key or no truthy [apiKey] - the
    module then holds the dummies - it sets [isAuthReady], registers no
    listener and returns [auth: null]; with any other configuration it
    registers its listener and returns the module's [auth], the dummy
    included when the SDK could not be initialized. *)
Theorem initializeFirebase_after_load g env m :
  load g env = Normal m ->
  ((auth m = DummyAuth /\ db m = EmptyObject) \/
   ((exists a, auth m = RealAuth a) /\ (exists d, db m = RealDb d))) /\
  exists init,
    initializeFirebase Object_keys_TypeError m = Normal init /\
    (unusable (firebaseConfig m) ->
     auth m = DummyAuth /\ db m = EmptyObject /\
     returned_auth init = None /\ ready_set init = true /\
     listening init = false) /\
    (~ unusable (firebaseConfig m) ->
     returned_auth init = Some (auth m) /\ ready_set init = false /\
     listening init = true).
Proof.
  intros Hload.
  destruct (localFirebaseConfig_resolves env) as [local Hlocal].
  destruct (canvasFirebaseConfig g) as [canvas|e'] eqn:Hcanvas.
  2: { unfold FirebaseConfig.load in Hload. rewrite Hcanvas in Hload.
       discriminate. }
  pose proof (load_selected g env canvas local Hcanvas Hlocal) as Hsel.
  destruct (Object_keys (or_else canvas local)) as [keys|e'] eqn:Hkeys;
    [|congruence].
  destruct Hsel as (m' & Hm' & Hconfig & Hpair).
  rewrite Hload in Hm'. inversion Hm'; subst m'. clear Hm'.
  split; [destruct Hpair as [?|(? & ? & _)]; auto|].
  unfold initializeFirebase, FirebaseConfig.unusable.
  rewrite Hconfig, Hkeys. cbn [bind].
  destruct keys as [|k keys]; cbn.
  - eexists; split; [reflexivity|]. split.
    + intros _. destruct Hpair as [[Ha Hd]|(_ & _ & Hne & _)];
        [now repeat split|now elim Hne].
    + intros Hnot. elim Hnot. exists []. split; [reflexivity|now left].
  - destruct (get_after_keys _ _ "apiKey" Hkeys) as [apiKey HapiKey].
    rewrite HapiKey. cbn [bind].
    destruct (truthy apiKey) eqn:Htruthy; cbn;
      (eexists; split; [reflexivity|]); split.
    + intros (keys' & Hk' & [->|(apiKey' & Hget & Hfalse)]);
        [discriminate|congruence].
    + now intros _.
    + intros _. destruct Hpair as [[Ha Hd]|(_ & _ & _ & apiKey' & Hget & Ht)];
        [now repeat split|congruence].
    + intros Hnot. elim Hnot. exists (k :: keys). split; [reflexivity|].
      right. now exists apiKey.
Qed.

End WithSdk.

(** *** The properties at a sample configuration *)

Lemma initializeFirebase_after_load_witness :
  MoreSamples.sdk_load MoreSamples.no_globals MoreSamples.configured
  = Normal MoreSamples.loaded /\
  exists init,
    initializeFirebase (engine := MoreSamples.config_engine) MoreSamples.keys_error
      MoreSamples.loaded = Normal init.
Proof.
  assert (Hload : MoreSamples.sdk_load MoreSamples.no_globals
                    MoreSamples.configured = Normal MoreSamples.loaded)
    by (vm_compute; reflexivity).
  split; [exact Hload|].
  destruct (initializeFirebase_after_load (engine := MoreSamples.config_engine)
              unit unit unit (fun _ => Normal tt) (fun _ => Normal tt)
              (fun _ => Normal tt) MoreSamples.keys_error
              MoreSamples.no_globals MoreSamples.configured
              MoreSamples.loaded Hload)
    as (_ & init & Hinit & _).
  exists init. exact Hinit.
Defined.

End FirebaseConfigFacts.

(* ================================================================== *)
(** ** Properties of [App]                                             *)
(* ================================================================== *)

Module AppFacts.
Import JS FirebaseConfig App.

Section Shell.
Context {engine : Engine}.
Variables SdkAuth Firestore : Type.
Variable Object_keys_TypeError : error.

Local Notation Loaded := (Loaded SdkAuth Firestore).
Local Notation mount := (app_mount SdkAuth Firestore Object_keys_TypeError).
Local Notation step := (app_step SdkAuth Firestore).
Local Notation run := (app_run SdkAuth Firestore).
Local Notation unusable := (unusable Object_keys_TypeError).

(** *** The message and its timeout *)

Lemma setMessage_rendered_timed v st : timed st -> timed (setMessage_rendered v st).
Proof.
  unfold timed, setMessage_rendered. intros Hst.
  destruct (v =? message (app_cells st)) eqn:Hsame; [exact Hst|]. cbn.
  unfold falsy_string. destruct (v =? "") eqn:Hv; cbn.
  - now apply String.eqb_eq.
  - apply String.eqb_neq in Hv. split; [exact Hv|lia].
Qed.

Lemma timeout_timed st : timed (timeout st).
Proof.
  unfold timeout, timed, setMessage_rendered. cbn.
  destruct (message (app_cells st)) eqn:Hmessage; cbn; [|reflexivity].
  exact Hmessage.
Qed.

Lemma step_timed (m : Loaded) e st st' :
  timed st -> step m e st = Some st' -> timed st'.
Proof.
  intros Hst Hstep. destruct e; cbn in Hstep.
  - destruct (subscribed st); [|discriminate]. inversion Hstep; subst st'.
    destruct user; exact Hst.
  - destruct (signIns st) as [|[[|] call] rest]; [discriminate| |];
      inversion Hstep; subst st'; exact Hst.
  - destruct (signIns st) as [|[[|] call] rest]; [discriminate| |];
      inversion Hstep; subst st'; [|exact Hst].
    unfold settled.
    apply (setMessage_rendered_timed "Failed to authenticate. Please try again."
             (set_signIns rest st) Hst).
  - inversion Hstep; subst st'. now apply setMessage_rendered_timed.
  - unfold timed in Hst. destruct (timer st) as [remaining|] eqn:Htimer.
    + destruct (remaining <=? ms)%nat eqn:Hle; inversion Hstep; subst st'.
      * apply timeout_timed.
      * apply Nat.leb_gt in Hle. unfold timed; cbn. split; [tauto|lia].
    + inversion Hstep; subst st'. unfold timed. now rewrite Htimer.
Qed.

Lemma run_timed (m : Loaded) es st st' :
  timed st -> run m es st = Some st' -> timed st'.
Proof.
  revert st. induction es as [|e es IH]; intros st Hst Hrun; cbn in Hrun.
  - now inversion Hrun; subst.
  - destruct (step m e st) as [st1|] eqn:Hstep; [|discriminate].
    apply (IH st1); [|exact Hrun]. now apply (step_timed m e st).
Qed.

Lemma mount_timed (m : Loaded) currentUser st :
  mount m currentUser = Normal st -> timed st.
Proof.
  unfold App.app_mount.
  destruct (initializeFirebase _ m) as [init|]; [|discriminate].
  destruct (returned_auth init) as [a|];
    [destruct (signInUser m (Some a) currentUser)|];
    intros H; injection H as <-; reflexivity.
Qed.

(** X23: at every moment of [App]'s life a timeout is pending exactly
    while a message is shown, with at most 5000 ms to go; so five
    seconds in which nothing sets the message leave none on the page. *)
Theorem message_is_cleared_within_five_seconds (m : Loaded) currentUser es
  st0 st :
  mount m currentUser = Normal st0 ->
  run m es st0 = Some st ->
  (timer st = None <-> message (app_cells st) = "") /\
  (forall remaining, timer st = Some remaining -> 0 < remaining <= 5000) /\
  forall ms, 5000 <= ms ->
    exists st', step m (Elapse ms) st = Some st' /\
                message (app_cells st') = "" /\ timer st' = None.
Proof.
  intros Hmount Hrun.
  pose proof (run_timed m es st0 st (mount_timed m currentUser st0 Hmount) Hrun)
    as Hst.
  unfold timed in Hst. split; [|split].
  - split.
    + intros Hnone. now rewrite Hnone in Hst.
    + intros Hempty. destruct (timer st); [tauto|reflexivity].
  - intros remaining Htimer. rewrite Htimer in Hst. tauto.
  - intros ms Hms. cbn. destruct (timer st) as [remaining|] eqn:Htimer.
    + assert (Hle : (remaining <=? ms)%nat = true) by (apply Nat.leb_le; lia).
      rewrite Hle. eexists; split; [reflexivity|].
      unfold timeout, setMessage_rendered. cbn.
      destruct (message (app_cells st)) eqn:Hmessage; cbn; now split.
    + eexists; split; [reflexivity|]. now split.
Qed.

(** *** The user *)

Lemma setMessage_rendered_user v st :
  userId (app_cells (setMessage_rendered v st)) = userId (app_cells st) /\
  isAuthReady (app_cells (setMessage_rendered v st)) = isAuthReady (app_cells st) /\
  subscribed (setMessage_rendered v st) = subscribed st /\
  signIns (setMessage_rendered v st) = signIns st.
Proof. unfold setMessage_rendered. destruct (v =? _); now repeat split. Qed.

Lemma step_user (m : Loaded) e st st' :
  step m e st = Some st' ->
  userId (app_cells st') = last_user [e] (userId (app_cells st)) /\
  (isAuthReady (app_cells st) = true -> isAuthReady (app_cells st') = true).
Proof.
  intros Hstep. destruct e; cbn in Hstep.
  - destruct (subscribed st); [|discriminate]. inversion Hstep; subst st'.
    destruct user; now split.
  - destruct (signIns st) as [|[[|] call] rest]; [discriminate| |];
      inversion Hstep; subst st'; now split.
  - destruct (signIns st) as [|[[|] call] rest]; [discriminate| |];
      inversion Hstep; subst st'; [|now split].
    cbn.
    destruct (setMessage_rendered_user "Failed to authenticate. Please try again."
                (set_signIns rest st)) as (Hu & _).
    split; [exact Hu|reflexivity].
  - inversion Hstep; subst st'.
    destruct (setMessage_rendered_user m0 st) as (Hu & Hr & _).
    rewrite Hu, Hr. now split.
  - destruct (timer st) as [remaining|];
      [destruct (remaining <=? ms)%nat|]; inversion Hstep; subst st';
      try now split.
    unfold timeout.
    destruct (setMessage_rendered_user "" (set_timer None st)) as (Hu & Hr & _).
    rewrite Hu, Hr. now split.
Qed.

(** X24: [userId] is the user of the last report of a signed-in user
    the listener received, and is never cleared: a report that nobody
    is signed in starts a sign-in and leaves the [userId] shown and
    handed to the children; [isAuthReady], once set, stays set. *)
Theorem userId_is_the_last_signed_in_user (m : Loaded) es st st' :
  run m es st = Some st' ->
  userId (app_cells st') = last_user es (userId (app_cells st)) /\
  (userId (app_cells st) <> None -> userId (app_cells st') <> None) /\
  (isAuthReady (app_cells st) = true -> isAuthReady (app_cells st') = true).
Proof.
  revert st. induction es as [|e es IH]; intros st Hrun; cbn in Hrun.
  - inversion Hrun; subst. now repeat split.
  - destruct (step m e st) as [st1|] eqn:Hstep; [|discriminate].
    destruct (step_user m e st st1 Hstep) as [Hu Hr].
    destruct (IH st1 Hrun) as (Hu' & Hkeep & Hr').
    assert (Hlast : last_user (e :: es) (userId (app_cells st))
                    = last_user es (userId (app_cells st1))).
    { rewrite Hu. destruct e as [[uid|]| | | |]; reflexivity. }
    repeat split.
    + now rewrite Hlast.
    + intros Hsome. apply Hkeep. rewrite Hu.
      destruct e as [[uid|]| | | |]; cbn; congruence.
    + auto.
Qed.

(** *** Without a configuration *)

Lemma step_idle (m : Loaded) e st st' :
  subscribed st = false -> signIns st = [] ->
  step m e st = Some st' ->
  subscribed st' = false /\ signIns st' = [] /\
  userId (app_cells st') = userId (app_cells st).
Proof.
  intros Hsub Hsign Hstep. destruct e; cbn in Hstep;
    rewrite ?Hsub, ?Hsign in Hstep; try discriminate.
  - inversion Hstep; subst st'.
    destruct (setMessage_rendered_user m0 st) as (Hu & _ & Hs & Hi).
    now rewrite Hu, Hs, Hi.
  - destruct (timer st) as [remaining|];
      [destruct (remaining <=? ms)%nat|]; inversion Hstep; subst st';
      try now repeat split.
    unfold timeout.
    destruct (setMessage_rendered_user "" (set_timer None st)) as (Hu & _ & Hs & Hi).
    now rewrite Hu, Hs, Hi.
Qed.

(** X25: with a configuration that has no key or no truthy [apiKey],
    [App] marks the authentication ready at once, registers no listener
    and makes no sign-in call, then or later; its [userId] stays [null]
    whatever happens, and the page keeps showing "Authenticating...". *)
Theorem without_configuration_nobody_signs_in (m : Loaded) currentUser es :
  unusable (firebaseConfig m) ->
  exists st0,
    mount m currentUser = Normal st0 /\
    isAuthReady (app_cells st0) = true /\
    forall st, run m es st0 = Some st ->
      subscribed st = false /\ signIns st = [] /\
      userId (app_cells st) = None /\
      shown_user (app_cells st) = "Authenticating...".
Proof.
  intros Hbad. unfold App.app_mount.
  rewrite (FirebaseConfigFacts.initializeFirebase_unusable
             SdkAuth Firestore Object_keys_TypeError m Hbad).
  cbn [returned_auth ready_set listening].
  eexists; split; [reflexivity|]. split; [reflexivity|].
  set (st0 := {| app_cells := _ |}).
  assert (Hinv : forall es st, subscribed st = false -> signIns st = [] ->
            forall st', run m es st = Some st' ->
            subscribed st' = false /\ signIns st' = [] /\
            userId (app_cells st') = userId (app_cells st)).
  { clear. intros es. induction es as [|e es IH]; intros st Hs Hi st' Hrun;
      cbn in Hrun.
    - inversion Hrun; subst. now repeat split.
    - destruct (step m e st) as [st1|] eqn:Hstep; [|discriminate].
      destruct (step_idle m e st st1 Hs Hi Hstep) as (Hs1 & Hi1 & Hu1).
      destruct (IH st1 Hs1 Hi1 st' Hrun) as (? & ? & Hu').
      repeat split; try assumption. congruence. }
  intros st Hrun.
  destruct (Hinv es st0 eq_refl eq_refl st Hrun) as (Hs & Hi & Hu).
  repeat split; try assumption.
  unfold shown_user. now rewrite Hu.
Qed.

End Shell.

(** *** The properties at a sample configuration *)

Lemma message_is_cleared_within_five_seconds_witness :
  App.app_mount (engine := MoreSamples.config_engine) unit unit MoreSamples.keys_error
    MoreSamples.loaded false = Normal MoreSamples.mounted_app /\
  exists st,
    App.app_run unit unit MoreSamples.loaded
      [ChildMessage "Ready for new attendance capture."; Elapse 1000]
      MoreSamples.mounted_app = Some st /\
    timer st = Some 4000 /\
    exists st',
      App.app_step unit unit MoreSamples.loaded (Elapse 5000) st = Some st' /\
      message (app_cells st') = "".
Proof.
  assert (Hmount : App.app_mount (engine := MoreSamples.config_engine) unit unit
                     MoreSamples.keys_error MoreSamples.loaded false
                   = Normal MoreSamples.mounted_app)
    by (vm_compute; reflexivity).
  split; [exact Hmount|].
  eexists. split; [vm_compute; reflexivity|]. split; [reflexivity|].
  match goal with
  | |- exists st', App.app_step _ _ _ _ ?st = _ /\ _ =>
      destruct (message_is_cleared_within_five_seconds
                  (engine := MoreSamples.config_engine) unit unit
                  MoreSamples.keys_error MoreSamples.loaded false
                  [ChildMessage "Ready for new attendance capture.";
                   Elapse 1000]
                  MoreSamples.mounted_app st Hmount eq_refl)
        as (_ & _ & Hclear)
  end.
  destruct (Hclear 5000 (le_n 5000)) as (st' & Hstep & Hmessage & _).
  exists st'. split; [exact Hstep|exact Hmessage].
Defined.

Lemma userId_is_the_last_signed_in_user_witness :
  exists st',
    App.app_run unit unit MoreSamples.loaded
      [AuthStateReported (Some "user-1"); AuthStateReported None]
      MoreSamples.mounted_app = Some st' /\
    userId (app_cells st') = Some "user-1".
Proof.
  eexists. split; [vm_compute; reflexivity|].
  match goal with
  | |- userId (app_cells ?st') = _ =>
      exact (proj1 (userId_is_the_last_signed_in_user unit unit
                      MoreSamples.loaded
                      [AuthStateReported (Some "user-1"); AuthStateReported None]
                      MoreSamples.mounted_app st' eq_refl))
  end.
Defined.

Lemma without_configuration_nobody_signs_in_witness :
  FirebaseConfig.unusable (engine := MoreSamples.config_engine)
    MoreSamples.keys_error (firebaseConfig MoreSamples.unconfigured) /\
  exists st0,
    App.app_mount (engine := MoreSamples.config_engine) unit unit MoreSamples.keys_error
      MoreSamples.unconfigured false = Normal st0 /\
    isAuthReady (app_cells st0) = true.
Proof.
  assert (Hbad : FirebaseConfig.unusable (engine := MoreSamples.config_engine)
                   MoreSamples.keys_error
                   (firebaseConfig MoreSamples.unconfigured)).
  { exists []. split; [reflexivity|now left]. }
  split; [exact Hbad|].
  destruct (without_configuration_nobody_signs_in
              (engine := MoreSamples.config_engine) unit unit MoreSamples.keys_error
              MoreSamples.unconfigured false [] Hbad)
    as (st0 & Hmount & Hready & _).
  exists st0. split; [exact Hmount|exact Hready].
Defined.

End AppFacts.
